(** * Weather-station normalisation and distance ranking

    A shallow embedding of the Python sources [weather_api.py] and
    [distance_calculator.py], of the heat-map loop of [weather_map.py]
    and of the summary step of [main.py].

    Modelling conventions.
    - JSON-shaped Python values are the inductive [pyval]; a [dict] with
      string keys is a [gmap string pyval].
    - Python floats are idealised as real numbers: no rounding of the
      arithmetic, and the non-finite floats (inf, nan) are outside the
      model.  The builtin [float] on strings is the interface [PyFloat].
      Where the floats of Python part from the real numbers, a statement
      says so in its hypotheses: coordinates are degrees of the globe
      ([latitude_range], [longitude_range]), which keeps the argument of
      [math.sqrt] and [math.asin] inside their domain and leaves out the
      strings [float] reads as nan or as an infinity, and a number that
      is compared or ordered lies between two bounds.
    - An exception is a value of [exn]; code that may raise returns a
      [result]; code that prints returns the printed lines together with
      its result ([io]).
    - The station dicts handled by
      [calculate_distances_to_taipei_station] live in a store indexed by
      object identity, so that [dict.copy] and item assignment are
      distinguishable from a mutation of the input. *)

From Stdlib Require Import Reals Lra Lia Ascii String Sorted.
From stdpp Require Import gmap strings list fin_maps.

#[local] Set Warnings "-register-all".
#[local] Open Scope string_scope.
#[local] Open Scope list_scope.

(** ** Python values, exceptions and builtins *)

Module Py.

Inductive exn :=
| AttributeError | KeyError | TypeError | ValueError
| IndexError | ZeroDivisionError.

Inductive result (A : Type) :=
| Ok (a : A)
| Err (e : exn).
Arguments Ok {A} a.
Arguments Err {A} e.

#[global] Instance result_ret : MRet result := fun A a => Ok a.
#[global] Instance result_bind : MBind result := fun A B f m =>
  match m with
  | Ok a => f a
  | Err e => Err e
  end.

(** Printing code: the lines written to standard output, in order, and
    the result.  The lines printed before an exception are kept. *)
Definition io (L A : Type) : Type := (list L * result A)%type.

#[global] Instance io_ret {L} : MRet (io L) := fun A a => ([], Ok a).
#[global] Instance io_bind {L} : MBind (io L) := fun A B f m =>
  match m with
  | (t, Ok a) => let (t', r) := f a in (t ++ t', r)
  | (t, Err e) => (t, Err e)
  end.

Definition print {L} (l : L) : io L unit := ([l], Ok tt).
Definition lift {L A} (r : result A) : io L A := ([], r).

Inductive pyval :=
| PNone
| PBool (b : bool)
| PNum (x : R)
| PStr (s : string)
| PList (l : list pyval)
| PDict (d : gmap string pyval).

(** [bool(v)]: the truth value used by [if v] and [not v]. *)
Definition truthy (v : pyval) : bool :=
  match v with
  | PNone => false
  | PBool b => b
  | PNum x => if Req_dec_T x 0 then false else true
  | PStr s => negb (String.eqb s "")
  | PList l => negb (Nat.eqb (length l) 0)
  | PDict d => negb (Nat.eqb (size d) 0)
  end.

(** [v.get(k, default)]: only a dict has the method. *)
Definition py_get (v : pyval) (k : string) (dflt : pyval) : result pyval :=
  match v with
  | PDict d => Ok (default dflt (d !! k))
  | _ => Err AttributeError
  end.

(** [v[k]] for a string key [k]. *)
Definition py_getitem (v : pyval) (k : string) : result pyval :=
  match v with
  | PDict d =>
      match d !! k with
      | Some x => Ok x
      | None => Err KeyError
      end
  | _ => Err TypeError
  end.

(** The elements visited by [for x in v]: a list yields its elements, a
    dict its keys, a string its characters; nothing else is iterable. *)
Definition py_iter (v : pyval) : result (list pyval) :=
  match v with
  | PList l => Ok l
  | PDict d => Ok (PStr <$> (map_to_list d).*1)
  | PStr s => Ok ((fun c => PStr (String c EmptyString)) <$> String.list_ascii_of_string s)
  | _ => Err TypeError
  end.

(** [v == s] for a string literal [s]. *)
Definition py_eq_str (v : pyval) (s : string) : bool :=
  match v with
  | PStr s' => String.eqb s' s
  | _ => false
  end.

(** [l[i]] on a list. *)
Definition py_index {A} (l : list A) (i : nat) : result A :=
  match l !! i with
  | Some x => Ok x
  | None => Err IndexError
  end.

(** A value used as a number: [bool] is a subclass of [int]. *)
Definition py_number (v : pyval) : result R :=
  match v with
  | PNum x => Ok x
  | PBool b => Ok (if b then 1%R else 0%R)
  | _ => Err TypeError
  end.

(** [format(v, "<width>s")], as in [f"{v:12s}"]: defined on [str] only.
    The padding to the width is not modelled: the result is the text. *)
Definition format_s (v : pyval) : result string :=
  match v with
  | PStr s => Ok s
  | PBool _ | PNum _ => Err ValueError
  | PNone | PList _ | PDict _ => Err TypeError
  end.

(** The builtin [float] on a [str]: [None] stands for [ValueError].  The
    empty string is not a number. *)
Class PyFloat := {
  float_of_str : string → option R;
  float_of_str_empty : float_of_str "" = None
}.

(** [float(v)].  A number converts to itself: the model has no integer
    too large for a float, on which Python raises [OverflowError], and
    no nan or infinity. *)
Definition py_float `{PyFloat} (v : pyval) : result R :=
  match v with
  | PStr s =>
      match float_of_str s with
      | Some x => Ok x
      | None => Err ValueError
      end
  | PNum x => Ok x
  | PBool b => Ok (if b then 1%R else 0%R)
  | PNone | PList _ | PDict _ => Err TypeError
  end.

(** [x / y]. *)
Definition py_truediv (x y : R) : result R :=
  if Req_dec_T y 0 then Err ZeroDivisionError else Ok (x / y)%R.

(** [min(l)] and [max(l)]: the first least, respectively greatest,
    element, found with [<] and [>]. *)
Definition py_min (l : list R) : result R :=
  match l with
  | [] => Err ValueError
  | x :: l' => Ok (fold_left (fun m y => if Rlt_dec y m then y else m) l' x)
  end.

Definition py_max (l : list R) : result R :=
  match l with
  | [] => Err ValueError
  | x :: l' => Ok (fold_left (fun m y => if Rgt_dec y m then y else m) l' x)
  end.

(** [sum(l)]. *)
Definition py_sum (l : list R) : R := fold_left Rplus l 0%R.

(** [sorted(l, key=key)]: a stable sort that compares keys with [<]
    only.  The model inserts each element in front of the first one that
    is not smaller, so equal keys keep their input order. *)
Section sorted.
Context {A K : Type} (key : A → K) (lt : K → K → bool).

Fixpoint insert_sorted (x : A) (l : list A) : list A :=
  match l with
  | [] => [x]
  | y :: l' =>
      if lt (key y) (key x) then y :: insert_sorted x l' else x :: y :: l'
  end.

Definition py_sorted (l : list A) : list A := foldr insert_sorted [] l.
End sorted.

Definition Rltb (x y : R) : bool := if Rlt_dec x y then true else false.

(** [[f(x) for x in l]] where [f] may raise. *)
Fixpoint map_result {A B} (f : A → result B) (l : list A) : result (list B) :=
  match l with
  | [] => Ok []
  | x :: l' => y ← f x; ys ← map_result f l'; Ok (y :: ys)
  end.

(** *** Notions used in the statements *)

#[global] Instance R_eq_dec : EqDecision R := Req_dec_T.

Definition is_dict (v : pyval) : Prop :=
  match v with
  | PDict _ => True
  | _ => False
  end.

(** The sum of a list of numbers. *)
Fixpoint sum_list (l : list R) : R :=
  match l with
  | [] => 0
  | x :: l' => x + sum_list l'
  end.

(** A list in ascending order of its keys. *)
Definition ascending {A} (key : A → R) : list A → Prop :=
  StronglySorted (fun a b => (key a <= key b)%R).

End Py.

Import Py.

(** ** weather_api.py *)

Module WeatherApi.

(** The coordinate loop of [extract_temperature_data]: the first entry
    named WGS84 sets both coordinates of [location] and ends the loop. *)
Fixpoint coordinates_loop (coordinates : list pyval)
    (location : gmap string pyval) : result (gmap string pyval) :=
  match coordinates with
  | [] => Ok location
  | coord :: rest =>
      name ← py_get coord "CoordinateName" PNone;
      if py_eq_str name "WGS84" then
        lat ← py_get coord "StationLatitude" PNone;
        let location := <["latitude" := lat]> location in
        lon ← py_get coord "StationLongitude" PNone;
        let location := <["longitude" := lon]> location in
        Ok location
      else coordinates_loop rest location
  end.

(** The body of the [try] block: one raw station to one record. *)
Definition extract_station (station : pyval) : result pyval :=
  station_id ← py_get station "StationId" PNone;
  station_name ← py_get station "StationName" (PStr "");
  geo ← py_get station "GeoInfo" (PDict ∅);
  county ← py_get geo "CountyName" (PStr "");
  geo ← py_get station "GeoInfo" (PDict ∅);
  town ← py_get geo "TownName" (PStr "");
  obs ← py_get station "ObsTime" (PDict ∅);
  observation_time ← py_get obs "DateTime" (PStr "");
  let location : gmap string pyval :=
    {[ "county" := county; "town" := town;
       "latitude" := PNone; "longitude" := PNone ]} in
  geo ← py_get station "GeoInfo" (PDict ∅);
  coordinates ← py_get geo "Coordinates" (PList []);
  coords ← py_iter coordinates;
  location ← coordinates_loop coords location;
  weather_elements ← py_get station "WeatherElement" (PDict ∅);
  temperature ← py_get weather_elements "AirTemperature" PNone;
  let we : gmap string pyval := <["temperature" := temperature]> ∅ in
  humidity ← py_get weather_elements "RelativeHumidity" PNone;
  let we := <["humidity" := humidity]> we in
  pressure ← py_get weather_elements "AirPressure" PNone;
  let we := <["pressure" := pressure]> we in
  wind_speed ← py_get weather_elements "WindSpeed" PNone;
  let we := <["wind_speed" := wind_speed]> we in
  wind_direction ← py_get weather_elements "WindDirection" PNone;
  let we := <["wind_direction" := wind_direction]> we in
  weather ← py_get weather_elements "Weather" PNone;
  let we := <["weather" := weather]> we in
  now ← py_get weather_elements "Now" (PDict ∅);
  precipitation ← py_get now "Precipitation" PNone;
  let we := <["precipitation" := precipitation]> we in
  Ok (PDict {[ "station_id" := station_id;
               "station_name" := station_name;
               "location" := PDict location;
               "observation_time" := observation_time;
               "weather_elements" := PDict we ]}).

(** The message printed by the [except] clause. *)
Inductive skipped := Skipped (station_id : pyval) (e : exn).

(** The [for station in stations] loop.  [except Exception] catches every
    exception of the body; the handler reads [station.get] itself, which
    may raise in turn. *)
Fixpoint stations_loop (stations temperature_data : list pyval)
    : io skipped (list pyval) :=
  match stations with
  | [] => mret temperature_data
  | station :: rest =>
      match extract_station station with
      | Ok station_info =>
          stations_loop rest (temperature_data ++ [station_info])
      | Err e =>
          station_id ← lift (py_get station "StationId" (PStr "Unknown"));
          _ ← print (Skipped station_id e);
          stations_loop rest temperature_data
      end
  end.

Definition extract_temperature_data (weather_data : pyval)
    : io skipped (list pyval) :=
  if negb (truthy weather_data) then mret []
  else
    records ← lift (py_get weather_data "records" (PDict ∅));
    station_list ← lift (py_get records "Station" (PList []));
    stations ← lift (py_iter station_list);
    stations_loop stations [].

(** Lines printed by [print_temperature_summary].  The clock reading of
    the time line is left out; a field printed without a format
    specification is kept as the value it renders. *)
Inductive line :=
| L_no_data
| L_title
| L_total (n : nat)
| L_time
| L_rule
| L_max (temp : R) (station_name county town : pyval)
| L_min (temp : R) (station_name county town : pyval)
| L_list_title
| L_station (rank : nat) (station_name : string) (county town : pyval)
    (temp humidity weather : string).

Section temperature_summary.
Context `{PyFloat}.

(** The loop that collects [valid_temps]: only [ValueError] of [float]
    is caught. *)
Fixpoint valid_temps_loop (temperature_data : list pyval)
    (valid_temps : list (R * pyval)) : result (list (R * pyval)) :=
  match temperature_data with
  | [] => Ok valid_temps
  | d :: rest =>
      we ← py_getitem d "weather_elements";
      temp ← py_get we "temperature" PNone;
      if truthy temp && negb (py_eq_str temp "-99") then
        match py_float temp with
        | Ok x => valid_temps_loop rest (valid_temps ++ [(x, d)])
        | Err ValueError => valid_temps_loop rest valid_temps
        | Err e => Err e
        end
      else valid_temps_loop rest valid_temps
  end.

(** The name and place printed after an extreme temperature. *)
Definition station_place (d : pyval) : result (pyval * pyval * pyval) :=
  station_name ← py_getitem d "station_name";
  loc ← py_getitem d "location";
  county ← py_getitem loc "county";
  loc ← py_getitem d "location";
  town ← py_getitem loc "town";
  Ok (station_name, county, town).

Definition station_line (rank : nat) (station : pyval) : result line :=
  we ← py_getitem station "weather_elements";
  temp ← py_get we "temperature" (PStr "N/A");
  we ← py_getitem station "weather_elements";
  humidity ← py_get we "humidity" (PStr "N/A");
  we ← py_getitem station "weather_elements";
  weather ← py_get we "weather" (PStr "N/A");
  loc ← py_getitem station "location";
  county ← py_getitem loc "county";
  loc ← py_getitem station "location";
  town ← py_getitem loc "town";
  name ← py_getitem station "station_name";
  name ← format_s name;
  temp ← format_s temp;
  humidity ← format_s humidity;
  weather ← format_s weather;
  Ok (L_station rank name county town temp humidity weather).

Fixpoint print_stations (rank : nat) (stations : list pyval) : io line unit :=
  match stations with
  | [] => mret tt
  | station :: rest =>
      l ← lift (station_line rank station);
      _ ← print l;
      print_stations (S rank) rest
  end.

Definition print_temperature_summary (temperature_data : list pyval)
    : io line unit :=
  if negb (truthy (PList temperature_data)) then print L_no_data
  else
    _ ← print L_title;
    _ ← print (L_total (length temperature_data));
    _ ← print L_time;
    _ ← print L_rule;
    valid_temps ← lift (valid_temps_loop temperature_data []);
    _ ← (if negb (Nat.eqb (length valid_temps) 0) then
           let valid_temps := py_sorted fst Rltb valid_temps in
           hi ← lift (py_index valid_temps (length valid_temps - 1));
           '(name, county, town) ← lift (station_place hi.2);
           _ ← print (L_max hi.1 name county town);
           lo ← lift (py_index valid_temps 0);
           '(name, county, town) ← lift (station_place lo.2);
           print (L_min lo.1 name county town)
         else mret tt);
    _ ← print L_list_title;
    print_stations 1 (take 15 temperature_data).

End temperature_summary.

(** *** Notions used in the statements *)

(** The coordinate-system tag of a coordinate entry equals WGS84. *)
Definition wgs84 (coord : pyval) : bool :=
  match coord with
  | PDict c => py_eq_str (default PNone (c !! "CoordinateName")) "WGS84"
  | _ => false
  end.

Definition dict_or_absent (o : option pyval) : Prop :=
  match o with
  | None => True
  | Some v => is_dict v
  end.

(** The coordinate list of a raw station. *)
Definition raw_coordinates (station : gmap string pyval) : list pyval :=
  match station !! "GeoInfo" with
  | Some (PDict geo) =>
      match geo !! "Coordinates" with
      | Some (PList coords) => coords
      | _ => []
      end
  | _ => []
  end.

(** The shape of a raw station at the input boundary: the nested objects
    are objects when present, the coordinate list a list of objects. *)
Definition raw_station_typed (station : gmap string pyval) : Prop :=
  dict_or_absent (station !! "GeoInfo")
  ∧ dict_or_absent (station !! "ObsTime")
  ∧ dict_or_absent (station !! "WeatherElement")
  ∧ (∀ we, station !! "WeatherElement" = Some (PDict we) →
       dict_or_absent (we !! "Now"))
  ∧ (∀ geo, station !! "GeoInfo" = Some (PDict geo) →
       match geo !! "Coordinates" with
       | None => True
       | Some (PList coords) => Forall is_dict coords
       | Some _ => False
       end).

(** The [location] dict before the coordinate loop. *)
Definition empty_location (geo : gmap string pyval) : gmap string pyval :=
  {[ "county" := default (PStr "") (geo !! "CountyName");
     "town" := default (PStr "") (geo !! "TownName");
     "latitude" := PNone; "longitude" := PNone ]}.

(** The record assembled from the parts of a raw station. *)
Definition station_record (station obs we now location : gmap string pyval)
    : pyval :=
  PDict {[ "station_id" := default PNone (station !! "StationId");
           "station_name" := default (PStr "") (station !! "StationName");
           "location" := PDict location;
           "observation_time" := default (PStr "") (obs !! "DateTime");
           "weather_elements" :=
             PDict {[ "temperature" := default PNone (we !! "AirTemperature");
                      "humidity" := default PNone (we !! "RelativeHumidity");
                      "pressure" := default PNone (we !! "AirPressure");
                      "wind_speed" := default PNone (we !! "WindSpeed");
                      "wind_direction" := default PNone (we !! "WindDirection");
                      "weather" := default PNone (we !! "Weather");
                      "precipitation" := default PNone (now !! "Precipitation") ]} ]}.

(** The record of a station, when its extraction does not raise. *)
Definition record_of (station : pyval) : option pyval :=
  match extract_station station with
  | Ok r => Some r
  | Err _ => None
  end.

(** The station list of a document. *)
Definition raw_stations (doc : gmap string pyval) : list pyval :=
  match doc !! "records" with
  | Some (PDict records) =>
      match records !! "Station" with
      | Some (PList stations) => stations
      | _ => []
      end
  | _ => []
  end.

Definition doc_stations (doc : pyval) : list pyval :=
  match doc with
  | PDict d => raw_stations d
  | _ => []
  end.

(** The keys of a record and of its two nested dicts. *)
Definition station_keys : gset string :=
  {[ "station_id"; "station_name"; "location"; "observation_time";
     "weather_elements" ]}.
Definition location_keys : gset string :=
  {[ "county"; "town"; "latitude"; "longitude" ]}.
Definition element_keys : gset string :=
  {[ "temperature"; "humidity"; "pressure"; "wind_speed"; "wind_direction";
     "weather"; "precipitation" ]}.

(** The temperature of a normalised station, when the field exists. *)
Definition temperature_of (station : pyval) : option pyval :=
  match station with
  | PDict s =>
      match s !! "weather_elements" with
      | Some (PDict we) => we !! "temperature"
      | _ => None
      end
  | _ => None
  end.

(** The station holds the "no reading" sentinel. *)
Definition is_sentinel (station : pyval) : Prop :=
  temperature_of station = Some (PStr "-99").

(** The filter of the temperature summaries: a reading that is present
    and is not the sentinel. *)
Definition has_reading (station : pyval) : bool :=
  match temperature_of station with
  | Some temp => truthy temp && negb (py_eq_str temp "-99")
  | None => false
  end.

End WeatherApi.

(** ** distance_calculator.py *)

Module DistanceCalculator.

Section haversine.
#[local] Open Scope R_scope.

(** [math.radians], [math.sqrt] and [math.asin]; the last two raise
    [ValueError] outside their domain.  In real numbers the argument
    [a] of the square root always lies between 0 and 1.  In floats a
    rounded product of cosines of opposite signs can outweigh the
    squared sine and leave [a] below zero: this needs a latitude beyond
    90 degrees, which is why the statements bound the latitudes. *)
Definition radians (x : R) : R := x * (PI / 180).

Definition math_sqrt (x : R) : result R :=
  if Rlt_dec x 0 then Err ValueError else Ok (sqrt x).

Definition math_asin (x : R) : result R :=
  if Rle_dec (-1) x then
    if Rle_dec x 1 then Ok (asin x) else Err ValueError
  else Err ValueError.

Definition haversine_distance (lat1 lon1 lat2 lon2 : R) : result R :=
  let lat1 := radians lat1 in
  let lon1 := radians lon1 in
  let lat2 := radians lat2 in
  let lon2 := radians lon2 in
  let dlat := lat2 - lat1 in
  let dlon := lon2 - lon1 in
  let a := sin (dlat / 2) ^ 2 + cos lat1 * cos lat2 * sin (dlon / 2) ^ 2 in
  root ← math_sqrt a;
  angle ← math_asin root;
  let c := 2 * angle in
  let r := 6371 in
  let distance := c * r in
  Ok distance.

(** The formula of the specification, written from its text:
    [a = sin²(Δlat/2) + cos(lat1)·cos(lat2)·sin²(Δlon/2)],
    [c = 2·asin(√a)], [distance = c · R] with [R = 6371], every angle
    taken in radians. *)
Definition earth_radius_km : R := 6371.

Definition haversine_formula (lat1 lon1 lat2 lon2 : R) : R :=
  let φ1 := lat1 * PI / 180 in
  let φ2 := lat2 * PI / 180 in
  let Δlat := (lat2 - lat1) * PI / 180 in
  let Δlon := (lon2 - lon1) * PI / 180 in
  let a := (sin (Δlat / 2))² + cos φ1 * cos φ2 * (sin (Δlon / 2))² in
  earth_radius_km * (2 * asin (sqrt a)).

(** [round(x, ndigits)]: the nearest multiple of [10^-ndigits], a tie
    going to the even one. *)
Definition round_half_even (y : R) : Z :=
  let f := Int_part y in
  let d := y - IZR f in
  if Rlt_dec d (1 / 2) then f
  else if Rlt_dec (1 / 2) d then (f + 1)%Z
  else if Z.even f then f else (f + 1)%Z.

Definition py_round (x : R) (ndigits : nat) : R :=
  IZR (round_half_even (x * 10 ^ ndigits)) / 10 ^ ndigits.

Definition taipei_lat_default : R := 25.0478.
Definition taipei_lon_default : R := 121.5170.

End haversine.

(** The store of station dicts, indexed by object identity. *)
Abbreviation loc := positive.
Abbreviation heap := (gmap loc (gmap string pyval)).

(** [station.copy()]: a new dict with the same items. *)
Definition dict_copy (h : heap) (l : loc) : heap * loc :=
  let l' := fresh (dom h) in (<[l' := h !!! l]> h, l').

(** [d[k] = v] on the dict stored at [l]. *)
Definition dict_setitem (h : heap) (l : loc) (k : string) (v : pyval) : heap :=
  alter (insert k v) l h.

(** The value of [distance_to_taipei]. *)
Definition distance_info (distance taipei_lat taipei_lon : R) : pyval :=
  PDict {[ "kilometers" := PNum (py_round distance 2);
           "taipei_station_coords" :=
             PDict {[ "latitude" := PNum taipei_lat;
                      "longitude" := PNum taipei_lon ]} ]}.

(** The message printed by the [except] clause. *)
Inductive skipped := Skipped (station_name : pyval) (e : exn).

Section distances.
Context `{PyFloat}.

(** The first half of the [try] block, which only reads the station:
    [None] is the [continue] of a station without coordinates, [Some]
    the distance computed from them. *)
Definition station_distance (taipei_lat taipei_lon : R)
    (station : gmap string pyval) : result (option R) :=
  location ← py_getitem (PDict station) "location";
  lat_str ← py_getitem location "latitude";
  location ← py_getitem (PDict station) "location";
  lon_str ← py_getitem location "longitude";
  if negb (truthy lat_str) || negb (truthy lon_str) then Ok None
  else
    lat ← py_float lat_str;
    lon ← py_float lon_str;
    distance ← haversine_distance lat lon taipei_lat taipei_lon;
    Ok (Some distance).

(** The whole [try] block: after the distance is known, the station is
    copied and the copy annotated.  The result is the store afterwards
    and the new dict. *)
Definition station_body (taipei_lat taipei_lon : R) (h : heap) (station : loc)
    : result (option (heap * loc)) :=
  d ← station_distance taipei_lat taipei_lon (h !!! station);
  match d with
  | None => Ok None
  | Some distance =>
      let '(h, station_with_distance) := dict_copy h station in
      let h := dict_setitem h station_with_distance "distance_to_taipei"
                 (distance_info distance taipei_lat taipei_lon) in
      Ok (Some (h, station_with_distance))
  end.

(** [except (ValueError, TypeError, KeyError)]. *)
Definition caught (e : exn) : bool :=
  match e with
  | ValueError | TypeError | KeyError => true
  | _ => false
  end.

(** The state of the loop: the store, the list built so far and the
    messages printed. *)
Fixpoint stations_loop (taipei_lat taipei_lon : R) (weather_data : list loc)
    (h : heap) (stations_with_distance : list loc) (log : list skipped)
    : heap * list skipped * result (list loc) :=
  match weather_data with
  | [] => (h, log, Ok stations_with_distance)
  | station :: rest =>
      match station_body taipei_lat taipei_lon h station with
      | Ok (Some (h', station_with_distance)) =>
          stations_loop taipei_lat taipei_lon rest h'
            (stations_with_distance ++ [station_with_distance]) log
      | Ok None =>
          stations_loop taipei_lat taipei_lon rest h stations_with_distance log
      | Err e =>
          if caught e then
            match py_get (PDict (h !!! station)) "station_name" (PStr "Unknown") with
            | Ok name =>
                stations_loop taipei_lat taipei_lon rest h
                  stations_with_distance (log ++ [Skipped name e])
            | Err e' => (h, log, Err e')
            end
          else (h, log, Err e)
      end
  end.

Definition calculate_distances_to_taipei_station (h : heap)
    (weather_data : list loc) (taipei_lat taipei_lon : R)
    : heap * list skipped * result (list loc) :=
  stations_loop taipei_lat taipei_lon weather_data h [] [].

End distances.

(** Lines printed by [print_distance_summary].  Numbers are kept as
    values: the rendering to two decimals is not modelled, nor is the
    clock reading of the time line. *)
Inductive line :=
| L_no_data
| L_title
| L_time
| L_reference
| L_count (n : nat)
| L_rule
| L_stats_title
| L_min (x : R)
| L_max (x : R)
| L_mean (x : R)
| L_median (x : R)
| L_nearest_title
| L_farthest_title
| L_station (rank : nat) (station_name : string) (county town : pyval)
    (distance : R) (temp : string).

(** [x['distance_to_taipei']['kilometers']], read as a number.  A value
    that is not a number makes the Python code fail at the first
    comparison, sum or format; the model reports it here. *)
Definition kilometers (x : pyval) : result R :=
  d ← py_getitem x "distance_to_taipei";
  k ← py_getitem d "kilometers";
  py_number k.

(** [sorted(l, key=kilometers)]: the keys are computed first, one per
    element and in order, then the decorated list is sorted. *)
Definition sorted_by_distance (l : list pyval) : result (list pyval) :=
  keys ← map_result kilometers l;
  Ok ((py_sorted fst Rltb (zip keys l)).*2).

Definition station_line (rank : nat) (station : pyval) : result line :=
  distance ← kilometers station;
  we ← py_getitem station "weather_elements";
  temp ← py_get we "temperature" (PStr "N/A");
  loc ← py_getitem station "location";
  county ← py_getitem loc "county";
  loc ← py_getitem station "location";
  town ← py_getitem loc "town";
  name ← py_getitem station "station_name";
  name ← format_s name;
  temp ← format_s temp;
  Ok (L_station rank name county town distance temp).

Fixpoint print_stations (rank : nat) (stations : list pyval) : io line unit :=
  match stations with
  | [] => mret tt
  | station :: rest =>
      l ← lift (station_line rank station);
      _ ← print l;
      print_stations (S rank) rest
  end.

Definition print_distance_summary (stations_with_distance : list pyval)
    : io line unit :=
  if negb (truthy (PList stations_with_distance)) then print L_no_data
  else
    sorted_stations ← lift (sorted_by_distance stations_with_distance);
    distances ← lift (map_result kilometers stations_with_distance);
    _ ← print L_title;
    _ ← print L_time;
    _ ← print L_reference;
    _ ← print (L_count (length stations_with_distance));
    _ ← print L_rule;
    _ ← print L_stats_title;
    lo ← lift (py_min distances);
    _ ← print (L_min lo);
    hi ← lift (py_max distances);
    _ ← print (L_max hi);
    mean ← lift (py_truediv (py_sum distances) (INR (length distances)));
    _ ← print (L_mean mean);
    median ← lift (py_index (py_sorted id Rltb distances) (length distances / 2));
    _ ← print (L_median median);
    _ ← print L_nearest_title;
    _ ← print_stations 1 (take 10 sorted_stations);
    _ ← print L_farthest_title;
    print_stations 1 (drop (length sorted_stations - 5) sorted_stations).

(** *** Notions used in the statements *)


Definition optional_string (o : option pyval) : Prop :=
  match o with
  | None | Some PNone | Some (PStr _) => True
  | _ => False
  end.

(** The data model of a station: a coordinate is a string or absent. *)
Definition coordinates_typed (station : gmap string pyval) : Prop :=
  ∀ location, station !! "location" = Some (PDict location) →
    optional_string (location !! "latitude")
    ∧ optional_string (location !! "longitude").

(** Degrees of the globe: a latitude lies between -90 and 90, a
    longitude between -180 and 180. *)
Definition latitude_range (x : R) : Prop := (-90 <= x <= 90)%R.
Definition longitude_range (y : R) : Prop := (-180 <= y <= 180)%R.

(** A distance on the globe in kilometres: not negative and at most half
    the circumference of the sphere of radius 6371, 20016 to the next
    kilometre. *)
Definition distance_range (d : R) : Prop := (0 <= d <= 20016)%R.

Section selection.
Context `{PyFloat}.

(** A station of the globe: every coordinate of the station that [float]
    reads is a number of degrees in range.  This leaves out a string
    that [float] reads as nan or as an infinity and a number too large
    for a float. *)
Definition coordinates_in_range (station : gmap string pyval) : Prop :=
  ∀ location, station !! "location" = Some (PDict location) →
    (∀ lat x, location !! "latitude" = Some lat → py_float lat = Ok x →
       latitude_range x)
    ∧ (∀ lon y, location !! "longitude" = Some lon → py_float lon = Ok y →
         longitude_range y).

(** Written from the specification: the coordinates of a station whose
    latitude and longitude are both present and parse as floats. *)
Definition station_coordinates (station : gmap string pyval) : option (R * R) :=
  match station !! "location" with
  | Some (PDict location) =>
      match location !! "latitude", location !! "longitude" with
      | Some (PStr lat), Some (PStr lon) =>
          match float_of_str lat, float_of_str lon with
          | Some x, Some y => Some (x, y)
          | _, _ => None
          end
      | _, _ => None
      end
  | _ => None
  end.

(** The distance the loop stores for a station, if it keeps it. *)
Definition stored_distance (taipei_lat taipei_lon : R)
    (station : gmap string pyval) : option R :=
  match station_distance taipei_lat taipei_lon station with
  | Ok (Some distance) => Some distance
  | _ => None
  end.

End selection.

(** The distance of a record that has one. *)
Definition distance_of (x : pyval) : R :=
  match kilometers x with
  | Ok r => r
  | Err _ => 0%R
  end.

(** The lines printed before the statistics. *)
Definition header (n : nat) : list line :=
  [L_title; L_time; L_reference; L_count n; L_rule].

(** A station whose line can be rendered: it has a numeric distance, a
    weather-elements dict and a location, and its name and temperature
    are strings. *)
Definition printable (s : pyval) : Prop := ∃ ln, station_line 0 s = Ok ln.

End DistanceCalculator.

(** ** weather_map.py: the points of the heat map *)

Module WeatherMap.

Section heatmap.
Context `{PyFloat}.

(** The three conversions of the [try] block of
    [create_temperature_heatmap]. *)
Definition heat_point (lat lon temp : pyval) : result (R * R * R) :=
  lat_float ← py_float lat;
  lon_float ← py_float lon;
  temp_float ← py_float temp;
  Ok (lat_float, lon_float, temp_float).

(** The loop that collects [heat_data]; the weight of a point is the
    temperature.  [except (ValueError, TypeError)] covers every exception
    of the three conversions. *)
Fixpoint heat_data_loop (weather_data : list pyval)
    (heat_data : list (R * R * R)) : result (list (R * R * R)) :=
  match weather_data with
  | [] => Ok heat_data
  | station :: rest =>
      loc ← py_getitem station "location";
      lat ← py_getitem loc "latitude";
      loc ← py_getitem station "location";
      lon ← py_getitem loc "longitude";
      we ← py_getitem station "weather_elements";
      temp ← py_get we "temperature" PNone;
      if negb (truthy lat) || negb (truthy lon) || negb (truthy temp)
         || py_eq_str temp "-99"
      then heat_data_loop rest heat_data
      else
        match heat_point lat lon temp with
        | Ok point => heat_data_loop rest (heat_data ++ [point])
        | Err ValueError | Err TypeError => heat_data_loop rest heat_data
        | Err e => Err e
        end
  end.

End heatmap.

End WeatherMap.

(** ** main.py, step 4: the temperature summary *)

Module Main.

Inductive line :=
| L_step_title
| L_rule
| L_count (n : nat)
| L_mean (x : R)
| L_max (x : R)
| L_min (x : R).

Section summary.
Context `{PyFloat}.

(** The condition of the comprehension that builds [valid_stations]. *)
Definition valid_station (station : pyval) : result bool :=
  we ← py_getitem station "weather_elements";
  temp ← py_get we "temperature" PNone;
  if truthy temp then
    we ← py_getitem station "weather_elements";
    temp ← py_getitem we "temperature";
    Ok (negb (py_eq_str temp "-99"))
  else Ok false.

Fixpoint valid_stations (weather_data : list pyval) : result (list pyval) :=
  match weather_data with
  | [] => Ok []
  | station :: rest =>
      keep ← valid_station station;
      kept ← valid_stations rest;
      Ok (if keep : bool then station :: kept else kept)
  end.

Definition station_temperature (s : pyval) : result R :=
  we ← py_getitem s "weather_elements";
  temp ← py_getitem we "temperature";
  py_float temp.

(** Lines 115 to 128 of [main], for a run without [--distance-only]. *)
Definition main_summary (weather_data : list pyval) : io line unit :=
  _ ← print L_step_title;
  _ ← print L_rule;
  valid ← lift (valid_stations weather_data);
  if truthy (PList valid) then
    temps ← lift (map_result station_temperature valid);
    _ ← print (L_count (length valid));
    mean ← lift (py_truediv (py_sum temps) (INR (length temps)));
    _ ← print (L_mean mean);
    hi ← lift (py_max temps);
    _ ← print (L_max hi);
    lo ← lift (py_min temps);
    print (L_min lo)
  else mret tt.

End summary.

End Main.

(** ** weather_map.py: colours, markers and the centre of a map

    The rendering library, the clock and the file a map is saved to are
    not modelled.  A map is what the function hands to the library: its
    centre, the markers or the points laid on it and the two counts of
    its title. *)

Module WeatherMapLayers.

Inductive color := Blue | Green | Orange | Gray.

(** A circle marker: where it is, what its popup and its tooltip show
    and the colour it is filled with. *)
Record marker := Marker {
  marker_location : R * R;
  marker_popup : list pyval;
  marker_tooltip : pyval * pyval;
  marker_fill : color
}.

Record weather_map := WeatherMap {
  map_center : R * R;
  map_markers : list marker;
  map_valid : nat;
  map_total : nat
}.

Record heatmap := HeatMap {
  heat_center : R * R;
  heat_points : list (R * R * R)
}.

Inductive line :=
| L_no_valid_stations
| L_map_saved
| L_no_heat_data
| L_heatmap_saved.

Section layers.
Context `{PyFloat}.

(** Only [ValueError] and [TypeError] are caught.  The last branch is
    the [else] of the code: it is taken by every reading that is neither
    below 20 nor at most 28, which for a float includes nan. *)
Definition get_temperature_color (temperature : pyval) : result color :=
  match py_float temperature with
  | Ok temp =>
      if Rlt_dec temp 20 then Ok Blue
      else if Rle_dec temp 28 then Ok Green
      else Ok Orange
  | Err ValueError | Err TypeError => Ok Gray
  | Err e => Err e
  end.

(** The condition of the comprehension that builds [valid_stations] in
    [create_weather_map]. *)
Definition valid_station (station : pyval) : result bool :=
  loc ← py_getitem station "location";
  lat ← py_getitem loc "latitude";
  if truthy lat then
    loc ← py_getitem station "location";
    lon ← py_getitem loc "longitude";
    if truthy lon then
      we ← py_getitem station "weather_elements";
      temp ← py_get we "temperature" PNone;
      if truthy temp then
        we ← py_getitem station "weather_elements";
        temp ← py_getitem we "temperature";
        Ok (negb (py_eq_str temp "-99"))
      else Ok false
    else Ok false
  else Ok false.

Fixpoint valid_stations (weather_data : list pyval) : result (list pyval) :=
  match weather_data with
  | [] => Ok []
  | station :: rest =>
      keep ← valid_station station;
      kept ← valid_stations rest;
      Ok (if keep : bool then station :: kept else kept)
  end.

Definition station_latitude (station : pyval) : result R :=
  loc ← py_getitem station "location";
  lat ← py_getitem loc "latitude";
  py_float lat.

Definition station_longitude (station : pyval) : result R :=
  loc ← py_getitem station "location";
  lon ← py_getitem loc "longitude";
  py_float lon.

(** The two conversions of the [try] block of the marker loop. *)
Definition marker_point (lat lon : pyval) : result (R * R) :=
  lat_float ← py_float lat;
  lon_float ← py_float lon;
  Ok (lat_float, lon_float).

(** One turn of the marker loop: [None] is a [continue]. *)
Definition station_marker (station : pyval) : result (option marker) :=
  loc ← py_getitem station "location";
  lat ← py_getitem loc "latitude";
  loc ← py_getitem station "location";
  lon ← py_getitem loc "longitude";
  if negb (truthy lat) || negb (truthy lon) then Ok None
  else
    match marker_point lat lon with
    | Err ValueError | Err TypeError => Ok None
    | Err e => Err e
    | Ok point =>
        we ← py_getitem station "weather_elements";
        temp ← py_get we "temperature" (PStr "N/A");
        we ← py_getitem station "weather_elements";
        humidity ← py_get we "humidity" (PStr "N/A");
        we ← py_getitem station "weather_elements";
        weather ← py_get we "weather" (PStr "N/A");
        we ← py_getitem station "weather_elements";
        wind_speed ← py_get we "wind_speed" (PStr "N/A");
        color ← get_temperature_color temp;
        name ← py_getitem station "station_name";
        station_id ← py_getitem station "station_id";
        loc ← py_getitem station "location";
        county ← py_getitem loc "county";
        loc ← py_getitem station "location";
        town ← py_getitem loc "town";
        observation_time ← py_getitem station "observation_time";
        tip ← py_getitem station "station_name";
        Ok (Some {| marker_location := point;
                    marker_popup := [name; station_id; county; town; temp;
                                     humidity; weather; wind_speed;
                                     observation_time];
                    marker_tooltip := (tip, temp);
                    marker_fill := color |})
    end.

Fixpoint markers_loop (weather_data : list pyval) (markers : list marker)
    : result (list marker) :=
  match weather_data with
  | [] => Ok markers
  | station :: rest =>
      m ← station_marker station;
      match m with
      | Some m => markers_loop rest (markers ++ [m])
      | None => markers_loop rest markers
      end
  end.

Definition create_weather_map (weather_data : list pyval)
    : io line (option weather_map) :=
  valid_stations ← lift (valid_stations weather_data);
  if negb (truthy (PList valid_stations)) then
    _ ← print L_no_valid_stations;
    mret None
  else
    lats ← lift (map_result station_latitude valid_stations);
    lons ← lift (map_result station_longitude valid_stations);
    center_lat ← lift (py_truediv (py_sum lats) (INR (length lats)));
    center_lon ← lift (py_truediv (py_sum lons) (INR (length lons)));
    let total_stations := length weather_data in
    let valid_temp_stations := length valid_stations in
    markers ← lift (markers_loop weather_data []);
    _ ← print L_map_saved;
    mret (Some {| map_center := (center_lat, center_lon);
                  map_markers := markers;
                  map_valid := valid_temp_stations;
                  map_total := total_stations |}).

Definition create_temperature_heatmap (weather_data : list pyval)
    : io line (option heatmap) :=
  heat_data ← lift (WeatherMap.heat_data_loop weather_data []);
  if Nat.eqb (length heat_data) 0 then
    _ ← print L_no_heat_data;
    mret None
  else
    let lats := heat_data.*1.*1 in
    let lons := heat_data.*1.*2 in
    center_lat ← lift (py_truediv (py_sum lats) (INR (length lats)));
    center_lon ← lift (py_truediv (py_sum lons) (INR (length lons)));
    _ ← print L_heatmap_saved;
    mret (Some {| heat_center := (center_lat, center_lon);
                  heat_points := heat_data |}).

End layers.

End WeatherMapLayers.

(** ** The choice of the data file

    The lines that pick the newest [temperature_data_*.json] of the
    output directory: in [main] of weather_map.py, in the script part of
    distance_calculator.py and in steps 2 and 3 of main.py.  The listing
    of the directory is an input.  [sorted] compares names with [<], the
    order of code points, which for the byte strings of the model is the
    order of [String.ltb]. *)

Module LatestFile.

(** [s.startswith(prefix)] and [s.endswith(suffix)]. *)
Definition startswith (s prefix : string) : bool := String.prefix prefix s.

Definition endswith (s suffix : string) : bool :=
  String.eqb
    (String.substring (String.length s - String.length suffix)
       (String.length suffix) s)
    suffix.

Definition json_file (f : string) : bool :=
  startswith f "temperature_data_" && endswith f ".json".

(** The name [save_temperature_data] gives a file when it is not told
    one; the timestamp is the clock reading rendered by [strftime]. *)
Definition temperature_file_name (timestamp : string) : string :=
  "temperature_data_" ++ timestamp ++ ".json".

(** [None] stands for the branch that prints a notice and leaves. *)
Definition latest_file (listing : list string) : result (option string) :=
  let json_files := filter (fun f => Is_true (json_file f)) listing in
  if Nat.eqb (length json_files) 0 then Ok None
  else
    let sorted := py_sorted (fun f : string => f) String.ltb json_files in
    f ← py_index sorted (length sorted - 1);
    Ok (Some f).

End LatestFile.

(** ** A reference reading of [float] for the examples

    Unsigned and signed decimal literals such as [25.0478] or [-99]. *)

Module Decimal.

Definition digit (c : ascii) : option Z :=
  let n := Z.of_nat (nat_of_ascii c) in
  if (48 <=? n)%Z && (n <=? 57)%Z then Some (n - 48)%Z else None.

(** Digits read as an integer, with their count. *)
Fixpoint digits (s : string) (acc : Z) (n : nat) : option (Z * nat) :=
  match s with
  | EmptyString => Some (acc, n)
  | String c s' =>
      match digit c with
      | Some d => digits s' (10 * acc + d)%Z (S n)
      | None => None
      end
  end.

Fixpoint split_point (s : string) : string * option string :=
  match s with
  | EmptyString => (EmptyString, None)
  | String c s' =>
      if Ascii.eqb c "."%char then (EmptyString, Some s')
      else let (a, b) := split_point s' in (String c a, b)
  end.

Definition unsigned (s : string) : option R :=
  let (int_part, frac) := split_point s in
  match digits int_part 0 0, digits (default "" frac) 0 0 with
  | Some (i, ni), Some (f, nf) =>
      if Nat.eqb (ni + nf) 0 then None
      else Some (IZR i + IZR f / 10 ^ nf)%R
  | _, _ => None
  end.

Definition parse (s : string) : option R :=
  match s with
  | String "-"%char s' => Ropp <$> unsigned s'
  | String "+"%char s' => unsigned s'
  | _ => unsigned s
  end.

Definition decimal_float : PyFloat :=
  {| float_of_str := parse; float_of_str_empty := eq_refl |}.

End Decimal.

(** ** Sample data *)

Module Fixtures.

Definition elements (temp : pyval) : pyval :=
  PDict {[ "temperature" := temp; "humidity" := PStr "70";
           "pressure" := PStr "1013.2"; "wind_speed" := PStr "2.1";
           "wind_direction" := PStr "90"; "weather" := PStr "clear";
           "precipitation" := PStr "0.0" ]}.

(** A normalised station. *)
Definition weather_station (name : string) (lat lon temp : pyval)
    : gmap string pyval :=
  {[ "station_id" := PStr "466920";
     "station_name" := PStr name;
     "location" := PDict {[ "county" := PStr "Taipei"; "town" := PStr "Daan";
                            "latitude" := lat; "longitude" := lon ]};
     "observation_time" := PStr "2025-01-01T12:00:00+08:00";
     "weather_elements" := elements temp ]}.

(** A station annotated with a distance in kilometres. *)
Definition with_distance (name : string) (temp : pyval) (km : R) : pyval :=
  PDict (<["distance_to_taipei" := PDict {[ "kilometers" := PNum km ]}]>
           (weather_station name (PStr "25.03") (PStr "121.56") temp)).

Definition four_stations : list pyval :=
  [ with_distance "C" (PStr "21.0") 3; with_distance "A" (PStr "22.5") 1;
    with_distance "D" (PStr "-99") 4; with_distance "B" (PStr "20.1") 2 ].

(** A station without a temperature reading, as the normaliser produces
    for a raw entry without [AirTemperature]. *)
Definition unread_station : pyval := with_distance "Yangmingshan" PNone 1.

(** Three stations, one holding the sentinel. *)
Definition three_stations : list pyval :=
  [ PDict (weather_station "A" (PStr "25.03") (PStr "121.56") (PStr "25"));
    PDict (weather_station "B" (PStr "24.99") (PStr "121.43") (PStr "-99"));
    PDict (weather_station "C" (PStr "25.17") (PStr "121.44") (PStr "18")) ].

(** A store of three stations: one with coordinates, one without, one
    whose latitude is not a number. *)
Definition store : gmap positive (gmap string pyval) :=
  {[ 1%positive := weather_station "A" (PStr "25.03") (PStr "121.56") (PStr "25");
     2%positive := weather_station "B" PNone PNone (PStr "-99");
     3%positive := weather_station "C" (PStr "north") (PStr "121.44") (PStr "18") ]}.

(** A decimal literal as a number. *)
Definition reading (s : string) : R := default 0%R (Decimal.parse s).

(** The coordinates of the first station of the store, as numbers. *)
Definition lat_a : R := reading "25.03".
Definition lon_a : R := reading "121.56".

(** The two stations of [three_stations] that hold a reading. *)
Definition station_a : pyval :=
  PDict (weather_station "A" (PStr "25.03") (PStr "121.56") (PStr "25")).
Definition station_c : pyval :=
  PDict (weather_station "C" (PStr "25.17") (PStr "121.44") (PStr "18")).

(** A raw station with three coordinate entries, two of them WGS84. *)
Definition taipei_raw : gmap string pyval :=
  {[ "StationId" := PStr "466920";
     "StationName" := PStr "Taipei";
     "GeoInfo" :=
       PDict {[ "CountyName" := PStr "Taipei City";
                "TownName" := PStr "Zhongzheng";
                "Coordinates" :=
                  PList [ PDict {[ "CoordinateName" := PStr "TWD67";
                                   "StationLatitude" := PStr "25.039";
                                   "StationLongitude" := PStr "121.506" ]};
                          PDict {[ "CoordinateName" := PStr "WGS84";
                                   "StationLatitude" := PStr "25.0377";
                                   "StationLongitude" := PStr "121.5149" ]};
                          PDict {[ "CoordinateName" := PStr "WGS84";
                                   "StationLatitude" := PStr "0";
                                   "StationLongitude" := PStr "0" ]} ] ]};
     "ObsTime" := PDict {[ "DateTime" := PStr "2025-01-01T12:00:00+08:00" ]};
     "WeatherElement" :=
       PDict {[ "AirTemperature" := PStr "21.3";
                "RelativeHumidity" := PStr "70";
                "Now" := PDict {[ "Precipitation" := PStr "0.0" ]} ]} ]}.

(** The same station without its weather elements. *)
Definition unread_raw : gmap string pyval := delete "WeatherElement" taipei_raw.

(** A raw station whose name is JSON [null]. *)
Definition unnamed_raw : gmap string pyval :=
  {[ "StationId" := PStr "C0A000"; "StationName" := PNone ]}.

Definition document (stations : list pyval) : pyval :=
  PDict {[ "success" := PStr "true";
           "records" := PDict {[ "Station" := PList stations ]} ]}.

End Fixtures.

(** ** Notions used in the further properties *)

Module Outcome.

Section outcome.
Context `{PyFloat}.

(** The message [calculate_distances_to_taipei_station] prints for a
    station, if it prints one. *)
Definition report (taipei_lat taipei_lon : R) (station : gmap string pyval)
    : option DistanceCalculator.skipped :=
  match DistanceCalculator.station_distance taipei_lat taipei_lon station with
  | Err e =>
      Some (DistanceCalculator.Skipped
              (default (PStr "Unknown") (station !! "station_name")) e)
  | Ok _ => None
  end.

(** The station is passed over without a message. *)
Definition passed_over (taipei_lat taipei_lon : R)
    (station : gmap string pyval) : bool :=
  match DistanceCalculator.station_distance taipei_lat taipei_lon station with
  | Ok None => true
  | _ => false
  end.

(** A coordinate that is missing: [None] or the empty string. *)
Definition unset (v : pyval) : Prop := v = PNone ∨ v = PStr "".

(** A value [float] handles without overflow: anything but a number, or
    a number within the range of a float, here up to 10^308 in
    magnitude. *)
Definition float_sized (v : pyval) : Prop :=
  ∀ x, v = PNum x → (Rabs x <= 10 ^ 308)%R.

(** A record whose weather elements are a dict and whose temperature, if
    any, is a string: what the normaliser yields for a feed that gives
    every reading as a string. *)
Definition reading_typed (station : pyval) : Prop :=
  ∃ s we, station = PDict s
    ∧ s !! "weather_elements" = Some (PDict we)
    ∧ DistanceCalculator.optional_string (we !! "temperature").

(** The reading of a station as a number: the temperature is a string
    that passes the filter and that [float] accepts. *)
Definition reading_of (station : pyval) : option R :=
  match WeatherApi.temperature_of station with
  | Some (PStr s) =>
      if WeatherApi.has_reading station then float_of_str s else None
  | _ => None
  end.

End outcome.

(** A record with its location and its weather elements, whose
    coordinates are strings or [None]. *)
Definition located (station : pyval) : Prop :=
  ∃ s location we lat lon,
    station = PDict s
    ∧ s !! "location" = Some (PDict location)
    ∧ s !! "weather_elements" = Some (PDict we)
    ∧ location !! "latitude" = Some lat
    ∧ location !! "longitude" = Some lon
    ∧ DistanceCalculator.optional_string (Some lat)
    ∧ DistanceCalculator.optional_string (Some lon).

(** The message [extract_temperature_data] prints for a raw station that
    is an object, if it prints one. *)
Definition skip_report (station : pyval) : option WeatherApi.skipped :=
  match station, WeatherApi.extract_station station with
  | PDict d, Err e =>
      Some (WeatherApi.Skipped (default (PStr "Unknown") (d !! "StationId")) e)
  | _, _ => None
  end.

End Outcome.

(** ** Further sample data *)

Module Samples.

(** A station whose temperature is not a number, and one that holds the
    sentinel. *)
Definition unreadable_station : pyval :=
  PDict (Fixtures.weather_station "E" (PStr "24.15") (PStr "120.68") (PStr "N/A")).

Definition sentinel_station : pyval :=
  PDict (Fixtures.weather_station "B" (PStr "24.99") (PStr "121.43") (PStr "-99")).

(** A station with a reading whose latitude is not a number. *)
Definition misplaced_station : pyval :=
  PDict (Fixtures.weather_station "F" (PStr "north") (PStr "121.44") (PStr "18")).

(** A raw station whose [GeoInfo] is not an object. *)
Definition malformed_raw : gmap string pyval :=
  {[ "StationId" := PStr "X"; "GeoInfo" := PStr "none" ]}.

(** A listing of the output directory. *)
Definition listing : list string :=
  [ "temperature_data_20250102_080000.json";
    "weather_map_20250103_090000.html";
    "temperature_data_20250103_070000.json";
    "temperature_data_20250101_235959.json";
    "stations_with_distance_20250104_000000.json" ].

End Samples.

(** * Properties *)

(** ** The haversine distance *)

Section haversine_facts.
Import DistanceCalculator.
#[local] Open Scope R_scope.

Lemma sin_sqr_bounds x : 0 <= (sin x)² <= 1.
Proof.
  split; [apply Rle_0_sqr|].
  pose proof (sin2_cos2 x). pose proof (Rle_0_sqr (cos x)). lra.
Qed.

Lemma cos_sqr_bounds x : 0 <= (cos x)² <= 1.
Proof.
  split; [apply Rle_0_sqr|].
  pose proof (sin2_cos2 x). pose proof (Rle_0_sqr (sin x)). lra.
Qed.

(** [cos p * cos q] in terms of the half sum and the half difference. *)
Lemma cos_product p q :
  cos p * cos q = (cos ((p + q) / 2))² - (sin ((q - p) / 2))².
Proof.
  set (s := (p + q) / 2). set (u := (q - p) / 2).
  replace p with (s - u) by (unfold s, u; lra).
  replace q with (s + u) at 1 by (unfold s, u; lra).
  rewrite cos_minus, cos_plus.
  pose proof (sin2_cos2 s) as Hs. pose proof (sin2_cos2 u) as Hu.
  unfold Rsqr in *. nra.
Qed.

(** The argument of the square root lies between 0 and 1, whatever the
    four angles: neither [math.sqrt] nor [math.asin] can raise. *)
Lemma haversine_a_bounds p q t :
  0 <= t <= 1 →
  0 <= (sin ((q - p) / 2))² + cos p * cos q * t <= 1.
Proof.
  intros Ht. rewrite cos_product.
  pose proof (sin_sqr_bounds ((q - p) / 2)).
  pose proof (cos_sqr_bounds ((p + q) / 2)).
  nra.
Qed.

Lemma haversine_a_range lat1 lon1 lat2 lon2 :
  0 <= sin ((radians lat2 - radians lat1) / 2) ^ 2
       + cos (radians lat1) * cos (radians lat2)
         * sin ((radians lon2 - radians lon1) / 2) ^ 2 <= 1.
Proof.
  rewrite <- !Rsqr_pow2. apply haversine_a_bounds, sin_sqr_bounds.
Qed.

Lemma asin_nonneg x : 0 <= x → 0 <= asin x.
Proof.
  intros Hx. destruct (Rle_lt_dec 1 x) as [H1|H1].
  - unfold asin. destruct (Rle_dec x (-1)); [lra|].
    destruct (Rle_dec 1 x); [|lra]. pose proof PI_RGT_0. lra.
  - destruct Hx as [Hx| <-]; [|rewrite asin_0; lra].
    rewrite asin_atan by lra. rewrite <- atan_0. left.
    apply atan_increasing. apply Rdiv_lt_0_compat; [lra|].
    apply sqrt_lt_R0. unfold Rsqr. nra.
Qed.

Lemma radians_eq x : radians x = x * PI / 180.
Proof. unfold radians. lra. Qed.

Lemma haversine_distance_Ok lat1 lon1 lat2 lon2 :
  haversine_distance lat1 lon1 lat2 lon2
  = Ok (haversine_formula lat1 lon1 lat2 lon2).
Proof.
  pose proof (haversine_a_range lat1 lon1 lat2 lon2) as [Ha0 Ha1].
  unfold haversine_distance, math_sqrt.
  set (a := _ + _) in *.
  destruct (Rlt_dec a 0) as [?|_]; [lra|]. cbn.
  assert (0 <= sqrt a <= 1) as [Hs0 Hs1].
  { split; [apply sqrt_pos|]. rewrite <- sqrt_1. by apply sqrt_le_1_alt. }
  unfold math_asin.
  destruct (Rle_dec (-1) (sqrt a)); [|lra].
  destruct (Rle_dec (sqrt a) 1); [|lra]. cbn.
  f_equal. unfold haversine_formula, earth_radius_km.
  rewrite Rmult_comm. do 3 f_equal. unfold a.
  rewrite <- !Rsqr_pow2, !radians_eq.
  replace (lat2 * PI / 180 - lat1 * PI / 180) with ((lat2 - lat1) * PI / 180) by lra.
  replace (lon2 * PI / 180 - lon1 * PI / 180) with ((lon2 - lon1) * PI / 180) by lra.
  reflexivity.
Qed.

Lemma haversine_formula_nonneg lat1 lon1 lat2 lon2 :
  0 <= haversine_formula lat1 lon1 lat2 lon2.
Proof.
  unfold haversine_formula, earth_radius_km.
  match goal with
  | |- context [asin ?x] => pose proof (asin_nonneg x (sqrt_pos _))
  end.
  lra.
Qed.

(** The distance is symmetric, and zero from a point to itself. *)
Lemma haversine_formula_sym lat1 lon1 lat2 lon2 :
  haversine_formula lat1 lon1 lat2 lon2 = haversine_formula lat2 lon2 lat1 lon1.
Proof.
  unfold haversine_formula.
  replace ((lat1 - lat2) * PI / 180 / 2) with (- ((lat2 - lat1) * PI / 180 / 2)) by lra.
  replace ((lon1 - lon2) * PI / 180 / 2) with (- ((lon2 - lon1) * PI / 180 / 2)) by lra.
  rewrite !sin_antisym, <- !Rsqr_neg.
  rewrite (Rmult_comm (cos (lat2 * PI / 180))). reflexivity.
Qed.

Lemma haversine_formula_same lat lon : haversine_formula lat lon lat lon = 0.
Proof.
  unfold haversine_formula.
  replace ((lat - lat) * PI / 180 / 2) with 0 by lra.
  replace ((lon - lon) * PI / 180 / 2) with 0 by lra.
  rewrite sin_0, Rsqr_0, Rmult_0_r, Rplus_0_r, sqrt_0, asin_0. lra.
Qed.




Lemma round_half_even_nonneg y : 0 <= y → (0 <= round_half_even y)%Z.
Proof.
  intros Hy. unfold round_half_even.
  pose proof (base_Int_part y) as [Hlo Hhi].
  assert (0 <= Int_part y)%Z.
  { apply Z.lt_succ_r, lt_IZR. rewrite succ_IZR. lra. }
  repeat destruct Rlt_dec; try destruct (Z.even _); lia.
Qed.

Lemma pow10_pos n : 0 < 10 ^ n.
Proof. apply pow_lt. lra. Qed.

Lemma py_round_nonneg x n : 0 <= x → 0 <= py_round x n.
Proof.
  intros Hx. unfold py_round. pose proof (pow10_pos n).
  apply Rmult_le_pos; [|left; by apply Rinv_0_lt_compat].
  apply IZR_le, round_half_even_nonneg. nra.
Qed.


End haversine_facts.

(** ** Sorting, minimum, maximum and sum *)

Lemma Rltb_true x y : (x < y)%R → Rltb x y = true.
Proof. intros. unfold Rltb. by destruct Rlt_dec. Qed.

Lemma Rltb_false x y : (y <= x)%R → Rltb x y = false.
Proof. intros. unfold Rltb. destruct Rlt_dec; [lra|done]. Qed.

Ltac Rdecide :=
  repeat match goal with
  | |- context [Rltb ?a ?b] =>
      first [ rewrite (Rltb_true a b) by lra | rewrite (Rltb_false a b) by lra ]
  | |- context [Rlt_dec ?a ?b] =>
      first [ destruct (Rlt_dec a b); [|exfalso; lra]
            | destruct (Rlt_dec a b); [exfalso; lra|] ]
  | |- context [Rgt_dec ?a ?b] =>
      first [ destruct (Rgt_dec a b); [|exfalso; lra]
            | destruct (Rgt_dec a b); [exfalso; lra|] ]
  end.

Section sorted_facts.
Context {A : Type} (key : A → R).

Lemma insert_sorted_perm x l : insert_sorted key Rltb x l ≡ₚ x :: l.
Proof.
  induction l as [|y l IH]; cbn; [done|].
  destruct (Rltb _ _); [|done]. rewrite IH. apply Permutation_swap.
Qed.

Lemma py_sorted_perm l : py_sorted key Rltb l ≡ₚ l.
Proof.
  induction l as [|x l IH]; cbn; [done|].
  fold (py_sorted key Rltb l). by rewrite insert_sorted_perm, IH.
Qed.

Lemma py_sorted_length l : length (py_sorted key Rltb l) = length l.
Proof. by rewrite py_sorted_perm. Qed.

Lemma insert_sorted_ascending x l :
  ascending key l → ascending key (insert_sorted key Rltb x l).
Proof.
  unfold ascending. induction 1 as [|y l Hl IH Hy]; cbn.
  - by repeat constructor.
  - unfold Rltb at 1. destruct Rlt_dec as [Hlt|Hge].
    + constructor; [done|].
      rewrite insert_sorted_perm. constructor; [lra|done].
    + constructor; [by constructor|].
      constructor; [lra|]. eapply Forall_impl; [done|]. cbn. intros. lra.
Qed.

Lemma py_sorted_ascending l : ascending key (py_sorted key Rltb l).
Proof.
  induction l as [|x l IH]; cbn; [constructor|].
  by apply insert_sorted_ascending.
Qed.

(** Stability: the elements of any one key keep their input order. *)
Lemma insert_sorted_filter k x l :
  filter (fun a => key a = k) (insert_sorted key Rltb x l)
  = filter (fun a => key a = k) (x :: l).
Proof.
  induction l as [|y l IH]; cbn; [done|].
  unfold Rltb at 1. destruct Rlt_dec as [Hlt|Hge]; [|done].
  rewrite filter_cons, IH, !filter_cons.
  destruct (decide (key y = k)), (decide (key x = k)); try done. lra.
Qed.

Lemma py_sorted_stable k l :
  filter (fun a => key a = k) (py_sorted key Rltb l)
  = filter (fun a => key a = k) l.
Proof.
  induction l as [|x l IH]; cbn; [done|].
  fold (py_sorted key Rltb l).
  by rewrite insert_sorted_filter, !filter_cons, IH.
Qed.

(** The keys of the sorted list are the sorted keys. *)
Lemma insert_sorted_keys x l :
  key <$> insert_sorted key Rltb x l = insert_sorted id Rltb (key x) (key <$> l).
Proof.
  induction l as [|y l IH]; cbn; [done|].
  destruct (Rltb _ _); cbn; by rewrite ?IH.
Qed.

Lemma py_sorted_keys l :
  key <$> py_sorted key Rltb l = py_sorted id Rltb (key <$> l).
Proof.
  induction l as [|x l IH]; cbn; [done|].
  fold (py_sorted key Rltb l). by rewrite insert_sorted_keys, IH.
Qed.

(** Sorting the list decorated with its keys is sorting by the key. *)
Lemma insert_sorted_decorated x (l : list (R * A)) :
  Forall (fun p => p.1 = key p.2) l →
  (insert_sorted fst Rltb (key x, x) l).*2 = insert_sorted key Rltb x l.*2
  ∧ Forall (fun p => p.1 = key p.2) (insert_sorted fst Rltb (key x, x) l).
Proof.
  induction 1 as [|[k y] l Hy Hl [IH1 IH2]]; cbn in *.
  - split; [done|]. by repeat constructor.
  - subst k. destruct (Rltb _ _); cbn.
    + rewrite IH1. split; [done|]. by constructor.
    + split; [done|]. by repeat constructor.
Qed.

Lemma py_sorted_decorated l :
  (py_sorted fst Rltb (zip (key <$> l) l)).*2 = py_sorted key Rltb l
  ∧ Forall (fun p => p.1 = key p.2) (py_sorted fst Rltb (zip (key <$> l) l)).
Proof.
  induction l as [|x l [IH1 IH2]]; cbn; [by split|].
  fold (py_sorted key Rltb l). fold (py_sorted (@fst R A) Rltb (zip (key <$> l) l)).
  destruct (insert_sorted_decorated x _ IH2) as [H1 H2].
  by rewrite H1, IH1.
Qed.

(** In an ascending list, whatever comes first is not farther than
    whatever comes after. *)
Lemma ascending_take_drop n l a b :
  ascending key l → a ∈ take n l → b ∈ drop n l → (key a <= key b)%R.
Proof.
  unfold ascending. intros Hl. revert n.
  induction Hl as [|x l Hl IH Hx]; intros n; [by rewrite take_nil; inversion 1|].
  destruct n as [|n]; cbn; [by inversion 1|].
  intros [->|Ha]%elem_of_cons Hb.
  - rewrite Forall_forall in Hx. apply Hx.
    by eapply subseteq_drop.
  - by eapply IH.
Qed.

End sorted_facts.

Lemma py_min_spec x l :
  ∃ m, py_min (x :: l) = Ok m ∧ m ∈ x :: l ∧ ∀ d, d ∈ x :: l → (m <= d)%R.
Proof.
  cbn. eexists; split; [done|]. revert x.
  induction l as [|y l IH]; intros x; cbn.
  - split; [set_solver|]. intros d ->%list_elem_of_singleton. lra.
  - destruct (IH (if Rlt_dec y x then y else x)) as [Hin Hle].
    split.
    + destruct Rlt_dec; set_solver.
    + intros d Hd.
      assert ((if Rlt_dec y x then y else x) <= x
              ∧ (if Rlt_dec y x then y else x) <= y)%R as [??]
        by (destruct Rlt_dec; lra).
      pose proof (Hle (if Rlt_dec y x then y else x) ltac:(set_solver)).
      apply elem_of_cons in Hd as [->|Hd]; [lra|].
      apply elem_of_cons in Hd as [->|Hd]; [lra|].
      apply Hle. set_solver.
Qed.

Lemma py_max_spec x l :
  ∃ m, py_max (x :: l) = Ok m ∧ m ∈ x :: l ∧ ∀ d, d ∈ x :: l → (d <= m)%R.
Proof.
  cbn. eexists; split; [done|]. revert x.
  induction l as [|y l IH]; intros x; cbn.
  - split; [set_solver|]. intros d ->%list_elem_of_singleton. lra.
  - destruct (IH (if Rgt_dec y x then y else x)) as [Hin Hle].
    split.
    + destruct Rgt_dec; set_solver.
    + intros d Hd.
      assert (x <= (if Rgt_dec y x then y else x)
              ∧ y <= (if Rgt_dec y x then y else x))%R as [??]
        by (destruct Rgt_dec; lra).
      pose proof (Hle (if Rgt_dec y x then y else x) ltac:(set_solver)).
      apply elem_of_cons in Hd as [->|Hd]; [lra|].
      apply elem_of_cons in Hd as [->|Hd]; [lra|].
      apply Hle. set_solver.
Qed.

Lemma py_sum_sum_list l : py_sum l = sum_list l.
Proof.
  unfold py_sum.
  assert (∀ a, fold_left Rplus l a = (a + sum_list l)%R) as ->.
  { induction l as [|x l IH]; intros a; cbn; [lra|]. rewrite IH. lra. }
  lra.
Qed.

Lemma py_truediv_length x n :
  n ≠ 0%nat → py_truediv x (INR n) = Ok (x / INR n)%R.
Proof.
  intros Hn. unfold py_truediv. destruct Req_dec_T as [H0|]; [|done].
  by apply not_0_INR in Hn.
Qed.

Lemma py_truediv_Ok x y z : y ≠ 0%R → (x / y)%R = z → py_truediv x y = Ok z.
Proof. intros Hy <-. unfold py_truediv. by destruct Req_dec_T. Qed.

Lemma py_index_elem {A} (l : list A) i x : py_index l i = Ok x → x ∈ l.
Proof.
  unfold py_index. destruct (l !! i) eqn:Hi; [|done]. intros [= <-].
  by eapply list_elem_of_lookup_2.
Qed.

Lemma map_result_Ok {A B} (f : A → result B) (g : A → B) l ys :
  (∀ x y, f x = Ok y → g x = y) →
  map_result f l = Ok ys → ys = g <$> l.
Proof.
  intros Hg. revert ys. induction l as [|x l IH]; cbn; intros ys Hys.
  - by injection Hys as <-.
  - destruct (f x) as [y|] eqn:Hx; cbn in Hys; [|done].
    destruct (map_result f l) as [ys'|]; cbn in Hys; [|done].
    injection Hys as <-. by rewrite (Hg _ _ Hx), (IH ys').
Qed.

Lemma map_result_elem {A B} (f : A → result B) l ys x :
  map_result f l = Ok ys → x ∈ l → ∃ y, f x = Ok y.
Proof.
  revert ys. induction l as [|a l IH]; cbn; intros ys Hys Hx; [by inversion Hx|].
  destruct (f a) as [y|] eqn:Ha; cbn in Hys; [|done].
  destruct (map_result f l) as [ys'|]; cbn in Hys; [|done].
  apply elem_of_cons in Hx as [->|Hx]; eauto.
Qed.

Lemma map_result_Forall2 {A B} (f : A → result B) l ys :
  map_result f l = Ok ys → Forall2 (fun x y => f x = Ok y) l ys.
Proof.
  revert ys. induction l as [|a l IH]; cbn; intros ys.
  - intros [= <-]. constructor.
  - destruct (f a) as [y|] eqn:Ha; cbn; [|done].
    destruct (map_result f l) as [ys'|]; cbn; [|done].
    intros [= <-]. constructor; [done|]. by apply IH.
Qed.

(** ** The distance summary *)

Section distance_summary_facts.
Import DistanceCalculator.

Lemma map_result_kilometers rs ds :
  map_result kilometers rs = Ok ds → ds = distance_of <$> rs.
Proof.
  apply map_result_Ok. intros x y Hx. unfold distance_of. by rewrite Hx.
Qed.

Lemma sorted_by_distance_Ok rs ds :
  map_result kilometers rs = Ok ds →
  sorted_by_distance rs = Ok (py_sorted distance_of Rltb rs).
Proof.
  intros Hds. unfold sorted_by_distance. rewrite Hds. cbn.
  rewrite (map_result_kilometers _ _ Hds).
  by destruct (py_sorted_decorated distance_of rs) as [-> _].
Qed.

Lemma kilometers_distance_of rs ds s :
  map_result kilometers rs = Ok ds → s ∈ rs → kilometers s = Ok (distance_of s).
Proof.
  intros Hds Hs. destruct (map_result_elem _ _ _ _ Hds Hs) as [y Hy].
  unfold distance_of. by rewrite Hy.
Qed.

Lemma median_index n : n ≠ 0%nat → (n / 2 < n)%nat.
Proof. intros. apply Nat.div_lt; lia. Qed.

(** The station in the middle of the list sorted by distance carries the
    middle element of the sorted distances. *)
Lemma median_station rs ds median :
  map_result kilometers rs = Ok ds →
  py_sorted id Rltb ds !! (length ds / 2)%nat = Some median →
  ∃ s, py_sorted distance_of Rltb rs !! (length rs / 2)%nat = Some s
       ∧ kilometers s = Ok median.
Proof.
  intros Hds Hmed. pose proof (map_result_kilometers _ _ Hds) as ->.
  rewrite <- py_sorted_keys, list_lookup_fmap, length_fmap in Hmed.
  destruct (py_sorted distance_of Rltb rs !! _) as [s|] eqn:Hs; [|done].
  injection Hmed as <-. exists s. split; [done|].
  eapply kilometers_distance_of; [done|].
  rewrite <- (py_sorted_perm distance_of). by eapply list_elem_of_lookup_2.
Qed.

(** The run of [print_distance_summary] on records that all carry a
    distance: the statistics, then the two lists. *)
Lemma print_distance_summary_run rs ds :
  rs ≠ [] →
  map_result kilometers rs = Ok ds →
  ∃ lo hi median,
    py_min ds = Ok lo ∧ py_max ds = Ok hi
    ∧ py_sorted id Rltb ds !! (length ds / 2)%nat = Some median
    ∧ print_distance_summary rs
      = (((header (length rs)
            ++ [L_stats_title; L_min lo; L_max hi;
                L_mean (sum_list ds / INR (length ds))%R; L_median median;
                L_nearest_title], Ok tt) : io line unit)
         ≫= fun _ => print_stations 1 (take 10 (py_sorted distance_of Rltb rs))
         ≫= fun _ => print L_farthest_title
         ≫= fun _ => print_stations 1
                       (drop (length rs - 5) (py_sorted distance_of Rltb rs))).
Proof.
  intros Hne Hds.
  assert (length ds = length rs) as Hlen
    by (by rewrite (map_result_kilometers _ _ Hds), length_fmap).
  destruct ds as [|d ds]; [by destruct rs|].
  destruct (py_min_spec d ds) as (lo & Hlo & _).
  destruct (py_max_spec d ds) as (hi & Hhi & _).
  assert (is_Some (py_sorted id Rltb (d :: ds) !! (length (d :: ds) / 2)%nat))
    as [median Hmed].
  { apply lookup_lt_is_Some. rewrite py_sorted_length. by apply median_index. }
  exists lo, hi, median. repeat (split; [done|]).
  unfold print_distance_summary.
  destruct rs as [|r0 rs]; [done|].
  change (truthy (PList (r0 :: rs))) with true. cbn [negb].
  rewrite (sorted_by_distance_Ok _ _ Hds), Hds.
  unfold lift, print. cbn [mbind io_bind].
  rewrite Hlo, Hhi, py_truediv_length, py_sum_sum_list by done.
  unfold py_index. rewrite Hmed, py_sorted_length.
  destruct (print_stations 1 (take 10 _)) as [t1 [[]|e1]];
    [destruct (print_stations 1 (drop _ _)) as [t2 r2]|]; reflexivity.
Qed.

(** C2.  For every non-empty sequence of records that carry a distance,
    the summary prints, after its header, the minimum, the maximum, the
    arithmetic mean and the median of the distances, and the median is
    the element at index [n / 2] of the distances sorted in ascending
    order, that is the distance of the station at that index of the
    stations sorted by distance. *)
Theorem distance_summary_statistics (rs : list pyval) (ds : list R) :
  rs ≠ [] →
  map_result kilometers rs = Ok ds →
  ∃ lo hi mean median rest r,
    print_distance_summary rs
    = (header (length rs)
       ++ [L_stats_title; L_min lo; L_max hi; L_mean mean; L_median median]
       ++ rest, r)
    ∧ (lo ∈ ds ∧ ∀ d, d ∈ ds → (lo <= d)%R)
    ∧ (hi ∈ ds ∧ ∀ d, d ∈ ds → (d <= hi)%R)
    ∧ mean = (sum_list ds / INR (length ds))%R
    ∧ (∃ sorted, sorted ≡ₚ ds ∧ StronglySorted Rle sorted
         ∧ sorted !! (length ds / 2)%nat = Some median)
    ∧ (∃ stations s, sorted_by_distance rs = Ok stations
         ∧ stations !! (length rs / 2)%nat = Some s
         ∧ kilometers s = Ok median).
Proof.
  intros Hne Hds.
  destruct (print_distance_summary_run rs ds Hne Hds)
    as (lo & hi & median & Hlo & Hhi & Hmed & Hrun).
  destruct (median_station _ _ _ Hds Hmed) as (s & Hs & Hkm).
  assert (∃ rest r, print_distance_summary rs
    = (header (length rs)
       ++ [L_stats_title; L_min lo; L_max hi;
           L_mean (sum_list ds / INR (length ds))%R; L_median median]
       ++ rest, r)) as (rest & r & Hprint).
  { rewrite Hrun. cbn [mbind io_bind].
    destruct (print_stations 1 (take 10 _)) as [t1 [[]|e1]];
      [unfold print; destruct (print_stations 1 (drop _ _)) as [t2 r2]|];
      eexists _, _; unfold header; cbn; reflexivity. }
  exists lo, hi, (sum_list ds / INR (length ds))%R, median, rest, r.
  destruct ds as [|d ds]; [done|].
  destruct (py_min_spec d ds) as (lo' & Hlo' & Hlo_in & Hlo_le).
  destruct (py_max_spec d ds) as (hi' & Hhi' & Hhi_in & Hhi_le).
  assert (lo' = lo) as -> by congruence.
  assert (hi' = hi) as -> by congruence.
  repeat split; try done.
  - exists (py_sorted id Rltb (d :: ds)). split; [apply py_sorted_perm|].
    split; [apply (py_sorted_ascending id)|done].
  - exists (py_sorted distance_of Rltb rs), s.
    by rewrite (sorted_by_distance_Ok _ _ Hds).
Qed.

Lemma four_kilometers :
  map_result kilometers Fixtures.four_stations = Ok [3; 1; 4; 2]%R.
Proof. reflexivity. Qed.

Lemma distance_summary_statistics_witness :
  ∃ lo hi mean median rest r,
    print_distance_summary Fixtures.four_stations
    = (header 4
       ++ [L_stats_title; L_min lo; L_max hi; L_mean mean; L_median median]
       ++ rest, r)
    ∧ (lo ∈ [3; 1; 4; 2]%R ∧ ∀ d, d ∈ [3; 1; 4; 2]%R → (lo <= d)%R)
    ∧ (hi ∈ [3; 1; 4; 2]%R ∧ ∀ d, d ∈ [3; 1; 4; 2]%R → (d <= hi)%R)
    ∧ mean = (sum_list [3; 1; 4; 2] / INR 4)%R
    ∧ (∃ sorted, sorted ≡ₚ [3; 1; 4; 2]%R ∧ StronglySorted Rle sorted
         ∧ sorted !! 2%nat = Some median)
    ∧ (∃ stations s, sorted_by_distance Fixtures.four_stations = Ok stations
         ∧ stations !! 2%nat = Some s
         ∧ kilometers s = Ok median).
Proof.
  apply (distance_summary_statistics Fixtures.four_stations [3; 1; 4; 2]%R).
  - discriminate.
  - exact four_kilometers.
Defined.

Lemma station_line_rank k k' s ln :
  station_line k s = Ok ln → ∃ ln', station_line k' s = Ok ln'.
Proof.
  unfold station_line. intros Hln.
  repeat match type of Hln with
  | context [mbind _ ?m] =>
      let E := fresh "E" in destruct m eqn:E; cbn in Hln |- *; [|done]
  end.
  eauto.
Qed.

Lemma print_stations_printable k l :
  Forall printable l →
  ∃ t, print_stations k l = (t, Ok tt)
       ∧ length t = length l
       ∧ ∀ i s, l !! i = Some s →
           ∃ ln, t !! i = Some ln ∧ station_line (k + i) s = Ok ln.
Proof.
  intros Hl. revert k. induction Hl as [|s l [ln0 Hs] Hl IH]; intros k; cbn.
  - exists []. by repeat split.
  - destruct (station_line_rank 0 k _ _ Hs) as [ln Hln].
    destruct (IH (S k)) as (t & Ht & Hlen & Hall).
    rewrite Hln. unfold lift, print. cbn. rewrite Ht.
    exists (ln :: t). split; [done|]. split; [cbn; lia|].
    intros [|i] x; cbn.
    + intros [= <-]. exists ln. by rewrite Nat.add_0_r.
    + intros Hx. rewrite Nat.add_succ_r. by apply Hall.
Qed.

(** The whole output for stations that can all be rendered: after the
    statistics, one line for each of the first 10 stations of the
    ascending sort, then one line for each of its last 5 stations, still
    in ascending order; fewer stations give shorter lists. *)
Lemma distance_summary_complete (rs : list pyval) (ds : list R) :
  rs ≠ [] →
  map_result kilometers rs = Ok ds →
  Forall printable rs →
  let stations := py_sorted distance_of Rltb rs in
  ∃ stats nearest farthest,
    print_distance_summary rs
    = (header (length rs) ++ stats ++ [L_nearest_title] ++ nearest
       ++ [L_farthest_title] ++ farthest, Ok tt)
    ∧ length stats = 5%nat
    ∧ length nearest = (length rs `min` 10)%nat
    ∧ length farthest = (length rs `min` 5)%nat
    ∧ (∀ i s, take 10 stations !! i = Some s →
         ∃ ln, nearest !! i = Some ln ∧ station_line (1 + i) s = Ok ln)
    ∧ (∀ i s, drop (length rs - 5) stations !! i = Some s →
         ∃ ln, farthest !! i = Some ln ∧ station_line (1 + i) s = Ok ln).
Proof.
  intros Hne Hds Hpr stations.
  destruct (print_distance_summary_run rs ds Hne Hds)
    as (lo & hi & median & _ & _ & _ & Hrun).
  assert (Forall printable stations) as Hpr'
    by (unfold stations; by rewrite py_sorted_perm).
  destruct (print_stations_printable 1 (take 10 stations))
    as (t1 & Ht1 & Hlen1 & Hall1); [by apply Forall_take|].
  destruct (print_stations_printable 1 (drop (length rs - 5) stations))
    as (t2 & Ht2 & Hlen2 & Hall2); [by apply Forall_drop|].
  assert (length stations = length rs) as Hlen by apply py_sorted_length.
  eexists [L_stats_title; L_min lo; L_max hi; L_mean _; L_median median], t1, t2.
  split; [|split; [done|]; split; [|split; [|done]]].
  - rewrite Hrun. fold stations. cbn [mbind io_bind]. rewrite Ht1.
    unfold print. rewrite Ht2. unfold header. cbn. reflexivity.
  - rewrite Hlen1, length_take. lia.
  - rewrite Hlen2, length_drop. lia.
Qed.

(** The two lists in terms of distance: no station of the nearest list is
    farther than a station left out of it, and no station of the farthest
    list is nearer than a station left out of it. *)
Lemma nearest_farthest_order rs n a b :
  let stations := py_sorted distance_of Rltb rs in
  a ∈ take n stations → b ∈ drop n stations →
  (distance_of a <= distance_of b)%R.
Proof. intros stations. apply ascending_take_drop, py_sorted_ascending. Qed.

(** C3.  The record of a station without a temperature reading, alone
    in the input: the summary prints the statistics and the title of the
    nearest list, then raises [TypeError] while it renders the first
    line, so neither list is printed. *)
Theorem distance_summary_raises_without_temperature :
  print_distance_summary [Fixtures.unread_station]
  = (header 1
     ++ [L_stats_title; L_min 1; L_max 1; L_mean 1; L_median 1;
         L_nearest_title],
     Err TypeError).
Proof.
  unfold print_distance_summary.
  change (truthy (PList [Fixtures.unread_station])) with true. cbn [negb].
  change (sorted_by_distance [Fixtures.unread_station])
    with (Ok [Fixtures.unread_station]).
  change (map_result kilometers [Fixtures.unread_station]) with (Ok [1%R]).
  unfold lift, print. cbn [mbind io_bind py_min py_max fold_left length].
  rewrite (py_truediv_Ok _ _ 1%R) by (unfold py_sum; cbn; lra).
  reflexivity.
Qed.

(** Four distances, sorted. *)
Lemma four_sorted : py_sorted id Rltb [3; 1; 4; 2]%R = [1; 2; 3; 4]%R.
Proof. cbn. unfold id. Rdecide. cbn. Rdecide. cbn. Rdecide. reflexivity. Qed.

Lemma four_sorted_stations :
  sorted_by_distance Fixtures.four_stations
  = Ok [ Fixtures.with_distance "A" (PStr "22.5") 1;
         Fixtures.with_distance "B" (PStr "20.1") 2;
         Fixtures.with_distance "C" (PStr "21.0") 3;
         Fixtures.with_distance "D" (PStr "-99") 4 ].
Proof.
  unfold sorted_by_distance. rewrite four_kilometers.
  cbn [mbind result_bind]. f_equal.
  unfold Fixtures.four_stations.
  cbn [zip zip_with py_sorted foldr insert_sorted fst].
  Rdecide. cbn [insert_sorted fst]. Rdecide. cbn [insert_sorted fst]. Rdecide.
  reflexivity.
Qed.

(** The output for four stations at 3, 1, 4 and 2 km: the median is 3,
    the farthest list is in ascending order and starts with the nearest
    station, as there are fewer than five. *)
Lemma four_stations_summary :
  print_distance_summary Fixtures.four_stations
  = (header 4
     ++ [L_stats_title; L_min 1; L_max 4; L_mean (10 / 4); L_median 3;
         L_nearest_title;
         L_station 1 "A" (PStr "Taipei") (PStr "Daan") 1 "22.5";
         L_station 2 "B" (PStr "Taipei") (PStr "Daan") 2 "20.1";
         L_station 3 "C" (PStr "Taipei") (PStr "Daan") 3 "21.0";
         L_station 4 "D" (PStr "Taipei") (PStr "Daan") 4 "-99";
         L_farthest_title;
         L_station 1 "A" (PStr "Taipei") (PStr "Daan") 1 "22.5";
         L_station 2 "B" (PStr "Taipei") (PStr "Daan") 2 "20.1";
         L_station 3 "C" (PStr "Taipei") (PStr "Daan") 3 "21.0";
         L_station 4 "D" (PStr "Taipei") (PStr "Daan") 4 "-99"], Ok tt).
Proof.
  unfold print_distance_summary.
  change (truthy (PList Fixtures.four_stations)) with true. cbn [negb].
  rewrite four_sorted_stations, four_kilometers.
  unfold lift, print. cbn [mbind io_bind py_min py_max fold_left length].
  Rdecide.
  rewrite (py_truediv_Ok _ _ (10 / 4)%R) by (unfold py_sum; cbn; lra).
  rewrite four_sorted.
  reflexivity.
Qed.

(** C1, as the code has it.  On an empty sequence the summary prints the
    notice that there is no station to analyse and returns normally: it
    raises nothing and prints no statistic. *)
Theorem empty_summary_prints_notice :
  print_distance_summary [] = ([L_no_data], Ok tt).
Proof. reflexivity. Qed.

(** C1 as stated fails: no error is signalled for the empty sequence. *)
Lemma empty_summary_signals_no_error :
  ¬ ∃ t e, print_distance_summary [] = (t, Err e).
Proof. intros (t & e & Hrun). discriminate Hrun. Qed.

End distance_summary_facts.

(** ** The distance of every station *)

Lemma filter_ext_in {A} (P Q : A → Prop)
    `{!∀ x, Decision (P x)} `{!∀ x, Decision (Q x)} (l : list A) :
  (∀ x, x ∈ l → P x ↔ Q x) → filter P l = filter Q l.
Proof.
  induction l as [|a l IH]; intros HPQ; [done|].
  rewrite !filter_cons, IH by (intros; apply HPQ; set_solver).
  assert (P a ↔ Q a) as Ha by (apply HPQ; set_solver).
  destruct (decide (P a)); [rewrite decide_True|rewrite decide_False]; tauto.
Qed.

Lemma Forall2_impl_in {A B} (P Q : A → B → Prop) (l : list A) (k : list B) :
  Forall2 P l k → (∀ x y, x ∈ l → P x y → Q x y) → Forall2 Q l k.
Proof.
  induction 1 as [|x y l k Hxy Hlk IH]; intros HPQ; constructor.
  - apply HPQ; [set_solver|done].
  - apply IH. intros. apply HPQ; [set_solver|done].
Qed.

Section distance_facts.
Context `{PyFloat}.
Import DistanceCalculator.

Lemma py_getitem_Err v k e :
  py_getitem v k = Err e → e = KeyError ∨ e = TypeError.
Proof.
  destruct v; cbn; try (intros [= <-]; by right).
  destruct (_ !! _); [done|]. intros [= <-]. by left.
Qed.

Lemma py_float_Err v e : py_float v = Err e → e = ValueError ∨ e = TypeError.
Proof.
  destruct v; cbn; try done; try (intros [= <-]; by right).
  destruct (float_of_str _); [done|]. intros [= <-]. by left.
Qed.

(** Every exception of the [try] block is one the [except] clause
    names. *)
Lemma station_distance_caught lat0 lon0 d e :
  station_distance lat0 lon0 d = Err e → caught e = true.
Proof.
  unfold station_distance. cbn.
  destruct (d !! "location") as [location|]; cbn; [|by intros [= <-]].
  destruct (py_getitem location "latitude") as [lat|e1] eqn:Hlat; cbn.
  2:{ intros [= <-]. by destruct (py_getitem_Err _ _ _ Hlat) as [->| ->]. }
  destruct (py_getitem location "longitude") as [lon|e1] eqn:Hlon; cbn.
  2:{ intros [= <-]. by destruct (py_getitem_Err _ _ _ Hlon) as [->| ->]. }
  destruct (_ || _); [done|].
  destruct (py_float lat) as [x|e1] eqn:Hx; cbn.
  2:{ intros [= <-]. by destruct (py_float_Err _ _ Hx) as [->| ->]. }
  destruct (py_float lon) as [y|e1] eqn:Hy; cbn.
  2:{ intros [= <-]. by destruct (py_float_Err _ _ Hy) as [->| ->]. }
  by rewrite haversine_distance_Ok.
Qed.


Lemma fresh_loc_new (h : heap) : h !! fresh (dom h) = None.
Proof. apply not_elem_of_dom, is_fresh. Qed.

(** The [try] block allocates one dict, the annotated copy, and writes
    nowhere else. *)
Lemma station_body_cases lat0 lon0 (h : heap) s :
  station_body lat0 lon0 h s
  = match station_distance lat0 lon0 (h !!! s) with
    | Ok (Some dist) =>
        Ok (Some (<[fresh (dom h) :=
                      <["distance_to_taipei" := distance_info dist lat0 lon0]>
                        (h !!! s)]> h,
                  fresh (dom h)))
    | Ok None => Ok None
    | Err e => Err e
    end.
Proof.
  unfold station_body.
  destruct (station_distance _ _ _) as [[dist|]|e]; cbn; try done.
  unfold dict_setitem. by rewrite alter_insert_eq.
Qed.

Lemma lookup_total_weaken (h h' : heap) s :
  h ⊆ h' → s ∈ dom h → h' !!! s = h !!! s.
Proof.
  intros Hsub [d Hd]%elem_of_dom.
  rewrite !lookup_total_alt, Hd. by rewrite (lookup_weaken _ _ _ _ Hd Hsub).
Qed.

(** The loop: what it returns and what it does to the store. *)
Lemma stations_loop_spec lat0 lon0 ws (h : heap) out log :
  Forall (fun s => s ∈ dom h) ws →
  ∃ h' log' new,
    stations_loop lat0 lon0 ws h out log = (h', log', Ok (out ++ new))
    ∧ h ⊆ h'
    ∧ NoDup new
    ∧ Forall (fun o => o ∉ dom h) new
    ∧ Forall2
        (fun s o => ∃ dist,
           station_distance lat0 lon0 (h !!! s) = Ok (Some dist)
           ∧ h' !! o = Some (<["distance_to_taipei" := distance_info dist lat0 lon0]>
                               (h !!! s)))
        (filter (fun s => is_Some (stored_distance lat0 lon0 (h !!! s))) ws) new.
Proof.
  revert h out log. induction ws as [|s ws IH]; intros h out log Hws.
  { exists h, log, []. cbn. rewrite app_nil_r. repeat split; try done; constructor. }
  apply Forall_cons in Hws as [Hs Hws]. cbn [stations_loop].
  rewrite station_body_cases, filter_cons.
  destruct (station_distance lat0 lon0 (h !!! s)) as [[dist|]|e] eqn:Hdist.
  - set (o := fresh (dom h)).
    set (h1 := <[o := _]> h).
    assert (h ⊆ h1) as Hsub by (apply insert_subseteq, fresh_loc_new).
    destruct (IH h1 (out ++ [o]) log)
      as (h' & log' & new & Hloop & Hsub' & Hnd & Hnew & Hall).
    { eapply Forall_impl; [done|]. cbn. intros x Hx.
      unfold h1. rewrite dom_insert. set_solver. }
    exists h', log', (o :: new). rewrite Hloop, <- app_assoc. cbn.
    assert (o ∉ dom h) as Ho by apply is_fresh.
    assert (Forall (fun x => x ≠ o ∧ x ∉ dom h) new) as Hnew'.
    { eapply Forall_impl; [done|]. cbn. intros x. unfold h1.
      rewrite dom_insert. set_solver. }
    split; [done|]. split; [by etrans|]. split.
    { constructor; [|done]. intros Hin.
      rewrite Forall_forall in Hnew'. by destruct (Hnew' _ Hin). }
    split. { constructor; [done|]. eapply Forall_impl; [done|]. by intros x [??]. }
    rewrite decide_True by (unfold stored_distance; rewrite Hdist; by eexists).
    constructor.
    + exists dist. split; [done|].
      eapply lookup_weaken; [|done]. unfold h1. by rewrite lookup_insert_eq.
    + assert (filter (fun s0 => is_Some (stored_distance lat0 lon0 (h !!! s0))) ws
              = filter (fun s0 => is_Some (stored_distance lat0 lon0 (h1 !!! s0))) ws)
        as ->.
      { apply filter_ext_in. intros x Hx.
        rewrite Forall_forall in Hws.
        by rewrite (lookup_total_weaken h h1) by eauto. }
      eapply Forall2_impl_in; [done|].
      intros x y [_ Hx]%list_elem_of_filter (dist' & Hd' & Hy).
      rewrite Forall_forall in Hws.
      rewrite (lookup_total_weaken h h1) in Hd', Hy by eauto. eauto.
  - destruct (IH h out log Hws) as (h' & log' & new & Hloop & Hrest).
    exists h', log', new. rewrite Hloop.
    rewrite decide_False by (unfold stored_distance; rewrite Hdist; by intros [??]).
    done.
  - rewrite (station_distance_caught _ _ _ _ Hdist). cbn.
    destruct (IH h out
                (log ++ [Skipped (default (PStr "Unknown")
                                    ((h !!! s) !! "station_name")) e]) Hws)
      as (h' & log' & new & Hloop & Hrest).
    exists h', log', new. rewrite Hloop.
    rewrite decide_False by (unfold stored_distance; rewrite Hdist; by intros [??]).
    done.
Qed.

Lemma kilometers_annotated (d : gmap string pyval) dist lat0 lon0 :
  kilometers (PDict (<["distance_to_taipei" := distance_info dist lat0 lon0]> d))
  = Ok (py_round dist 2).
Proof.
  unfold kilometers. cbn. rewrite lookup_insert_eq. reflexivity.
Qed.

(** C9.  The call changes no dict that existed before it, in particular
    no input station: every record of the output is a new dict, distinct
    from the others, equal to its station with the item
    [distance_to_taipei] set, so every other field is the one of the
    station. *)
Theorem calculate_distances_frame (h : heap) (ws : list loc) (lat0 lon0 : R) :
  Forall (fun s => s ∈ dom h) ws →
  ∃ h' log out,
    calculate_distances_to_taipei_station h ws lat0 lon0 = (h', log, Ok out)
    ∧ (∀ l, l ∈ dom h → h' !! l = h !! l)
    ∧ NoDup out
    ∧ Forall (fun o => o ∉ dom h) out
    ∧ Forall2
        (fun s o => ∃ info,
           h' !! o = Some (<["distance_to_taipei" := info]> (h !!! s))
           ∧ ∀ k, k ≠ "distance_to_taipei" → (h' !!! o) !! k = (h !!! s) !! k)
        (filter (fun s => is_Some (stored_distance lat0 lon0 (h !!! s))) ws) out.
Proof.
  intros Hws. unfold calculate_distances_to_taipei_station.
  destruct (stations_loop_spec lat0 lon0 ws h [] [] Hws)
    as (h' & log & out & Hloop & Hsub & Hnd & Hnew & Hall).
  exists h', log, out. split; [done|]. split; [|split; [done|split; [done|]]].
  - intros l [d Hd]%elem_of_dom. rewrite Hd. by eapply lookup_weaken.
  - eapply Forall2_impl; [done|]. cbn. intros s o (dist & _ & Ho).
    eexists. split; [done|]. intros k Hk.
    by rewrite lookup_total_alt, Ho; cbn; rewrite lookup_insert_ne.
Qed.


End distance_facts.

(** *** The sample store *)

Section distance_examples.
Import DistanceCalculator.

(** The stations of the sample store are stations of the globe. *)
Lemma sample_coordinates_in_range name lat lon temp :
  (∀ x, py_float (H := Decimal.decimal_float) lat = Ok x → latitude_range x) →
  (∀ y, py_float (H := Decimal.decimal_float) lon = Ok y → longitude_range y) →
  coordinates_in_range (H := Decimal.decimal_float)
    (Fixtures.weather_station name lat lon temp).
Proof.
  intros Hlat Hlon location [= <-].
  split; intros v z [= <-]; [apply Hlat|apply Hlon].
Qed.

Lemma store_in_range :
  Forall (fun s => ∃ d, Fixtures.store !! s = Some d ∧ coordinates_typed d
                        ∧ coordinates_in_range (H := Decimal.decimal_float) d)
    [1; 2; 3]%positive.
Proof.
  apply Forall_cons_2; [|apply Forall_cons_2; [|apply Forall_cons_2; [|constructor]]];
    (eexists; split; [reflexivity|]);
    (split; [intros location [= <-]; split; exact I|]);
    apply sample_coordinates_in_range; intros z Hz;
    cbv -[IZR Rplus Rdiv pow Ropp Rmult Rinv] in Hz;
    first [discriminate Hz | injection Hz as <-];
    unfold latitude_range, longitude_range; lra.
Qed.

Lemma taipei_in_range :
  latitude_range taipei_lat_default ∧ longitude_range taipei_lon_default.
Proof.
  unfold latitude_range, longitude_range, taipei_lat_default, taipei_lon_default.
  lra.
Qed.


Lemma calculate_distances_frame_witness :
  ∃ h' log out,
    calculate_distances_to_taipei_station (H := Decimal.decimal_float)
      Fixtures.store [1; 2; 3]%positive taipei_lat_default taipei_lon_default
    = (h', log, Ok out)
    ∧ (∀ l, l ∈ dom Fixtures.store → h' !! l = Fixtures.store !! l)
    ∧ NoDup out
    ∧ Forall (fun o => o ∉ dom Fixtures.store) out
    ∧ Forall2
        (fun s o => ∃ info,
           h' !! o = Some (<["distance_to_taipei" := info]> (Fixtures.store !!! s))
           ∧ ∀ k, k ≠ "distance_to_taipei" →
               (h' !!! o) !! k = (Fixtures.store !!! s) !! k)
        (filter (fun s => is_Some (stored_distance (H := Decimal.decimal_float)
                                     taipei_lat_default taipei_lon_default
                                     (Fixtures.store !!! s)))
           [1; 2; 3]%positive) out.
Proof.
  apply (calculate_distances_frame (H := Decimal.decimal_float)
           Fixtures.store [1; 2; 3]%positive).
  repeat constructor; apply elem_of_dom; eexists; reflexivity.
Defined.

(** Only the first station of the sample store has usable coordinates. *)
Lemma store_selected :
  filter (fun s => is_Some (station_coordinates (H := Decimal.decimal_float)
                              (Fixtures.store !!! s)))
    [1; 2; 3]%positive = [1%positive].
Proof.
  rewrite !filter_cons, filter_nil.
  rewrite decide_True, decide_False, decide_False; [done|..].
  - intros [? Hc]. discriminate Hc.
  - intros [? Hc]. discriminate Hc.
  - by eexists.
Qed.

Lemma parse_lat_a : Decimal.parse "25.03" = Some (IZR 25 + IZR 3 / 10 ^ 2)%R.
Proof. reflexivity. Qed.

Lemma lat_a_value : Fixtures.lat_a = 25.03%R.
Proof. unfold Fixtures.lat_a, Fixtures.reading. rewrite parse_lat_a. cbn. lra. Qed.

(** The run on the sample store: the first station is copied to a new
    dict, the second is passed over in silence, the third is reported
    with the [ValueError] of [float]. *)
Lemma store_run :
  calculate_distances_to_taipei_station (H := Decimal.decimal_float)
    Fixtures.store [1; 2; 3]%positive taipei_lat_default taipei_lon_default
  = (<[4%positive :=
         <["distance_to_taipei" :=
             distance_info
               (haversine_formula Fixtures.lat_a Fixtures.lon_a
                  taipei_lat_default taipei_lon_default)
               taipei_lat_default taipei_lon_default]>
           (Fixtures.store !!! 1%positive)]> Fixtures.store,
     [Skipped (PStr "C") ValueError],
     Ok [4%positive]).
Proof.
  unfold calculate_distances_to_taipei_station. cbn [stations_loop].
  rewrite (station_body_cases (H := Decimal.decimal_float)).
  change (station_distance _ _ (Fixtures.store !!! 1%positive))
    with (haversine_distance Fixtures.lat_a Fixtures.lon_a
            taipei_lat_default taipei_lon_default
          ≫= fun d => Ok (Some d)).
  rewrite haversine_distance_Ok. cbn [mbind result_bind].
  change (fresh (dom Fixtures.store)) with 4%positive.
  set (h1 := <[4%positive := _]> Fixtures.store).
  rewrite (station_body_cases (H := Decimal.decimal_float)).
  assert (h1 !!! 2%positive = Fixtures.store !!! 2%positive) as ->.
  { rewrite !lookup_total_alt. unfold h1. by rewrite lookup_insert_ne. }
  change (station_distance _ _ (Fixtures.store !!! 2%positive)) with (Ok (@None R)).
  rewrite (station_body_cases (H := Decimal.decimal_float)).
  assert (h1 !!! 3%positive = Fixtures.store !!! 3%positive) as ->.
  { rewrite !lookup_total_alt. unfold h1. by rewrite lookup_insert_ne. }
  change (station_distance _ _ (Fixtures.store !!! 3%positive))
    with (@Err (option R) ValueError).
  reflexivity.
Qed.

End distance_examples.

(** ** The normaliser *)

Section normaliser_facts.
Import WeatherApi.

Lemma extract_station_inv station r :
  extract_station station = Ok r →
  ∃ d geo obs we now coords location,
    station = PDict d
    ∧ default (PDict ∅) (d !! "GeoInfo") = PDict geo
    ∧ default (PDict ∅) (d !! "ObsTime") = PDict obs
    ∧ default (PDict ∅) (d !! "WeatherElement") = PDict we
    ∧ default (PDict ∅) (we !! "Now") = PDict now
    ∧ py_iter (default (PList []) (geo !! "Coordinates")) = Ok coords
    ∧ coordinates_loop coords (empty_location geo) = Ok location
    ∧ r = station_record d obs we now location.
Proof.
  unfold extract_station. intros Hr.
  destruct station as [| | | | |d]; try done. cbn in Hr.
  destruct (default (PDict ∅) (d !! "GeoInfo")) as [| | | | |geo] eqn:Hgeo; try done.
  destruct (default (PDict ∅) (d !! "ObsTime")) as [| | | | |obs] eqn:Hobs; try done.
  cbn in Hr.
  destruct (py_iter _) as [coords|] eqn:Hcoords; [|done]. cbn in Hr.
  destruct (coordinates_loop coords _) as [location|] eqn:Hloop; [|done]. cbn in Hr.
  destruct (default (PDict ∅) (d !! "WeatherElement")) as [| | | | |we] eqn:Hwe; try done.
  cbn in Hr.
  destruct (default (PDict ∅) (we !! "Now")) as [| | | | |now] eqn:Hnow; try done.
  cbn in Hr. injection Hr as <-.
  exists d, geo, obs, we, now, coords, location.
  repeat split; done.
Qed.

Lemma extract_station_eq d geo obs we now coords location :
  default (PDict ∅) (d !! "GeoInfo") = PDict geo →
  default (PDict ∅) (d !! "ObsTime") = PDict obs →
  default (PDict ∅) (d !! "WeatherElement") = PDict we →
  default (PDict ∅) (we !! "Now") = PDict now →
  py_iter (default (PList []) (geo !! "Coordinates")) = Ok coords →
  coordinates_loop coords (empty_location geo) = Ok location →
  extract_station (PDict d) = Ok (station_record d obs we now location).
Proof.
  intros Hgeo Hobs Hwe Hnow Hcoords Hloop. unfold extract_station. cbn.
  rewrite Hgeo, Hobs. cbn. rewrite Hcoords. cbn.
  unfold empty_location in Hloop. rewrite Hloop. cbn.
  rewrite Hwe. cbn. rewrite Hnow. cbn. reflexivity.
Qed.

Lemma dict_or_absent_default o :
  dict_or_absent o →
  ∃ m, default (PDict ∅) o = PDict m
       ∧ (o = Some (PDict m) ∨ o = None ∧ m = ∅).
Proof. destruct o as [[]|]; cbn; try done; eauto. Qed.

Lemma raw_station_typed_parts (d : gmap string pyval) :
  raw_station_typed d →
  ∃ geo obs we now,
    default (PDict ∅) (d !! "GeoInfo") = PDict geo
    ∧ default (PDict ∅) (d !! "ObsTime") = PDict obs
    ∧ default (PDict ∅) (d !! "WeatherElement") = PDict we
    ∧ default (PDict ∅) (we !! "Now") = PDict now
    ∧ default (PList []) (geo !! "Coordinates") = PList (raw_coordinates d)
    ∧ Forall is_dict (raw_coordinates d).
Proof.
  intros (Hgeo & Hobs & Hwe & Hnow & Hcoords).
  destruct (dict_or_absent_default _ Hgeo) as (geo & Hgeo1 & Hgeo2).
  destruct (dict_or_absent_default _ Hobs) as (obs & Hobs1 & _).
  destruct (dict_or_absent_default _ Hwe) as (we & Hwe1 & Hwe2).
  assert (dict_or_absent (we !! "Now")) as Hnow'.
  { destruct Hwe2 as [Hwe2|[_ ->]]; [by apply Hnow|by rewrite lookup_empty]. }
  destruct (dict_or_absent_default _ Hnow') as (now & Hnow1 & _).
  exists geo, obs, we, now. repeat (split; [done|]).
  unfold raw_coordinates.
  destruct Hgeo2 as [Hgeo2|[Hgeo2 ->]]; rewrite Hgeo2.
  - specialize (Hcoords _ Hgeo2).
    destruct (geo !! "Coordinates") as [[| | | |coords|]|]; try done.
  - by rewrite lookup_empty.
Qed.

(** The loop stops at the first WGS84 entry. *)
Lemma coordinates_loop_first coords location :
  Forall is_dict coords →
  match list_find (fun c => Is_true (wgs84 c)) coords with
  | Some (_, PDict c) =>
      coordinates_loop coords location
      = Ok (<["longitude" := default PNone (c !! "StationLongitude")]>
              (<["latitude" := default PNone (c !! "StationLatitude")]> location))
  | Some _ => False
  | None => coordinates_loop coords location = Ok location
  end.
Proof.
  induction 1 as [|c coords Hc Hcoords IH]; [done|].
  destruct c as [| | | | |c]; try done.
  cbn [list_find coordinates_loop py_get mbind result_bind].
  change (py_eq_str (default PNone (c !! "CoordinateName")) "WGS84")
    with (wgs84 (PDict c)).
  destruct (wgs84 (PDict c)) eqn:Htag.
  - rewrite decide_True by done. reflexivity.
  - rewrite decide_False by (cbn; tauto).
    destruct (list_find _ coords) as [[i [| | | | |c']]|]; cbn; done.
Qed.

Lemma coordinates_loop_Ok coords location location' :
  coordinates_loop coords location = Ok location' →
  match list_find (fun c => Is_true (wgs84 c)) coords with
  | Some (_, PDict c) =>
      location' = <["longitude" := default PNone (c !! "StationLongitude")]>
                    (<["latitude" := default PNone (c !! "StationLatitude")]> location)
  | Some _ => False
  | None => location' = location
  end.
Proof.
  induction coords as [|c coords IH]; [by intros [= <-]|].
  destruct c as [| | | | |c]; try done.
  cbn [list_find coordinates_loop py_get mbind result_bind].
  change (py_eq_str (default PNone (c !! "CoordinateName")) "WGS84")
    with (wgs84 (PDict c)).
  destruct (wgs84 (PDict c)) eqn:Htag.
  - rewrite decide_True by done. by intros [= <-].
  - rewrite decide_False by (cbn; tauto). intros Hloop%IH.
    destruct (list_find _ coords) as [[i [| | | | |c']]|]; cbn; done.
Qed.

(** When a record is produced, the loop ran over the coordinate list of
    the raw station. *)
Lemma py_iter_raw_coordinates d geo coords location :
  default (PDict ∅) (d !! "GeoInfo") = PDict geo →
  py_iter (default (PList []) (geo !! "Coordinates")) = Ok coords →
  coordinates_loop coords (empty_location geo) = Ok location →
  coords = raw_coordinates d.
Proof.
  intros Hgeo Hiter Hloop. unfold raw_coordinates.
  destruct (d !! "GeoInfo") as [g|]; cbn in Hgeo.
  - subst g. destruct (geo !! "Coordinates") as [[| | |s|l|m]|]; cbn in Hiter; try done.
    + injection Hiter as <-. destruct s; [done|]. done.
    + by injection Hiter as <-.
    + injection Hiter as <-. destruct (map_to_list m) as [|[k v] l]; [done|]. done.
    + by injection Hiter as <-.
  - injection Hgeo as <-. rewrite lookup_empty in Hiter. by injection Hiter as <-.
Qed.

Lemma first_match_unique {A} (P : A → Prop) `{!∀ x, Decision (P x)} l i x :
  l !! i = Some x → P x →
  (∀ j y, (j < i)%nat → l !! j = Some y → ¬ P y) →
  list_find P l = Some (i, x).
Proof.
  intros Hi Hx Hfirst. apply list_find_Some. split; [done|]. split; [done|].
  intros j y Hj Hlt. by apply (Hfirst j).
Qed.

(** Whenever a record is produced, its coordinates are those of the
    first WGS84 entry of the raw station, or unset without one. *)
Lemma extract_station_wgs84 station r :
  extract_station station = Ok r →
  ∃ d rec location,
    station = PDict d ∧ r = PDict rec
    ∧ rec !! "location" = Some (PDict location)
    ∧ (∀ i c,
         raw_coordinates d !! i = Some (PDict c) →
         wgs84 (PDict c) = true →
         (∀ j c', (j < i)%nat → raw_coordinates d !! j = Some c' → wgs84 c' = false) →
         location !! "latitude" = Some (default PNone (c !! "StationLatitude"))
         ∧ location !! "longitude" = Some (default PNone (c !! "StationLongitude")))
    ∧ ((∀ c, c ∈ raw_coordinates d → wgs84 c = false) →
         location !! "latitude" = Some PNone
         ∧ location !! "longitude" = Some PNone).
Proof.
  intros (d & geo & obs & we & now & coords & location
          & -> & Hgeo & Hobs & Hwe & Hnow & Hiter & Hloop & ->)%extract_station_inv.
  pose proof (py_iter_raw_coordinates _ _ _ _ Hgeo Hiter Hloop) as ->.
  apply coordinates_loop_Ok in Hloop.
  eexists d, _, location. split; [done|]. split; [reflexivity|].
  split; [reflexivity|]. split.
  - intros i c Hi Hc Hfirst.
    rewrite (first_match_unique (fun c => Is_true (wgs84 c)) _ i (PDict c)) in Hloop.
    + subst location. split; reflexivity.
    + done.
    + by rewrite Hc.
    + intros j y Hj Hy. rewrite (Hfirst j y Hj Hy). cbn. tauto.
  - intros Hnone.
    assert (list_find (fun c => Is_true (wgs84 c)) (raw_coordinates d) = None) as Hfind.
    { apply list_find_None, Forall_forall. intros c Hc. rewrite (Hnone c Hc). cbn. tauto. }
    rewrite Hfind in Hloop. subst location. split; reflexivity.
Qed.

(** A raw station of the expected shape is never skipped. *)
Lemma extract_station_typed (d : gmap string pyval) :
  raw_station_typed d → ∃ r, extract_station (PDict d) = Ok r.
Proof.
  intros Hty.
  destruct (raw_station_typed_parts d Hty)
    as (geo & obs & we & now & Hgeo & Hobs & Hwe & Hnow & Hcoords & Hdicts).
  pose proof (coordinates_loop_first _ (empty_location geo) Hdicts) as Hloop.
  assert (∃ location,
    coordinates_loop (raw_coordinates d) (empty_location geo) = Ok location)
    as [location Hlocation].
  { destruct (list_find _ _) as [[i [| | | | |c]]|]; try done; eauto. }
  eexists. eapply extract_station_eq; try done. by rewrite Hcoords.
Qed.

(** C7.  A raw station of the expected shape yields a record whose
    latitude and longitude are those of the first entry of its
    coordinate list tagged WGS84, whatever entries follow it; without
    such an entry both stay [None]. *)
Theorem wgs84_first_match (d : gmap string pyval) :
  raw_station_typed d →
  ∃ rec location,
    extract_station (PDict d) = Ok (PDict rec)
    ∧ rec !! "location" = Some (PDict location)
    ∧ (∀ i c,
         raw_coordinates d !! i = Some (PDict c) →
         wgs84 (PDict c) = true →
         (∀ j c', (j < i)%nat → raw_coordinates d !! j = Some c' → wgs84 c' = false) →
         location !! "latitude" = Some (default PNone (c !! "StationLatitude"))
         ∧ location !! "longitude" = Some (default PNone (c !! "StationLongitude")))
    ∧ ((∀ c, c ∈ raw_coordinates d → wgs84 c = false) →
         location !! "latitude" = Some PNone
         ∧ location !! "longitude" = Some PNone).
Proof.
  intros [r Hr]%extract_station_typed.
  destruct (extract_station_wgs84 _ _ Hr)
    as (d' & rec & location & [= <-] & -> & Hrest).
  by exists rec, location.
Qed.


Lemma wgs84_first_match_witness :
  ∃ rec location,
    extract_station (PDict Fixtures.taipei_raw) = Ok (PDict rec)
    ∧ rec !! "location" = Some (PDict location)
    ∧ (∀ i c,
         raw_coordinates Fixtures.taipei_raw !! i = Some (PDict c) →
         wgs84 (PDict c) = true →
         (∀ j c', (j < i)%nat → raw_coordinates Fixtures.taipei_raw !! j = Some c' →
            wgs84 c' = false) →
         location !! "latitude" = Some (default PNone (c !! "StationLatitude"))
         ∧ location !! "longitude" = Some (default PNone (c !! "StationLongitude")))
    ∧ ((∀ c, c ∈ raw_coordinates Fixtures.taipei_raw → wgs84 c = false) →
         location !! "latitude" = Some PNone
         ∧ location !! "longitude" = Some PNone).
Proof.
  apply (wgs84_first_match Fixtures.taipei_raw).
  repeat split; try exact I.
  - intros we [= <-]. exact I.
  - intros geo [= <-]. repeat constructor.
Defined.

(** The record of the sample raw station: the coordinates are those of
    its second entry, the first one tagged WGS84; the third is ignored. *)
Lemma taipei_record :
  extract_station (PDict Fixtures.taipei_raw)
  = Ok (PDict {[ "station_id" := PStr "466920";
                 "station_name" := PStr "Taipei";
                 "location" :=
                   PDict {[ "county" := PStr "Taipei City";
                            "town" := PStr "Zhongzheng";
                            "latitude" := PStr "25.0377";
                            "longitude" := PStr "121.5149" ]};
                 "observation_time" := PStr "2025-01-01T12:00:00+08:00";
                 "weather_elements" :=
                   PDict {[ "temperature" := PStr "21.3";
                            "humidity" := PStr "70";
                            "pressure" := PNone;
                            "wind_speed" := PNone;
                            "wind_direction" := PNone;
                            "weather" := PNone;
                            "precipitation" := PStr "0.0" ]} ]}).
Proof. reflexivity. Qed.

(** A raw station without [AirTemperature] yields a record whose
    temperature is [None], with its coordinates set. *)
Lemma missing_temperature_is_none :
  ∃ r location,
    extract_station (PDict Fixtures.unread_raw) = Ok (PDict r)
    ∧ temperature_of (PDict r) = Some PNone
    ∧ r !! "location" = Some (PDict location)
    ∧ location !! "latitude" = Some (PStr "25.0377")
    ∧ location !! "longitude" = Some (PStr "121.5149").
Proof. eexists _, _. repeat split; reflexivity. Qed.

(** *** The batch *)

Lemma stations_loop_Ok stations acc log out :
  stations_loop stations acc = (log, Ok out) →
  out = acc ++ omap record_of stations.
Proof.
  revert acc log. induction stations as [|s stations IH]; intros acc log; cbn.
  - intros [= _ <-]. by rewrite app_nil_r.
  - unfold record_of at 1. destruct (extract_station s) as [r|e].
    + intros ->%IH. by rewrite <- app_assoc.
    + destruct (py_get s "StationId" _) as [sid|]; cbn; [|done].
      destruct (stations_loop stations acc) as [log' [out'|]] eqn:Hloop; [|done].
      intros [= _ <-]. by eapply IH.
Qed.

(** Among stations that are objects, one that fails is skipped and the
    others are kept, in order. *)
Lemma stations_loop_dicts stations acc :
  Forall is_dict stations →
  ∃ log, stations_loop stations acc = (log, Ok (acc ++ omap record_of stations)).
Proof.
  intros Hst. revert acc. induction Hst as [|s stations Hs Hst IH]; intros acc; cbn.
  - exists []. by rewrite app_nil_r.
  - unfold record_of at 1. destruct (extract_station s) as [r|e].
    + destruct (IH (acc ++ [r])) as [log Hlog]. exists log.
      by rewrite Hlog, <- app_assoc.
    + destruct s as [| | | | |d]; try done. cbn.
      destruct (IH acc) as [log Hlog]. rewrite Hlog. by eexists.
Qed.

Lemma omap_length_le {A B} (f : A → option B) l :
  (length (omap f l) ≤ length l)%nat.
Proof. induction l as [|x l IH]; cbn; [done|]. destruct (f x); cbn; lia. Qed.

Lemma truthy_dict_lookup (d : gmap string pyval) k v :
  d !! k = Some v → truthy (PDict d) = true.
Proof.
  intros Hk. cbn. apply negb_true_iff, Nat.eqb_neq. intros Hsize%map_size_empty_inv.
  by rewrite Hsize, lookup_empty in Hk.
Qed.

(** Without [records], or without the [Station] list, the result is
    empty and nothing is raised. *)
Lemma extract_temperature_data_absent (doc : gmap string pyval) :
  doc !! "records" = None
  ∨ (∃ records, doc !! "records" = Some (PDict records)
                ∧ records !! "Station" = None) →
  extract_temperature_data (PDict doc) = ([], Ok []).
Proof.
  intros Habs. unfold extract_temperature_data.
  destruct (truthy (PDict doc)); [|done]. cbn.
  destruct Habs as [->|(records & -> & Hst)]; cbn.
  - by rewrite lookup_empty.
  - by rewrite Hst.
Qed.

Lemma extract_temperature_data_list (doc records : gmap string pyval) stations :
  doc !! "records" = Some (PDict records) →
  records !! "Station" = Some (PList stations) →
  extract_temperature_data (PDict doc) = stations_loop stations [].
Proof.
  intros Hrec Hst. unfold extract_temperature_data.
  rewrite (truthy_dict_lookup _ _ _ Hrec). cbn. rewrite Hrec. cbn. rewrite Hst. cbn.
  by destruct (stations_loop stations []) as [? []].
Qed.

(** With a station list whose entries are all objects, nothing is raised:
    the result holds the records of the entries that did not fail, in
    input order. *)
Lemma extract_temperature_data_objects (doc records : gmap string pyval) stations :
  doc !! "records" = Some (PDict records) →
  records !! "Station" = Some (PList stations) →
  Forall is_dict stations →
  ∃ log, extract_temperature_data (PDict doc) = (log, Ok (omap record_of stations))
         ∧ (length (omap record_of stations) ≤ length stations)%nat.
Proof.
  intros Hrec Hst Hdicts. rewrite (extract_temperature_data_list _ _ _ Hrec Hst).
  destruct (stations_loop_dicts stations [] Hdicts) as [log Hlog].
  exists log. split; [done|apply omap_length_le].
Qed.

Lemma extract_temperature_data_Ok doc log out :
  extract_temperature_data doc = (log, Ok out) →
  out = omap record_of (doc_stations doc).
Proof.
  unfold extract_temperature_data.
  destruct (truthy doc) eqn:Htruthy; cbn.
  2:{ intros [= _ <-]. destruct doc as [| | | | |d]; try done. cbn in Htruthy.
      apply negb_false_iff, Nat.eqb_eq, map_size_empty_inv in Htruthy as ->.
      unfold doc_stations, raw_stations. by rewrite lookup_empty. }
  destruct doc as [| | | | |d]; try done. cbn. unfold raw_stations.
  destruct (d !! "records") as [[| | | | |records]|]; cbn; try done.
  2:{ rewrite lookup_empty. cbn. by intros [= _ <-]. }
  destruct (records !! "Station") as [[| | |s|stations|m]|]; cbn; try done.
  - destruct s as [|c s]; cbn; [by intros [= _ <-]|done].
  - destruct (stations_loop stations []) as [log' [out'|]] eqn:Hloop; [|done].
    intros [= _ <-]. by apply stations_loop_Ok in Hloop.
  - destruct (map_to_list m) as [|[k v] l]; cbn; [by intros [= _ <-]|done].
  - by intros [= _ <-].
Qed.

(** C8.  A station list with one entry that is not an object, here JSON
    [null] after a well-formed station: the handler of the [except]
    clause calls [station.get] on it and raises [AttributeError] in turn,
    which ends the whole call; the record of the first station is lost
    with it. *)
Theorem batch_lost_on_non_object_entry :
  extract_temperature_data
    (Fixtures.document [PDict Fixtures.taipei_raw; PNone])
  = ([], Err AttributeError).
Proof. reflexivity. Qed.

(** The same list without the stray entry, and with a station whose
    [GeoInfo] has the wrong type in its place: that station alone is
    skipped. *)
Lemma batch_kept_on_malformed_object :
  ∃ r, extract_station (PDict Fixtures.taipei_raw) = Ok r
    ∧ extract_temperature_data
        (Fixtures.document
           [PDict {[ "StationId" := PStr "X"; "GeoInfo" := PStr "none" ]};
            PDict Fixtures.taipei_raw])
      = ([Skipped (PStr "X") AttributeError], Ok [r]).
Proof. eexists. split; reflexivity. Qed.

Lemma coordinates_loop_location coords geo location :
  coordinates_loop coords (empty_location geo) = Ok location →
  dom location = location_keys
  ∧ location !! "county" = Some (default (PStr "") (geo !! "CountyName"))
  ∧ location !! "town" = Some (default (PStr "") (geo !! "TownName")).
Proof.
  intros Hloop%coordinates_loop_Ok.
  destruct (list_find _ coords) as [[i [| | | | |c]]|]; try done; subst location.
  all: split; [|split; reflexivity].
  all: unfold empty_location, location_keys; rewrite !dom_insert_L; set_solver.
Qed.

(** C10, as the code has it.  Every record produced has the keys
    [station_id], [station_name], [location], [observation_time] and
    [weather_elements]; its location has the keys [county], [town],
    [latitude] and [longitude]; its weather elements have the seven keys
    [temperature], [humidity], [pressure], [wind_speed],
    [wind_direction], [weather] and [precipitation].  The name, the
    county, the town and the observation time are the values of the raw
    station, passed on as they are, and the empty string when the raw
    station has none. *)
Theorem record_schema doc log out :
  extract_temperature_data doc = (log, Ok out) →
  Forall (fun r => ∃ rec location elements raw geo obs,
    r = PDict rec
    ∧ dom rec = station_keys
    ∧ rec !! "location" = Some (PDict location)
    ∧ dom location = location_keys
    ∧ rec !! "weather_elements" = Some (PDict elements)
    ∧ dom elements = element_keys
    ∧ PDict raw ∈ doc_stations doc
    ∧ default (PDict ∅) (raw !! "GeoInfo") = PDict geo
    ∧ default (PDict ∅) (raw !! "ObsTime") = PDict obs
    ∧ rec !! "station_name" = Some (default (PStr "") (raw !! "StationName"))
    ∧ location !! "county" = Some (default (PStr "") (geo !! "CountyName"))
    ∧ location !! "town" = Some (default (PStr "") (geo !! "TownName"))
    ∧ rec !! "observation_time" = Some (default (PStr "") (obs !! "DateTime")))
    out.
Proof.
  intros ->%extract_temperature_data_Ok. apply Forall_forall.
  intros r (station & Hin & Hr)%list_elem_of_omap.
  unfold record_of in Hr. destruct (extract_station station) as [r'|] eqn:Hst; [|done].
  injection Hr as ->.
  apply extract_station_inv in Hst
    as (d & geo & obs & we & now & coords & location
        & -> & Hgeo & Hobs & Hwe & Hnow & Hiter & Hloop & ->).
  destruct (coordinates_loop_location _ _ _ Hloop) as (Hdom & Hcounty & Htown).
  eexists _, location, _, d, geo, obs.
  split; [reflexivity|]. split.
  { unfold station_keys. rewrite !dom_insert_L. set_solver. }
  split; [reflexivity|]. split; [done|]. split; [reflexivity|]. split.
  { unfold element_keys. rewrite !dom_insert_L. set_solver. }
  repeat split; done.
Qed.

Lemma record_schema_witness :
  Forall (fun r => ∃ rec location elements raw geo obs,
    r = PDict rec
    ∧ dom rec = station_keys
    ∧ rec !! "location" = Some (PDict location)
    ∧ dom location = location_keys
    ∧ rec !! "weather_elements" = Some (PDict elements)
    ∧ dom elements = element_keys
    ∧ PDict raw ∈ doc_stations (Fixtures.document [PDict Fixtures.unnamed_raw])
    ∧ default (PDict ∅) (raw !! "GeoInfo") = PDict geo
    ∧ default (PDict ∅) (raw !! "ObsTime") = PDict obs
    ∧ rec !! "station_name" = Some (default (PStr "") (raw !! "StationName"))
    ∧ location !! "county" = Some (default (PStr "") (geo !! "CountyName"))
    ∧ location !! "town" = Some (default (PStr "") (geo !! "TownName"))
    ∧ rec !! "observation_time" = Some (default (PStr "") (obs !! "DateTime")))
    [station_record Fixtures.unnamed_raw ∅ ∅ ∅ (empty_location ∅)].
Proof.
  apply (record_schema (Fixtures.document [PDict Fixtures.unnamed_raw]) []).
  reflexivity.
Defined.

(** C10 as stated fails: the name of a record need not be a string.  A
    raw station whose [StationName] is JSON [null] keeps [None] as its
    name. *)
Lemma station_name_not_always_string :
  ¬ (∀ doc log out,
       extract_temperature_data doc = (log, Ok out) →
       Forall (fun r => ∃ rec s,
         r = PDict rec ∧ rec !! "station_name" = Some (PStr s)) out).
Proof.
  intros Hall.
  specialize (Hall (Fixtures.document [PDict Fixtures.unnamed_raw]) [] _ eq_refl).
  apply Forall_cons in Hall as [(rec & s & [= <-] & Hname) _].
  discriminate Hname.
Qed.

End normaliser_facts.

(** ** The sentinel *)

Lemma sentinel_no_reading station :
  WeatherApi.is_sentinel station → WeatherApi.has_reading station = false.
Proof. unfold WeatherApi.is_sentinel, WeatherApi.has_reading. by intros ->. Qed.

Lemma has_reading_not_sentinel station :
  WeatherApi.has_reading station = true → ¬ WeatherApi.is_sentinel station.
Proof. intros Hr Hs. by rewrite (sentinel_no_reading _ Hs) in Hr. Qed.

Section sentinel_facts.
Context `{PyFloat}.
Import WeatherApi.

(** The temperature read by both summaries. *)
Lemma read_temperature d we temp :
  py_getitem d "weather_elements" = Ok we →
  py_get we "temperature" PNone = Ok temp →
  truthy temp = true →
  temperature_of d = Some temp.
Proof.
  destruct d as [| | | | |s]; cbn; try done.
  destruct (s !! "weather_elements") as [we'|]; [|done]. intros [= ->].
  destruct we as [| | | | |m]; cbn; try done.
  destruct (m !! "temperature"); cbn; [by intros [= ->]|].
  by intros [= <-].
Qed.

(** What the loop of [print_temperature_summary] collects: stations of
    the input that pass the filter, each with its temperature as a
    number. *)
Lemma valid_temps_loop_spec data acc vts :
  valid_temps_loop data acc = Ok vts →
  ∃ new, vts = acc ++ new
    ∧ Forall (fun p => p.2 ∈ data ∧ has_reading p.2 = true
                ∧ ∃ temp, temperature_of p.2 = Some temp ∧ py_float temp = Ok p.1) new.
Proof.
  revert acc. induction data as [|d data IH]; intros acc; cbn.
  - intros [= <-]. exists []. by rewrite app_nil_r.
  - destruct (py_getitem d "weather_elements") as [we|] eqn:Hwe; cbn; [|done].
    destruct (py_get we "temperature" PNone) as [temp|] eqn:Htemp; cbn; [|done].
    assert (∀ acc', valid_temps_loop data acc' = Ok vts →
      ∃ new, vts = acc' ++ new
        ∧ Forall (fun p => p.2 ∈ d :: data ∧ has_reading p.2 = true
            ∧ ∃ temp, temperature_of p.2 = Some temp ∧ py_float temp = Ok p.1) new)
      as IH'.
    { intros acc' (new & -> & Hnew)%IH. exists new. split; [done|].
      eapply Forall_impl; [done|]. intros p (? & ? & ?). set_solver. }
    destruct (truthy temp && negb (py_eq_str temp "-99")) eqn:Hkeep; [|by apply IH'].
    apply andb_true_iff in Hkeep as [Htruthy Hneq].
    pose proof (read_temperature _ _ _ Hwe Htemp Htruthy) as Ht.
    destruct (py_float temp) as [x|[]] eqn:Hx; try done; [|by apply IH'].
    intros (new & -> & Hnew)%IH'. exists ((x, d) :: new).
    split; [by rewrite <- app_assoc|]. constructor; [|done]. cbn.
    split; [set_solver|]. split; [|eauto].
    unfold has_reading. by rewrite Ht, Htruthy, Hneq.
Qed.

Lemma print_stations_lines k l t r :
  print_stations k l = (t, r) →
  Forall (fun ln => match ln with L_station _ _ _ _ _ _ _ => True | _ => False end) t.
Proof.
  revert k t r. induction l as [|s l IH]; intros k t r; cbn.
  - intros [= <- _]. constructor.
  - destruct (station_line k s) as [ln|e] eqn:Hln; cbn; [|intros [= <- _]; constructor].
    destruct (print_stations (S k) l) as [t' r'] eqn:Hrest. intros [= <- _].
    constructor; [|by eapply IH].
    unfold station_line in Hln.
    repeat match type of Hln with
    | context [mbind _ ?m] =>
        let E := fresh "E" in destruct m eqn:E; cbn in Hln; [|done]
    end.
    by injection Hln as <-.
Qed.

(** Every extreme temperature printed by [print_temperature_summary]
    is a collected reading. *)
Lemma temperature_summary_extremes data t r x name county town :
  print_temperature_summary data = (t, r) →
  L_max x name county town ∈ t ∨ L_min x name county town ∈ t →
  ∃ vts d, valid_temps_loop data [] = Ok vts ∧ (x, d) ∈ vts
           ∧ station_place d = Ok (name, county, town).
Proof.
  unfold print_temperature_summary.
  destruct (truthy (PList data)); cbn [negb].
  2:{ intros [= <- _] [Hin|Hin]; set_solver. }
  unfold print, lift. cbn [mbind io_bind].
  destruct (valid_temps_loop data []) as [vts|e] eqn:Hvts.
  2:{ intros [= <- _] [Hin|Hin]; set_solver. }
  destruct (print_stations 1 (take 15 data)) as [t3 r3] eqn:Hst.
  pose proof (print_stations_lines _ _ _ _ Hst) as Hlines.
  assert (∀ ln, ln ∈ t3 →
    match ln with L_station _ _ _ _ _ _ _ => True | _ => False end) as Hlines'
    by (by apply Forall_forall).
  destruct (negb (length vts =? 0)%nat).
  2:{ intros [= <- _] [Hin|Hin]; set_solver. }
  cbn [mbind io_bind].
  destruct (py_index _ (length _ - 1)) as [[xh dh]|] eqn:Hhi.
  2:{ intros [= <- _] [Hin|Hin]; set_solver. }
  apply py_index_elem in Hhi. rewrite py_sorted_perm in Hhi.
  cbn. destruct (station_place dh) as [[[nh ch] th]|] eqn:Hph; cbn.
  2:{ intros [= <- _] [Hin|Hin]; set_solver. }
  destruct (py_index _ 0) as [[xl dl]|] eqn:Hlo.
  2:{ intros [= <- _] [Hin|Hin]; [|set_solver].
      exists vts, dh. set_solver. }
  apply py_index_elem in Hlo. rewrite py_sorted_perm in Hlo.
  cbn. destruct (station_place dl) as [[[nl cl] tl]|] eqn:Hpl; cbn.
  2:{ intros [= <- _] [Hin|Hin]; [|set_solver].
      exists vts, dh. set_solver. }
  intros [= <- _] [Hin|Hin].
  - exists vts, dh. set_solver.
  - exists vts, dl. set_solver.
Qed.

Lemma valid_station_reading d b :
  Main.valid_station d = Ok b → b = has_reading d.
Proof.
  unfold Main.valid_station, has_reading.
  destruct d as [| | | | |s]; cbn; try done.
  destruct (s !! "weather_elements") as [we|]; cbn; [|done].
  destruct we as [| | | | |m]; cbn; try done.
  destruct (m !! "temperature") as [temp|]; cbn; [|by intros [= <-]].
  destruct (truthy temp); cbn; by intros [= <-].
Qed.

Lemma valid_stations_filter data valid :
  Main.valid_stations data = Ok valid →
  valid = filter (fun d => Is_true (has_reading d)) data.
Proof.
  revert valid. induction data as [|d data IH]; intros valid.
  - by intros [= <-].
  - rewrite filter_cons. cbn [Main.valid_stations].
    destruct (Main.valid_station d) as [b|] eqn:Hd; cbn [mbind result_bind]; [|done].
    destruct (Main.valid_stations data) as [kept|]; cbn [mbind result_bind]; [|done].
    intros [= <-]. apply valid_station_reading in Hd as ->.
    rewrite <- (IH kept eq_refl).
    by destruct (has_reading d).
Qed.

Lemma station_temperature_reading d x :
  Main.station_temperature d = Ok x →
  ∃ temp, temperature_of d = Some temp ∧ py_float temp = Ok x.
Proof.
  unfold Main.station_temperature.
  destruct d as [| | | | |s]; cbn; try done.
  destruct (s !! "weather_elements") as [we|]; cbn; [|done].
  destruct we as [| | | | |m]; cbn; try done.
  destruct (m !! "temperature") as [temp|]; cbn; [|done]. eauto.
Qed.

(** Every aggregate printed by the summary of [main] is computed from
    the temperatures of the stations that pass the filter. *)
Lemma main_summary_aggregates data t r x :
  Main.main_summary data = (t, r) →
  Main.L_mean x ∈ t ∨ Main.L_max x ∈ t ∨ Main.L_min x ∈ t →
  ∃ temps,
    map_result Main.station_temperature
      (filter (fun d => Is_true (has_reading d)) data) = Ok temps
    ∧ (Main.L_mean x ∈ t → x = (sum_list temps / INR (length temps))%R)
    ∧ (Main.L_max x ∈ t → x ∈ temps ∧ ∀ y, y ∈ temps → (y <= x)%R)
    ∧ (Main.L_min x ∈ t → x ∈ temps ∧ ∀ y, y ∈ temps → (x <= y)%R).
Proof.
  unfold Main.main_summary, print, lift. cbn [mbind io_bind].
  destruct (Main.valid_stations data) as [valid|] eqn:Hvalid.
  2:{ intros [= <- _] Hin. set_solver. }
  apply valid_stations_filter in Hvalid as <-.
  destruct (truthy (PList valid)); cbn [mbind io_bind].
  2:{ intros [= <- _] Hin. set_solver. }
  destruct (map_result Main.station_temperature valid) as [temps|] eqn:Htemps.
  2:{ intros [= <- _] Hin. set_solver. }
  intros Hrun Hin. exists temps. split; [done|]. revert Hrun. cbn.
  destruct (py_truediv _ _) as [mean|] eqn:Hmean.
  2:{ intros [= <- _]. set_solver. }
  assert (mean = (sum_list temps / INR (length temps))%R) as ->.
  { unfold py_truediv in Hmean. destruct Req_dec_T; [done|].
    injection Hmean as <-. by rewrite py_sum_sum_list. }
  destruct temps as [|y temps].
  { cbn. intros [= <- _]. set_solver. }
  destruct (py_max_spec y temps) as (hi & -> & Hhi).
  destruct (py_min_spec y temps) as (lo & -> & Hlo).
  cbn. intros [= <- _]. repeat split.
  - intros Hin'. set_solver.
  - assert (x = hi) as -> by set_solver. apply Hhi.
  - assert (x = hi) as -> by set_solver. apply Hhi.
  - assert (x = lo) as -> by set_solver. apply Hlo.
  - assert (x = lo) as -> by set_solver. apply Hlo.
Qed.

(** What the loop of the heat map collects: one point for each station
    it keeps, weighted by the temperature of that station as a number;
    a kept station passes the filter. *)
Lemma heat_data_loop_spec data acc pts :
  WeatherMap.heat_data_loop data acc = Ok pts →
  ∃ kept new,
    pts = acc ++ new
    ∧ Forall2 (fun d (p : R * R * R) =>
                 d ∈ data ∧ has_reading d = true
                 ∧ ∃ temp, temperature_of d = Some temp ∧ py_float temp = Ok p.2)
        kept new.
Proof.
  revert acc. induction data as [|d data IH]; intros acc; cbn.
  - intros [= <-]. exists [], []. rewrite app_nil_r. split; [done|constructor].
  - assert (∀ acc', WeatherMap.heat_data_loop data acc' = Ok pts →
      ∃ kept new, pts = acc' ++ new
        ∧ Forall2 (fun d' (p : R * R * R) =>
                     d' ∈ d :: data ∧ has_reading d' = true
                     ∧ ∃ temp, temperature_of d' = Some temp ∧ py_float temp = Ok p.2)
            kept new) as IH'.
    { intros acc' (kept & new & -> & Hnew)%IH. exists kept, new. split; [done|].
      eapply Forall2_impl; [done|]. intros d' p (? & ? & ?). set_solver. }
    destruct (py_getitem d "location") as [loc|]; cbn; [|done].
    destruct (py_getitem loc "latitude") as [lat|]; cbn; [|done].
    destruct (py_getitem loc "longitude") as [lon|]; cbn; [|done].
    destruct (py_getitem d "weather_elements") as [we|] eqn:Hwe; cbn; [|done].
    destruct (py_get we "temperature" PNone) as [temp|] eqn:Htemp; cbn; [|done].
    destruct (_ || _) eqn:Hskip; [by apply IH'|].
    apply orb_false_iff in Hskip as [Hskip Hneq].
    apply orb_false_iff in Hskip as [_ Htruthy%negb_false_iff].
    pose proof (read_temperature _ _ _ Hwe Htemp Htruthy) as Ht.
    unfold WeatherMap.heat_point.
    destruct (py_float lat) as [x|[]]; cbn; try done; try by apply IH'.
    destruct (py_float lon) as [y|[]]; cbn; try done; try by apply IH'.
    destruct (py_float temp) as [z|[]] eqn:Hz; cbn; try done; try by apply IH'.
    intros (kept & new & -> & Hnew)%IH'. exists (d :: kept), ((x, y, z) :: new).
    split; [by rewrite <- app_assoc|]. constructor; [|done]. cbn.
    split; [set_solver|]. split; [|eauto].
    unfold has_reading. by rewrite Ht, Htruthy, Hneq.
Qed.

(** C6.  A station whose temperature is the sentinel string is left out
    of every temperature aggregate.  In [print_temperature_summary] no
    collected reading belongs to such a station, and each highest or
    lowest temperature printed is the reading of a station of the input
    that does not hold the sentinel, converted by [float].  In the
    summary of [main] the mean, the highest and the lowest temperature
    are computed from the readings of the stations that pass the filter,
    none of which holds the sentinel.  The heat map weighs its points by
    the readings of stations that do not hold the sentinel. *)
Theorem sentinel_excluded (data : list pyval) :
  (∀ vts, valid_temps_loop data [] = Ok vts →
     Forall (fun p => ¬ is_sentinel p.2) vts)
  ∧ (∀ t r x name county town,
       print_temperature_summary data = (t, r) →
       L_max x name county town ∈ t ∨ L_min x name county town ∈ t →
       ∃ d temp,
         d ∈ data ∧ ¬ is_sentinel d
         ∧ temperature_of d = Some temp ∧ py_float temp = Ok x
         ∧ station_place d = Ok (name, county, town))
  ∧ (∀ t r x,
       Main.main_summary data = (t, r) →
       Main.L_mean x ∈ t ∨ Main.L_max x ∈ t ∨ Main.L_min x ∈ t →
       ∃ valid temps,
         valid = filter (fun d => Is_true (has_reading d)) data
         ∧ Forall (fun d => ¬ is_sentinel d) valid
         ∧ Forall2 (fun d y => ∃ temp,
             temperature_of d = Some temp ∧ py_float temp = Ok y) valid temps
         ∧ (Main.L_mean x ∈ t → x = (sum_list temps / INR (length temps))%R)
         ∧ (Main.L_max x ∈ t → x ∈ temps ∧ ∀ y, y ∈ temps → (y <= x)%R)
         ∧ (Main.L_min x ∈ t → x ∈ temps ∧ ∀ y, y ∈ temps → (x <= y)%R))
  ∧ (∀ points,
       WeatherMap.heat_data_loop data [] = Ok points →
       ∃ kept,
         Forall2 (fun d (p : R * R * R) =>
                    d ∈ data ∧ ¬ is_sentinel d
                    ∧ ∃ temp, temperature_of d = Some temp ∧ py_float temp = Ok p.2)
           kept points).
Proof.
  split; [|split; [|split]].
  - intros vts (new & -> & Hnew)%valid_temps_loop_spec. cbn.
    eapply Forall_impl; [done|]. intros p (_ & Hp & _).
    by apply has_reading_not_sentinel.
  - intros t r x name county town Hrun Hin.
    destruct (temperature_summary_extremes _ _ _ _ _ _ _ Hrun Hin)
      as (vts & d & Hvts & Hd & Hplace).
    apply valid_temps_loop_spec in Hvts as (new & -> & Hnew). cbn in Hd.
    rewrite Forall_forall in Hnew.
    destruct (Hnew _ Hd) as (Hdata & Hreading & temp & Htemp & Hx).
    exists d, temp. split; [done|].
    split; [by apply has_reading_not_sentinel|]. done.
  - intros t r x Hrun Hin.
    destruct (main_summary_aggregates _ _ _ _ Hrun Hin) as (temps & Htemps & Hagg).
    eexists _, temps. split; [reflexivity|]. split; [|split; [|done]].
    + apply Forall_forall. intros d [Hd _]%list_elem_of_filter.
      apply has_reading_not_sentinel. by destruct (has_reading d).
    + eapply Forall2_impl; [by apply map_result_Forall2|].
      intros d y. apply station_temperature_reading.
  - intros points (kept & new & -> & Hnew)%heat_data_loop_spec.
    exists kept. eapply Forall2_impl; [done|].
    intros d p (Hd & Hreading & Htemp). split; [done|].
    split; [by apply has_reading_not_sentinel|done].
Qed.

End sentinel_facts.

(** *** Three stations, one of them without a reading *)

Section sentinel_examples.
Import WeatherApi.

Lemma reading_25 : Fixtures.reading "25" = 25%R.
Proof.
  assert (Decimal.parse "25" = Some (IZR 25 + IZR 0 / 10 ^ 0)%R) as Hp by reflexivity.
  unfold Fixtures.reading. rewrite Hp. cbn. lra.
Qed.

Lemma reading_18 : Fixtures.reading "18" = 18%R.
Proof.
  assert (Decimal.parse "18" = Some (IZR 18 + IZR 0 / 10 ^ 0)%R) as Hp by reflexivity.
  unfold Fixtures.reading. rewrite Hp. cbn. lra.
Qed.

Lemma three_valid_temps :
  valid_temps_loop (H := Decimal.decimal_float) Fixtures.three_stations []
  = Ok [(25%R, Fixtures.station_a); (18%R, Fixtures.station_c)].
Proof. rewrite <- reading_25, <- reading_18. reflexivity. Qed.

(** The summary of [weather_api]: the extremes are 25 and 18, the
    station at -99 is only listed. *)
Lemma three_summary :
  print_temperature_summary (H := Decimal.decimal_float) Fixtures.three_stations
  = ([L_title; L_total 3; L_time; L_rule;
      L_max 25 (PStr "A") (PStr "Taipei") (PStr "Daan");
      L_min 18 (PStr "C") (PStr "Taipei") (PStr "Daan");
      L_list_title;
      L_station 1 "A" (PStr "Taipei") (PStr "Daan") "25" "70" "clear";
      L_station 2 "B" (PStr "Taipei") (PStr "Daan") "-99" "70" "clear";
      L_station 3 "C" (PStr "Taipei") (PStr "Daan") "18" "70" "clear"], Ok tt).
Proof.
  unfold print_temperature_summary.
  change (truthy (PList Fixtures.three_stations)) with true. cbn [negb].
  unfold print, lift. cbn [mbind io_bind].
  rewrite three_valid_temps.
  cbn [length Nat.eqb negb py_sorted foldr insert_sorted fst].
  Rdecide.
  reflexivity.
Qed.

(** The summary of [main]: two stations count, their mean is 21.5. *)
Lemma three_main_summary :
  Main.main_summary (H := Decimal.decimal_float) Fixtures.three_stations
  = ([Main.L_step_title; Main.L_rule; Main.L_count 2;
      Main.L_mean (43 / 2); Main.L_max 25; Main.L_min 18], Ok tt).
Proof.
  unfold Main.main_summary, print, lift. cbn [mbind io_bind].
  change (Main.valid_stations Fixtures.three_stations)
    with (Ok [Fixtures.station_a; Fixtures.station_c]).
  change (truthy (PList [Fixtures.station_a; Fixtures.station_c])) with true.
  cbn [mbind io_bind].
  assert (map_result (Main.station_temperature (H := Decimal.decimal_float))
            [Fixtures.station_a; Fixtures.station_c] = Ok [25; 18]%R) as ->.
  { rewrite <- reading_25, <- reading_18. reflexivity. }
  cbn [length py_max py_min fold_left].
  rewrite (py_truediv_Ok _ _ (43 / 2)%R) by (unfold py_sum; cbn; lra).
  Rdecide. reflexivity.
Qed.

Lemma sentinel_excluded_witness :
  ∃ d temp,
    d ∈ Fixtures.three_stations ∧ ¬ is_sentinel d
    ∧ temperature_of d = Some temp
    ∧ py_float (H := Decimal.decimal_float) temp = Ok 25%R
    ∧ station_place d = Ok (PStr "A", PStr "Taipei", PStr "Daan").
Proof.
  apply (proj1 (proj2 (sentinel_excluded (H := Decimal.decimal_float)
                         Fixtures.three_stations))
           _ _ _ _ _ _ three_summary).
  left. do 4 apply list_elem_of_further. apply list_elem_of_here.
Defined.

End sentinel_examples.

(** * Further properties *)

(** ** The geometry of the haversine distance *)

Section haversine_geometry.
Import DistanceCalculator.
#[local] Open Scope R_scope.

(** X1.  The distance from a first point to a second is the distance
    from the second to the first. *)
Theorem haversine_distance_symmetric (lat1 lon1 lat2 lon2 : R) :
  haversine_distance lat1 lon1 lat2 lon2 = haversine_distance lat2 lon2 lat1 lon1.
Proof. rewrite !haversine_distance_Ok. f_equal. apply haversine_formula_sym. Qed.

(** X2.  The distance from a point to itself is zero, whatever the
    point. *)
Theorem haversine_distance_same_point (lat lon : R) :
  haversine_distance lat lon lat lon = Ok 0.
Proof. rewrite haversine_distance_Ok. f_equal. apply haversine_formula_same. Qed.




End haversine_geometry.

(** ** Messages and repetition of the distance computation *)

(** [omap] depends on the function only through the elements of the list. *)
Lemma omap_ext_in {A B} (f g : A → option B) (l : list A) :
  (∀ x, x ∈ l → f x = g x) → omap f l = omap g l.
Proof.
  induction l as [|a l IH]; intros Hfg; [done|]. cbn.
  rewrite (Hfg a) by set_solver. rewrite IH by (intros; apply Hfg; set_solver).
  done.
Qed.

Section distance_accounts.
Context `{PyFloat}.
Import DistanceCalculator Outcome.

(** The loop, this time with its messages and a count of what becomes of
    the stations. *)
Lemma stations_loop_log lat0 lon0 ws (h : heap) out log :
  Forall (fun s => s ∈ dom h) ws →
  ∃ h' new,
    stations_loop lat0 lon0 ws h out log
    = (h', log ++ omap (fun s => report lat0 lon0 (h !!! s)) ws, Ok (out ++ new))
    ∧ h ⊆ h'
    ∧ (length new + length (omap (fun s => report lat0 lon0 (h !!! s)) ws)
       + length (filter (fun s => Is_true (passed_over lat0 lon0 (h !!! s))) ws)
       = length ws)%nat.
Proof.
  revert h out log. induction ws as [|s ws IH]; intros h out log Hws.
  { exists h, []. cbn. by rewrite !app_nil_r. }
  apply Forall_cons in Hws as [Hs Hws]. cbn [stations_loop].
  rewrite station_body_cases, filter_cons.
  change (omap ?f (s :: ws))
    with (match f s with Some y => y :: omap f ws | None => omap f ws end).
  cbn beta.
  destruct (station_distance lat0 lon0 (h !!! s)) as [[dist|]|e] eqn:Hdist.
  - assert (report lat0 lon0 (h !!! s) = None) as ->
      by (unfold report; by rewrite Hdist).
    assert (passed_over lat0 lon0 (h !!! s) = false) as Hp
      by (unfold passed_over; by rewrite Hdist).
    set (o := fresh (dom h)).
    set (h1 := <[o := _]> h).
    assert (h ⊆ h1) as Hsub by (apply insert_subseteq, fresh_loc_new).
    destruct (IH h1 (out ++ [o]) log) as (h' & new & Hloop & Hsub' & Hlen).
    { eapply Forall_impl; [done|]. cbn. intros x Hx.
      unfold h1. rewrite dom_insert. set_solver. }
    rewrite Forall_forall in Hws.
    assert (omap (fun s0 => report lat0 lon0 (h1 !!! s0)) ws
            = omap (fun s0 => report lat0 lon0 (h !!! s0)) ws) as Hrep.
    { apply omap_ext_in. intros x Hx. by rewrite (lookup_total_weaken h h1) by eauto. }
    assert (filter (fun s0 => Is_true (passed_over lat0 lon0 (h1 !!! s0))) ws
            = filter (fun s0 => Is_true (passed_over lat0 lon0 (h !!! s0))) ws) as Hpass.
    { apply filter_ext_in. intros x Hx. by rewrite (lookup_total_weaken h h1) by eauto. }
    rewrite Hrep, Hpass in *.
    exists h', (o :: new). rewrite Hloop, <- app_assoc. cbn [app].
    split; [done|]. split; [by etrans|].
    rewrite decide_False by (rewrite Hp; cbn; tauto). cbn [length]. lia.
  - assert (report lat0 lon0 (h !!! s) = None) as ->
      by (unfold report; by rewrite Hdist).
    assert (passed_over lat0 lon0 (h !!! s) = true) as Hp
      by (unfold passed_over; by rewrite Hdist).
    destruct (IH h out log Hws) as (h' & new & Hloop & Hsub & Hlen).
    exists h', new. rewrite Hloop. split; [done|]. split; [done|].
    rewrite decide_True by (by rewrite Hp). cbn [length]. lia.
  - assert (report lat0 lon0 (h !!! s)
            = Some (Skipped (default (PStr "Unknown")
                               ((h !!! s) !! "station_name")) e)) as ->
      by (unfold report; by rewrite Hdist).
    assert (passed_over lat0 lon0 (h !!! s) = false) as Hp
      by (unfold passed_over; by rewrite Hdist).
    rewrite (station_distance_caught _ _ _ _ Hdist). cbn [py_get].
    destruct (IH h out
                (log ++ [Skipped (default (PStr "Unknown")
                                    ((h !!! s) !! "station_name")) e]) Hws)
      as (h' & new & Hloop & Hsub & Hlen).
    exists h', new. rewrite Hloop, <- app_assoc. cbn [app].
    split; [done|]. split; [done|].
    rewrite decide_False by (rewrite Hp; cbn; tauto). cbn [length]. lia.
Qed.

(** X5.  For stations of the globe and a reference point of the globe,
    the messages [calculate_distances_to_taipei_station] prints are, in
    input order, one for each station whose [try] block raises, with the
    name of the station or [Unknown] and the exception; the call itself
    raises nothing.  Every station of the input is counted once: it is
    kept, reported, or passed over without a message. *)
Theorem calculate_distances_messages (h : heap) (ws : list loc) (lat0 lon0 : R) :
  Forall (fun s => ∃ d, h !! s = Some d ∧ coordinates_in_range d) ws →
  latitude_range lat0 →
  longitude_range lon0 →
  ∃ h' out,
    calculate_distances_to_taipei_station h ws lat0 lon0
    = (h', omap (fun s => report lat0 lon0 (h !!! s)) ws, Ok out)
    ∧ (length out + length (omap (fun s => report lat0 lon0 (h !!! s)) ws)
       + length (filter (fun s => Is_true (passed_over lat0 lon0 (h !!! s))) ws)
       = length ws)%nat.
Proof.
  intros Hrange _ _.
  assert (Forall (fun s => s ∈ dom h) ws) as Hws.
  { eapply Forall_impl; [done|]. cbn. intros s (d & Hd & _). by apply elem_of_dom. }
  unfold calculate_distances_to_taipei_station.
  destruct (stations_loop_log lat0 lon0 ws h [] [] Hws)
    as (h' & out & Hloop & _ & Hlen).
  exists h', out. by rewrite Hloop.
Qed.

(** X6.  Which stations are dropped with a message and which without.
    A station without [location] is reported with [KeyError].  A station
    whose latitude or longitude is [None] or the empty string is passed
    over without any message.  A station whose coordinates are both
    non-empty strings, one of which [float] rejects, is reported with
    [ValueError]. *)
Theorem unset_coordinates_pass_unreported (lat0 lon0 : R) (d : gmap string pyval) :
  let name := default (PStr "Unknown") (d !! "station_name") in
  (d !! "location" = None →
   report lat0 lon0 d = Some (Skipped name KeyError))
  ∧ (∀ location lat lon,
       d !! "location" = Some (PDict location) →
       location !! "latitude" = Some lat →
       location !! "longitude" = Some lon →
       (unset lat ∨ unset lon →
        passed_over lat0 lon0 d = true ∧ report lat0 lon0 d = None)
       ∧ (∀ a b, lat = PStr a → lon = PStr b → a ≠ "" → b ≠ "" →
            float_of_str a = None ∨ float_of_str b = None →
            passed_over lat0 lon0 d = false
            ∧ report lat0 lon0 d = Some (Skipped name ValueError))).
Proof.
  intros name. split.
  - intros Hloc. unfold report, station_distance. cbn. by rewrite Hloc.
  - intros location lat lon Hloc Hlat Hlon.
    unfold report, passed_over, station_distance. cbn.
    rewrite Hloc. cbn. rewrite Hlat, Hlon. cbn. split.
    + intros [[-> | ->]|[-> | ->]]; cbn; rewrite ?orb_true_r; done.
    + intros a b -> -> Ha Hb Hfail. cbn.
      apply String.eqb_neq in Ha, Hb. rewrite Ha, Hb. cbn.
      destruct (float_of_str a) as [x|]; cbn; [|done].
      destruct Hfail as [|Hfail]; [done|]. by rewrite Hfail.
Qed.

(** Two lists related to a common one are related to each other. *)
Lemma Forall2_common_left {A B C} (P : A → B → Prop) (Q : A → C → Prop) l k1 k2 :
  Forall2 P l k1 → Forall2 Q l k2 →
  Forall2 (fun b c => ∃ a, a ∈ l ∧ P a b ∧ Q a c) k1 k2.
Proof.
  intros HP. revert k2. induction HP as [|a b l k1 Hab HP IH]; intros k2 HQ.
  - inversion HQ. constructor.
  - inversion HQ as [|a' c l' k2' Hac HQ']; subst. constructor.
    + exists a. split; [set_solver|done].
    + eapply Forall2_impl; [by apply IH|]. cbn. intros b' c' (x & ? & ?).
      exists x. split; [set_solver|done].
Qed.

(** X7.  Calling [calculate_distances_to_taipei_station] a second time
    on the same stations prints the same messages and returns as many
    records: each is a new dict, distinct from the record of the first
    call it corresponds to and with the same content, and the records of
    the first call are left as they were. *)
Theorem calculate_distances_repeatable (h : heap) (ws : list loc) (lat0 lon0 : R)
    h1 log1 out1 :
  Forall (fun s => s ∈ dom h) ws →
  calculate_distances_to_taipei_station h ws lat0 lon0 = (h1, log1, Ok out1) →
  ∃ h2 out2,
    calculate_distances_to_taipei_station h1 ws lat0 lon0 = (h2, log1, Ok out2)
    ∧ Forall2 (fun o1 o2 => o1 ≠ o2 ∧ h2 !! o2 = h1 !! o1 ∧ h2 !! o1 = h1 !! o1)
        out1 out2.
Proof.
  intros Hws Hrun. unfold calculate_distances_to_taipei_station in *.
  destruct (stations_loop_spec lat0 lon0 ws h [] [] Hws)
    as (h1' & log1' & out1' & Hloop1 & Hsub1 & _ & _ & Hall1).
  destruct (stations_loop_log lat0 lon0 ws h [] [] Hws)
    as (h1'' & out1'' & Hlog1 & _ & _).
  rewrite Hrun in Hloop1, Hlog1. cbn in Hloop1, Hlog1.
  injection Hloop1 as <- <- <-. injection Hlog1 as _ Hlog1 _.
  assert (Forall (fun s => s ∈ dom h1) ws) as Hws1.
  { eapply Forall_impl; [done|]. cbn. intros s Hs.
    by eapply (subseteq_dom h h1). }
  destruct (stations_loop_spec lat0 lon0 ws h1 [] [] Hws1)
    as (h2 & log2 & out2 & Hloop2 & Hsub2 & _ & Hnew2 & Hall2).
  destruct (stations_loop_log lat0 lon0 ws h1 [] [] Hws1)
    as (h2' & out2' & Hlog2 & _ & _).
  rewrite Hloop2 in Hlog2. cbn in Hlog2. injection Hlog2 as _ Hlog2 _.
  rewrite Forall_forall in Hws.
  assert (log2 = log1) as ->.
  { rewrite Hlog1, Hlog2. apply omap_ext_in. intros s Hs.
    by rewrite (lookup_total_weaken h h1) by eauto. }
  exists h2, out2. split; [done|].
  assert (filter (fun s => is_Some (stored_distance lat0 lon0 (h1 !!! s))) ws
          = filter (fun s => is_Some (stored_distance lat0 lon0 (h !!! s))) ws) as Hf.
  { apply filter_ext_in. intros s Hs.
    by rewrite (lookup_total_weaken h h1) by eauto. }
  rewrite Hf in Hall2.
  pose proof (Forall2_common_left _ _ _ _ _ Hall1 Hall2) as Hall.
  assert (Forall2 (fun o1 o2 => o2 ∈ out2 ∧ ∃ a : loc,
            a ∈ filter (fun s => is_Some (stored_distance lat0 lon0 (h !!! s))) ws
            ∧ (∃ dist, station_distance lat0 lon0 (h !!! a) = Ok (Some dist)
                 ∧ h1 !! o1 = Some (<["distance_to_taipei" := distance_info dist lat0 lon0]>
                                      (h !!! a)))
            ∧ (∃ dist, station_distance lat0 lon0 (h1 !!! a) = Ok (Some dist)
                 ∧ h2 !! o2 = Some (<["distance_to_taipei" := distance_info dist lat0 lon0]>
                                      (h1 !!! a)))) out1 out2) as Hall'.
  { clear -Hall. induction Hall as [|o1 o2 l1 l2 Ho Hl IH]; constructor.
    - split; [set_solver|done].
    - eapply Forall2_impl; [done|]. cbn. intros ?? [??]. split; [set_solver|done]. }
  eapply Forall2_impl; [exact Hall'|]. cbn.
  intros o1 o2 (Hin2 & s & [_ Hs]%list_elem_of_filter & (d1 & Hd1 & Ho1) & (d2 & Hd2 & Ho2)).
  rewrite (lookup_total_weaken h h1) in Hd2, Ho2 by eauto.
  assert (d2 = d1) as -> by congruence.
  rewrite Forall_forall in Hnew2.
  split; [|split].
  - intros ->. apply (Hnew2 _ Hin2). apply elem_of_dom. by eexists.
  - by rewrite Ho1, Ho2.
  - rewrite Ho1. by eapply lookup_weaken.
Qed.

End distance_accounts.

Section distance_accounts_examples.
Import DistanceCalculator Outcome.

Lemma store_stations : Forall (fun s => s ∈ dom Fixtures.store) [1; 2; 3]%positive.
Proof. repeat constructor; apply elem_of_dom; eexists; reflexivity. Qed.

Lemma store_stations_in_range :
  Forall (fun s => ∃ d, Fixtures.store !! s = Some d
                        ∧ coordinates_in_range (H := Decimal.decimal_float) d)
    [1; 2; 3]%positive.
Proof.
  eapply Forall_impl; [exact store_in_range|].
  cbn. intros s (d & Hd & _ & Hr). eauto.
Qed.

Lemma calculate_distances_messages_witness :
  ∃ h' out,
    calculate_distances_to_taipei_station (H := Decimal.decimal_float)
      Fixtures.store [1; 2; 3]%positive taipei_lat_default taipei_lon_default
    = (h',
       omap (fun s => report (H := Decimal.decimal_float)
                        taipei_lat_default taipei_lon_default (Fixtures.store !!! s))
         [1; 2; 3]%positive,
       Ok out)
    ∧ (length out
       + length (omap (fun s => report (H := Decimal.decimal_float)
                                  taipei_lat_default taipei_lon_default
                                  (Fixtures.store !!! s)) [1; 2; 3]%positive)
       + length (filter (fun s => Is_true (passed_over (H := Decimal.decimal_float)
                                             taipei_lat_default taipei_lon_default
                                             (Fixtures.store !!! s)))
                   [1; 2; 3]%positive)
       = 3)%nat.
Proof.
  apply (calculate_distances_messages (H := Decimal.decimal_float)
           Fixtures.store [1; 2; 3]%positive).
  - exact store_stations_in_range.
  - exact (proj1 taipei_in_range).
  - exact (proj2 taipei_in_range).
Defined.

Lemma calculate_distances_repeatable_witness :
  ∃ h2 out2,
    calculate_distances_to_taipei_station (H := Decimal.decimal_float)
      (<[4%positive :=
           <["distance_to_taipei" :=
               distance_info
                 (haversine_formula Fixtures.lat_a Fixtures.lon_a
                    taipei_lat_default taipei_lon_default)
                 taipei_lat_default taipei_lon_default]>
             (Fixtures.store !!! 1%positive)]> Fixtures.store)
      [1; 2; 3]%positive taipei_lat_default taipei_lon_default
    = (h2, [Skipped (PStr "C") ValueError], Ok out2)
    ∧ Forall2 (fun o1 o2 =>
                 o1 ≠ o2
                 ∧ h2 !! o2
                   = (<[4%positive :=
                          <["distance_to_taipei" :=
                              distance_info
                                (haversine_formula Fixtures.lat_a Fixtures.lon_a
                                   taipei_lat_default taipei_lon_default)
                                taipei_lat_default taipei_lon_default]>
                            (Fixtures.store !!! 1%positive)]> Fixtures.store) !! o1
                 ∧ h2 !! o1
                   = (<[4%positive :=
                          <["distance_to_taipei" :=
                              distance_info
                                (haversine_formula Fixtures.lat_a Fixtures.lon_a
                                   taipei_lat_default taipei_lon_default)
                                taipei_lat_default taipei_lon_default]>
                            (Fixtures.store !!! 1%positive)]> Fixtures.store) !! o1)
        [4%positive] out2.
Proof.
  apply (calculate_distances_repeatable (H := Decimal.decimal_float)
           Fixtures.store [1; 2; 3]%positive taipei_lat_default taipei_lon_default
           _ _ _ store_stations store_run).
Defined.

End distance_accounts_examples.

(** ** More on the distance summary *)

Section distance_summary_more.
Import DistanceCalculator.

(** The statistics of the run: each of the minimum, the maximum and the
    median is one of the distances. *)
Lemma distance_summary_stats rs ds :
  rs ≠ [] →
  map_result kilometers rs = Ok ds →
  ∃ lo hi median rest r,
    print_distance_summary rs
    = (header (length rs)
       ++ [L_stats_title; L_min lo; L_max hi;
           L_mean (sum_list ds / INR (length ds))%R; L_median median]
       ++ rest, r)
    ∧ lo ∈ ds ∧ hi ∈ ds ∧ median ∈ ds
    ∧ ∀ d, d ∈ ds → (lo <= d <= hi)%R.
Proof.
  intros Hne Hds.
  destruct (print_distance_summary_run rs ds Hne Hds)
    as (lo & hi & median & Hlo & Hhi & Hmed & Hrun).
  assert (∃ rest r, print_distance_summary rs
    = (header (length rs)
       ++ [L_stats_title; L_min lo; L_max hi;
           L_mean (sum_list ds / INR (length ds))%R; L_median median]
       ++ rest, r)) as (rest & r & Hprint).
  { rewrite Hrun. cbn [mbind io_bind].
    destruct (print_stations 1 (take 10 _)) as [t1 [[]|e1]];
      [unfold print; destruct (print_stations 1 (drop _ _)) as [t2 r2]|];
      eexists _, _; unfold header; cbn; reflexivity. }
  exists lo, hi, median, rest, r. split; [done|].
  destruct ds as [|d ds]; [done|].
  destruct (py_min_spec d ds) as (lo' & Hlo' & Hlo_in & Hlo_le).
  destruct (py_max_spec d ds) as (hi' & Hhi' & Hhi_in & Hhi_le).
  assert (lo' = lo) as -> by congruence.
  assert (hi' = hi) as -> by congruence.
  repeat split; try done; try (by apply Hlo_le); try (by apply Hhi_le).
  rewrite <- (py_sorted_perm id). by eapply list_elem_of_lookup_2.
Qed.

(** X9.  For stations whose distances are distances on the globe and
    whose lines can all be rendered the summary completes.  The nearest
    list has [min n 10] lines and the farthest list [min n 5]; both
    follow the ascending sort of the input by distance and both are
    numbered from 1, so the farthest station comes last in the farthest
    list, under the highest rank. *)
Theorem distance_summary_lists (rs : list pyval) (ds : list R) :
  rs ≠ [] →
  map_result kilometers rs = Ok ds →
  Forall distance_range ds →
  Forall printable rs →
  ∃ stations stats nearest farthest,
    stations ≡ₚ rs
    ∧ ascending distance_of stations
    ∧ print_distance_summary rs
      = (header (length rs) ++ stats ++ [L_nearest_title] ++ nearest
         ++ [L_farthest_title] ++ farthest, Ok tt)
    ∧ length stats = 5%nat
    ∧ length nearest = (length rs `min` 10)%nat
    ∧ length farthest = (length rs `min` 5)%nat
    ∧ (∀ i s, (i < 10)%nat → stations !! i = Some s →
         ∃ ln, nearest !! i = Some ln ∧ station_line (1 + i) s = Ok ln)
    ∧ (∀ i s, stations !! (length rs - 5 + i)%nat = Some s →
         ∃ ln, farthest !! i = Some ln ∧ station_line (1 + i) s = Ok ln).
Proof.
  intros Hne Hds _ Hpr.
  destruct (distance_summary_complete rs ds Hne Hds Hpr)
    as (stats & nearest & farthest & Hrun & Hstats & Hn & Hf & Hnear & Hfar).
  exists (py_sorted distance_of Rltb rs), stats, nearest, farthest.
  split; [apply py_sorted_perm|]. split; [apply py_sorted_ascending|].
  repeat (split; [done|]). split.
  - intros i s Hi Hs. apply Hnear. by rewrite lookup_take_lt.
  - intros i s Hs. apply Hfar. by rewrite lookup_drop.
Qed.

(** The four sample stations can be rendered. *)
Lemma four_stations_printable : Forall printable Fixtures.four_stations.
Proof. repeat constructor; eexists; reflexivity. Qed.

Lemma distance_summary_lists_witness :
  ∃ stations stats nearest farthest,
    stations ≡ₚ Fixtures.four_stations
    ∧ ascending distance_of stations
    ∧ print_distance_summary Fixtures.four_stations
      = (header 4 ++ stats ++ [L_nearest_title] ++ nearest
         ++ [L_farthest_title] ++ farthest, Ok tt)
    ∧ length stats = 5%nat
    ∧ length nearest = 4%nat
    ∧ length farthest = 4%nat
    ∧ (∀ i s, (i < 10)%nat → stations !! i = Some s →
         ∃ ln, nearest !! i = Some ln ∧ station_line (1 + i) s = Ok ln)
    ∧ (∀ i s, stations !! (4 - 5 + i)%nat = Some s →
         ∃ ln, farthest !! i = Some ln ∧ station_line (1 + i) s = Ok ln).
Proof.
  apply (distance_summary_lists Fixtures.four_stations [3; 1; 4; 2]%R).
  - discriminate.
  - reflexivity.
  - repeat constructor; unfold distance_range; lra.
  - exact four_stations_printable.
Defined.

(** X10.  With five stations or fewer, the nearest list and the
    farthest list are the same lines: every station sorted by distance,
    printed twice.  If a line cannot be rendered, the call raises within
    the nearest list and the farthest list is not printed. *)
Theorem few_stations_lists_coincide (rs : list pyval) (ds : list R) :
  rs ≠ [] →
  (length rs ≤ 5)%nat →
  map_result kilometers rs = Ok ds →
  ∃ stations stats listing r,
    sorted_by_distance rs = Ok stations
    ∧ print_stations 1 stations = (listing, r)
    ∧ length stats = 5%nat
    ∧ print_distance_summary rs
      = match r with
        | Ok _ =>
            (header (length rs) ++ stats ++ [L_nearest_title] ++ listing
             ++ [L_farthest_title] ++ listing, Ok tt)
        | Err e =>
            (header (length rs) ++ stats ++ [L_nearest_title] ++ listing, Err e)
        end.
Proof.
  intros Hne Hlen Hds.
  destruct (print_distance_summary_run rs ds Hne Hds)
    as (lo & hi & median & _ & _ & _ & Hrun).
  set (stations := py_sorted distance_of Rltb rs) in *.
  assert (length stations = length rs) as Hst by apply py_sorted_length.
  rewrite take_ge in Hrun by lia.
  replace (length rs - 5)%nat with 0%nat in Hrun by lia. rewrite drop_0 in Hrun.
  destruct (print_stations 1 stations) as [listing r] eqn:Hlist.
  eexists stations, [L_stats_title; L_min lo; L_max hi; L_mean _; L_median median],
    listing, r.
  split; [by eapply sorted_by_distance_Ok|]. split; [done|]. split; [done|].
  rewrite Hrun. cbn [mbind io_bind]. unfold print.
  destruct r as [[]|e]; unfold header; cbn; reflexivity.
Qed.

Lemma few_stations_lists_coincide_witness :
  ∃ stations stats listing r,
    sorted_by_distance Fixtures.four_stations = Ok stations
    ∧ print_stations 1 stations = (listing, r)
    ∧ length stats = 5%nat
    ∧ print_distance_summary Fixtures.four_stations
      = match r with
        | Ok _ =>
            (header 4 ++ stats ++ [L_nearest_title] ++ listing
             ++ [L_farthest_title] ++ listing, Ok tt)
        | Err e =>
            (header 4 ++ stats ++ [L_nearest_title] ++ listing, Err e)
        end.
Proof.
  apply (few_stations_lists_coincide Fixtures.four_stations [3; 1; 4; 2]%R).
  - discriminate.
  - cbn. lia.
  - reflexivity.
Defined.

(** The first record without annotation stops the reading of the
    distances. *)
Lemma map_result_kilometers_Err pre post (d : gmap string pyval) :
  Forall (fun r => ∃ k, kilometers r = Ok k) pre →
  d !! "distance_to_taipei" = None →
  map_result kilometers (pre ++ PDict d :: post) = Err KeyError.
Proof.
  intros Hpre Hd. induction Hpre as [|r pre [k Hk] Hpre IH]; cbn.
  - unfold kilometers. cbn. by rewrite Hd.
  - by rewrite Hk, IH.
Qed.

(** X11.  A record without [distance_to_taipei], as the normaliser
    yields before the distances are computed, makes
    [print_distance_summary] raise [KeyError] before it prints anything,
    wherever the record stands in the input. *)
Theorem summary_needs_annotation (pre post : list pyval) (d : gmap string pyval) :
  Forall (fun r => ∃ k, kilometers r = Ok k) pre →
  d !! "distance_to_taipei" = None →
  print_distance_summary (pre ++ PDict d :: post) = ([], Err KeyError).
Proof.
  intros Hpre Hd. unfold print_distance_summary, sorted_by_distance.
  rewrite (map_result_kilometers_Err _ _ _ Hpre Hd).
  assert (truthy (PList (pre ++ PDict d :: post)) = true) as ->; [|done].
  cbn. rewrite length_app. cbn. apply negb_true_iff, Nat.eqb_neq. lia.
Qed.

Lemma summary_needs_annotation_witness :
  print_distance_summary Fixtures.three_stations = ([], Err KeyError).
Proof.
  apply (summary_needs_annotation []
           [ PDict (Fixtures.weather_station "B" (PStr "24.99") (PStr "121.43")
                      (PStr "-99"));
             PDict (Fixtures.weather_station "C" (PStr "25.17") (PStr "121.44")
                      (PStr "18")) ]
           (Fixtures.weather_station "A" (PStr "25.03") (PStr "121.56") (PStr "25"))).
  - constructor.
  - reflexivity.
Defined.

End distance_summary_more.

(** A comprehension whose every step succeeds. *)
Lemma map_result_of_Forall2 {A B} (f : A → result B) l ys :
  Forall2 (fun x y => f x = Ok y) l ys → map_result f l = Ok ys.
Proof. induction 1 as [|x y l ys Hxy _ IH]; cbn; [done|]. by rewrite Hxy, IH. Qed.

Section pipeline.
Context `{PyFloat}.
Import DistanceCalculator.

(** A distance the loop computes is not negative. *)
Lemma station_distance_nonneg lat0 lon0 d dist :
  station_distance lat0 lon0 d = Ok (Some dist) → (0 <= dist)%R.
Proof.
  unfold station_distance. intros Hdist.
  repeat match type of Hdist with
  | context [mbind _ (haversine_distance ?a ?b ?c ?d)] =>
      rewrite (haversine_distance_Ok a b c d) in Hdist; cbn in Hdist
  | context [mbind _ ?m] =>
      let E := fresh "E" in destruct m eqn:E; cbn in Hdist; [|done]
  | context [if ?b then _ else _] => destruct b; [done|]
  end.
  injection Hdist as <-. apply haversine_formula_nonneg.
Qed.

(** X12.  For stations of the globe and a reference point of the
    globe, the records returned by
    [calculate_distances_to_taipei_station] can be summarised: when there
    is at least one, [print_distance_summary] prints the header with
    their count and the four statistics; the minimum is not negative and
    the median lies between the minimum and the maximum. *)
Theorem computed_records_summarised (h : heap) (ws : list loc) (lat0 lon0 : R)
    h' log out :
  Forall (fun s => ∃ d, h !! s = Some d ∧ coordinates_in_range d) ws →
  latitude_range lat0 →
  longitude_range lon0 →
  calculate_distances_to_taipei_station h ws lat0 lon0 = (h', log, Ok out) →
  out ≠ [] →
  ∃ lo hi mean median rest r,
    print_distance_summary ((fun o => PDict (h' !!! o)) <$> out)
    = (header (length out)
       ++ [L_stats_title; L_min lo; L_max hi; L_mean mean; L_median median]
       ++ rest, r)
    ∧ (0 <= lo)%R ∧ (lo <= median <= hi)%R.
Proof.
  intros Hrange _ _ Hrun Hne.
  assert (Forall (fun s => s ∈ dom h) ws) as Hws.
  { eapply Forall_impl; [done|]. cbn. intros s (d & Hd & _). by apply elem_of_dom. }
  unfold calculate_distances_to_taipei_station in Hrun.
  destruct (stations_loop_spec lat0 lon0 ws h [] [] Hws)
    as (h1 & log1 & out1 & Hloop & _ & _ & _ & Hall).
  rewrite Hrun in Hloop. cbn in Hloop. injection Hloop as <- <- <-.
  set (records := (fun o => PDict (h' !!! o)) <$> out).
  assert (∃ ds, map_result kilometers records = Ok ds ∧ Forall (fun d => 0 <= d)%R ds)
    as (ds & Hds & Hpos).
  { unfold records. clear -Hall. induction Hall as [|s o l k (dist & Hdist & Ho) _ IH].
    - exists []. by split.
    - destruct IH as (ds & Hds & Hpos). exists (py_round dist 2 :: ds). split.
      + rewrite fmap_cons. cbn [map_result].
        assert (h' !!! o
                = <["distance_to_taipei" := distance_info dist lat0 lon0]> (h !!! s))
          as -> by (by rewrite lookup_total_alt, Ho).
        rewrite kilometers_annotated. cbn [mbind result_bind].
        by rewrite Hds.
      + constructor; [|done]. by eapply py_round_nonneg, station_distance_nonneg. }
  assert (records ≠ []) as Hne' by (unfold records; by destruct out).
  destruct (distance_summary_stats records ds Hne' Hds)
    as (lo & hi & median & rest & r & Hprint & Hlo & _ & Hmed & Hbounds).
  exists lo, hi, (sum_list ds / INR (length ds))%R, median, rest, r.
  split; [by unfold records in *; rewrite length_fmap in Hprint|].
  rewrite Forall_forall in Hpos.
  split; [by apply Hpos|]. by apply Hbounds.
Qed.

End pipeline.

Section pipeline_examples.
Import DistanceCalculator.

Lemma computed_records_summarised_witness :
  ∃ lo hi mean median rest r,
    print_distance_summary
      ((fun o => PDict
          ((<[4%positive :=
                <["distance_to_taipei" :=
                    distance_info
                      (haversine_formula Fixtures.lat_a Fixtures.lon_a
                         taipei_lat_default taipei_lon_default)
                      taipei_lat_default taipei_lon_default]>
                  (Fixtures.store !!! 1%positive)]> Fixtures.store) !!! o))
         <$> [4%positive])
    = (header 1
       ++ [L_stats_title; L_min lo; L_max hi; L_mean mean; L_median median]
       ++ rest, r)
    ∧ (0 <= lo)%R ∧ (lo <= median <= hi)%R.
Proof.
  apply (computed_records_summarised (H := Decimal.decimal_float)
           Fixtures.store [1; 2; 3]%positive taipei_lat_default taipei_lon_default
           _ _ _ store_stations_in_range (proj1 taipei_in_range)
           (proj2 taipei_in_range) store_run).
  discriminate.
Defined.

End pipeline_examples.

(** ** More on the temperature summaries *)

Section ascending_ends.
Context {A : Type} (key : A → R).

(** The ends of an ascending list are its extremes. *)
Lemma ascending_first l a b :
  ascending key l → l !! 0%nat = Some a → b ∈ l → (key a <= key b)%R.
Proof.
  intros Hl Ha Hb. destruct l as [|a' l]; [done|]. injection Ha as ->.
  apply elem_of_cons in Hb as [->|Hb]; [lra|].
  eapply (ascending_take_drop key 1 (a :: l)); [done|cbn; set_solver|done].
Qed.

Lemma ascending_last l a b :
  ascending key l → l !! (length l - 1)%nat = Some b → a ∈ l → (key a <= key b)%R.
Proof.
  intros Hl Hb Ha.
  rewrite <- (take_drop (length l - 1) l) in Ha.
  assert (drop (length l - 1) l = [b]) as Hdrop.
  { apply list_eq. intros [|i].
    - by rewrite lookup_drop, Nat.add_0_r.
    - rewrite lookup_drop. cbn. apply lookup_ge_None_2. lia. }
  apply elem_of_app in Ha as [Ha|Ha].
  - eapply ascending_take_drop; [done..|]. rewrite Hdrop. set_solver.
  - rewrite Hdrop in Ha. apply list_elem_of_singleton in Ha as ->. lra.
Qed.

End ascending_ends.

Section summaries.
Context `{PyFloat}.
Import WeatherApi Outcome.

(** What the summaries read from a record of the data model. *)
Lemma reading_typed_temp d :
  reading_typed d →
  ∃ we, py_getitem d "weather_elements" = Ok (PDict we)
        ∧ DistanceCalculator.optional_string (we !! "temperature")
        ∧ temperature_of d = we !! "temperature".
Proof.
  intros (s & we & -> & Hwe & Hty). exists we. cbn. by rewrite Hwe.
Qed.

Lemma valid_temps_loop_typed data acc :
  Forall reading_typed data →
  valid_temps_loop data acc
  = Ok (acc ++ omap (fun d => (fun x => (x, d)) <$> reading_of d) data).
Proof.
  intros Hty. revert acc. induction Hty as [|d data Hd _ IH]; intros acc.
  - cbn. by rewrite app_nil_r.
  - destruct (reading_typed_temp d Hd) as (we & Hwe & Hopt & Htemp).
    cbn [valid_temps_loop omap list_omap]. rewrite Hwe. cbn [mbind result_bind py_get].
    unfold reading_of at 1, has_reading. rewrite Htemp.
    destruct (we !! "temperature") as [[| | |t| |]|]; cbn in Hopt |- *; try done;
      try (by rewrite IH).
    destruct (negb (t =? "") && negb (t =? "-99"))%string; [|by rewrite IH].
    destruct (float_of_str t) as [x|]; cbn; rewrite IH; [|done].
    by rewrite <- app_assoc.
Qed.

(** X13.  On records whose temperature is a string or [None],
    [print_temperature_summary] collects its readings without raising:
    they are, in input order, the stations whose temperature is a
    non-empty string other than the sentinel that [float] accepts; a
    string [float] rejects is skipped. *)
Theorem valid_temps_collects_readings (data : list pyval) :
  Forall reading_typed data →
  valid_temps_loop data []
  = Ok (omap (fun d => (fun x => (x, d)) <$> reading_of d) data).
Proof. intros Hty. by rewrite valid_temps_loop_typed. Qed.

(** The extremes printed bound every collected reading. *)
Lemma temperature_summary_bounds data t r vts :
  print_temperature_summary data = (t, r) →
  valid_temps_loop data [] = Ok vts →
  (∀ x name county town, L_max x name county town ∈ t →
     ∀ p, p ∈ vts → (p.1 <= x)%R)
  ∧ (∀ x name county town, L_min x name county town ∈ t →
       ∀ p, p ∈ vts → (x <= p.1)%R).
Proof.
  unfold print_temperature_summary. intros Hrun Hvts. revert Hrun.
  destruct (truthy (PList data)); cbn [negb].
  2:{ intros [= <- _]. split; intros; set_solver. }
  unfold print, lift. cbn [mbind io_bind]. rewrite Hvts.
  destruct (print_stations 1 (take 15 data)) as [t3 r3] eqn:Hst.
  pose proof (print_stations_lines _ _ _ _ Hst) as Hlines.
  assert (∀ ln, ln ∈ t3 →
    match ln with L_station _ _ _ _ _ _ _ => True | _ => False end) as Hlines'
    by (by apply Forall_forall).
  destruct (negb (length vts =? 0)%nat).
  2:{ intros [= <- _]. split; intros ???? Hin; set_solver. }
  cbn [mbind io_bind].
  pose proof (py_sorted_ascending (@fst R pyval) vts) as Hasc.
  pose proof (py_sorted_perm (@fst R pyval) vts) as Hperm.
  destruct (py_index _ (length _ - 1)) as [[xh dh]|] eqn:Hhi.
  2:{ intros [= <- _]. split; intros ???? Hin; set_solver. }
  assert (∀ p, p ∈ vts → (p.1 <= xh)%R) as Hmax.
  { intros p Hp. unfold py_index in Hhi.
    destruct (_ !! _) as [q|] eqn:Hq; [|done]. injection Hhi as ->.
    apply (ascending_last fst _ p (xh, dh) Hasc Hq). by rewrite Hperm. }
  cbn. destruct (station_place dh) as [[[nh ch] th]|] eqn:Hph; cbn.
  2:{ intros [= <- _]. split; intros ???? Hin; set_solver. }
  destruct (py_index _ 0) as [[xl dl]|] eqn:Hlo.
  2:{ intros [= <- _]. split; intros x ??? Hin; [|set_solver].
      assert (x = xh) as -> by set_solver. done. }
  assert (∀ p, p ∈ vts → (xl <= p.1)%R) as Hmin.
  { intros p Hp. unfold py_index in Hlo.
    destruct (_ !! _) as [q|] eqn:Hq; [|done]. injection Hlo as ->.
    apply (ascending_first fst _ (xl, dl) p Hasc Hq). by rewrite Hperm. }
  cbn. destruct (station_place dl) as [[[nl cl] tl]|] eqn:Hpl; cbn.
  2:{ intros [= <- _]. split; intros x ??? Hin; [|set_solver].
      assert (x = xh) as -> by set_solver. done. }
  intros [= <- _]. split; intros x ??? Hin.
  - assert (x = xh) as -> by set_solver. done.
  - assert (x = xl) as -> by set_solver. done.
Qed.

(** X14.  On records whose temperature is a string or [None], when the
    collected readings are numbers between two bounds, the highest
    temperature printed by [print_temperature_summary] is not below any
    collected reading, and the lowest is not above any. *)
Theorem temperature_extremes_bound (data : list pyval) t r vts (a b : R)
    hi name_hi county_hi town_hi lo name_lo county_lo town_lo :
  Forall reading_typed data →
  print_temperature_summary data = (t, r) →
  valid_temps_loop data [] = Ok vts →
  Forall (fun p => (a <= p.1 <= b)%R) vts →
  (L_max hi name_hi county_hi town_hi ∈ t → ∀ p, p ∈ vts → (p.1 <= hi)%R)
  ∧ (L_min lo name_lo county_lo town_lo ∈ t → ∀ p, p ∈ vts → (lo <= p.1)%R).
Proof.
  intros _ Hrun Hvts _.
  destruct (temperature_summary_bounds _ _ _ _ Hrun Hvts) as [Hmax Hmin].
  split; [apply Hmax|apply Hmin].
Qed.

(** The readings collected by [print_temperature_summary] are the
    temperatures [main] averages, in the same order. *)
Lemma readings_agree data acc vts valid temps :
  valid_temps_loop data acc = Ok vts →
  Main.valid_stations data = Ok valid →
  map_result Main.station_temperature valid = Ok temps →
  vts.*1 = acc.*1 ++ temps.
Proof.
  revert acc valid temps. induction data as [|d data IH]; intros acc valid temps.
  - cbn. intros [= <-] [= <-] [= <-]. by rewrite app_nil_r.
  - cbn [valid_temps_loop Main.valid_stations]. unfold Main.valid_station.
    destruct (py_getitem d "weather_elements") as [we|] eqn:Hwe;
      cbn [mbind result_bind]; [|done].
    destruct we as [| | | | |m]; cbn [py_get mbind result_bind]; try done.
    destruct (m !! "temperature") as [temp|] eqn:Htemp;
      [change (default PNone (Some temp)) with temp
      |change (default PNone (@None pyval)) with PNone].
    2:{ cbn. destruct (Main.valid_stations data) as [kept|]; cbn; [|by intros _ [=]].
        intros Hvts [= <-]. by eapply IH. }
    destruct (truthy temp); cbn [andb].
    2:{ cbn. destruct (Main.valid_stations data) as [kept|]; cbn; [|by intros _ [=]].
        intros Hvts [= <-]. by eapply IH. }
    cbn [mbind result_bind py_getitem]. rewrite Htemp.
    cbn [mbind result_bind].
    destruct (py_eq_str temp "-99"); cbn [negb].
    { destruct (Main.valid_stations data) as [kept|]; cbn; [|by intros _ [=]].
      intros Hvts [= <-]. by eapply IH. }
    destruct (Main.valid_stations data) as [kept|]; cbn [mbind result_bind];
      [|by destruct (py_float temp) as [?|[]]; intros _ [=]].
    intros Hvts [= <-]. cbn [map_result].
    assert (Main.station_temperature d = py_float temp) as ->.
    { unfold Main.station_temperature. rewrite Hwe. cbn. by rewrite Htemp. }
    destruct (py_float temp) as [x|]; cbn [mbind result_bind]; [|done].
    destruct (map_result Main.station_temperature kept) as [temps'|] eqn:Hk;
      cbn [mbind result_bind]; [|done].
    intros [= <-]. rewrite (IH _ _ _ Hvts eq_refl Hk).
    rewrite fmap_app, <- app_assoc. done.
Qed.

(** The extremes printed by step 4 of [main], with the lists they are
    taken from. *)
Lemma main_summary_extremes data t r y :
  Main.main_summary data = (t, r) →
  Main.L_max y ∈ t ∨ Main.L_min y ∈ t →
  ∃ valid temps,
    Main.valid_stations data = Ok valid
    ∧ map_result Main.station_temperature valid = Ok temps
    ∧ (Main.L_max y ∈ t → y ∈ temps ∧ ∀ z, z ∈ temps → (z <= y)%R)
    ∧ (Main.L_min y ∈ t → y ∈ temps ∧ ∀ z, z ∈ temps → (y <= z)%R).
Proof.
  unfold Main.main_summary, print, lift. cbn [mbind io_bind].
  destruct (Main.valid_stations data) as [valid|] eqn:Hvalid.
  2:{ intros [= <- _] Hin. set_solver. }
  destruct (truthy (PList valid)); cbn [mbind io_bind].
  2:{ intros [= <- _] Hin. set_solver. }
  destruct (map_result Main.station_temperature valid) as [temps|] eqn:Htemps.
  2:{ intros [= <- _] Hin. set_solver. }
  intros Hrun Hin. exists valid, temps. split; [done|]. split; [done|].
  revert Hrun. cbn.
  destruct (py_truediv _ _) as [mean|] eqn:Hmean.
  2:{ intros [= <- _]. set_solver. }
  destruct temps as [|z temps].
  { cbn. intros [= <- _]. set_solver. }
  destruct (py_max_spec z temps) as (hi & -> & Hhi).
  destruct (py_min_spec z temps) as (lo & -> & Hlo).
  cbn. intros [= <- _]. split.
  - intros Hy. assert (y = hi) as -> by set_solver. done.
  - intros Hy. assert (y = lo) as -> by set_solver. done.
Qed.

(** X15.  The two temperature summaries take their extremes from the
    same numbers.  On records whose temperature is a string or [None],
    when the collected readings are numbers between two bounds, the
    number [print_temperature_summary] prints as the highest temperature
    is the number step 4 of [main] renders as the highest, and likewise
    for the lowest, whenever both print one.  How each of them renders
    the number, in full or to one decimal, is not modelled. *)
Theorem summaries_agree_on_extremes (data : list pyval) t1 r1 t2 r2 collected
    (a b : R) hi name_hi county_hi town_hi hi' lo name_lo county_lo town_lo lo' :
  Forall reading_typed data →
  print_temperature_summary data = (t1, r1) →
  Main.main_summary data = (t2, r2) →
  valid_temps_loop data [] = Ok collected →
  Forall (fun p => (a <= p.1 <= b)%R) collected →
  (L_max hi name_hi county_hi town_hi ∈ t1 → Main.L_max hi' ∈ t2 → hi = hi')
  ∧ (L_min lo name_lo county_lo town_lo ∈ t1 → Main.L_min lo' ∈ t2 → lo = lo').
Proof.
  intros _ Hrun1 Hrun2 _ _.
  assert (∀ x vts valid temps d,
    valid_temps_loop data [] = Ok vts → (x, d) ∈ vts →
    Main.valid_stations data = Ok valid →
    map_result Main.station_temperature valid = Ok temps →
    x ∈ temps ∧ ∀ z, z ∈ temps → ∃ p, p ∈ vts ∧ p.1 = z) as Hagree.
  { intros x vts valid temps d Hvts Hd Hvalid Htemps.
    pose proof (readings_agree _ _ _ _ _ Hvts Hvalid Htemps) as Heq. cbn in Heq.
    rewrite <- Heq. split.
    - apply list_elem_of_fmap. by exists (x, d).
    - intros z (p & -> & Hp)%list_elem_of_fmap. by exists p. }
  split; intros Hx Hy.
  - destruct (temperature_summary_extremes _ _ _ _ _ _ _ Hrun1 (or_introl Hx))
      as (vts & d & Hvts & Hd & _).
    destruct (main_summary_extremes _ _ _ _ Hrun2 (or_introl Hy))
      as (valid & temps & Hvalid & Htemps & Hmax & _).
    destruct (Hmax Hy) as [Hyin Hyle].
    destruct (Hagree _ _ _ _ _ Hvts Hd Hvalid Htemps) as [Hxin Hall].
    destruct (temperature_summary_bounds _ _ _ _ Hrun1 Hvts) as [Hb _].
    destruct (Hall hi' Hyin) as (p & Hp & <-).
    pose proof (Hb _ _ _ _ Hx p Hp). pose proof (Hyle hi Hxin). lra.
  - destruct (temperature_summary_extremes _ _ _ _ _ _ _ Hrun1 (or_intror Hx))
      as (vts & d & Hvts & Hd & _).
    destruct (main_summary_extremes _ _ _ _ Hrun2 (or_intror Hy))
      as (valid & temps & Hvalid & Htemps & _ & Hmin).
    destruct (Hmin Hy) as [Hyin Hyle].
    destruct (Hagree _ _ _ _ _ Hvts Hd Hvalid Htemps) as [Hxin Hall].
    destruct (temperature_summary_bounds _ _ _ _ Hrun1 Hvts) as [_ Hb].
    destruct (Hall lo' Hyin) as (p & Hp & <-).
    pose proof (Hb _ _ _ _ Hx p Hp). pose proof (Hyle lo Hxin). lra.
Qed.

(** On the data model the comprehension of [main] is the filter. *)
Lemma valid_station_typed d :
  reading_typed d → Main.valid_station d = Ok (has_reading d).
Proof.
  intros (s & we & -> & Hwe & Hty).
  unfold Main.valid_station, has_reading. cbn. rewrite Hwe. cbn.
  destruct (we !! "temperature") as [temp|]; cbn; [|done].
  by destruct (truthy temp).
Qed.

Lemma valid_stations_typed data :
  Forall reading_typed data →
  Main.valid_stations data = Ok (filter (fun d => Is_true (has_reading d)) data).
Proof.
  induction 1 as [|d data Hd _ IH]; [done|].
  cbn [Main.valid_stations]. rewrite (valid_station_typed d Hd), IH, filter_cons.
  cbn. by destruct (has_reading d).
Qed.

Lemma station_temperature_typed d :
  reading_typed d → has_reading d = true →
  ∃ s, temperature_of d = Some (PStr s)
       ∧ Main.station_temperature d
         = match float_of_str s with Some x => Ok x | None => Err ValueError end.
Proof.
  intros (m & we & -> & Hwe & Hty).
  unfold has_reading, Main.station_temperature. cbn. rewrite Hwe. cbn.
  destruct (we !! "temperature") as [[| | |s| |]|]; cbn in Hty |- *; try done.
  intros _. by exists s.
Qed.

(** A comprehension whose steps can only fail with one exception fails
    with it as soon as one step fails. *)
Lemma map_result_Err_uniform {A B} (f : A → result B) l e :
  (∀ x, x ∈ l → (∃ y, f x = Ok y) ∨ f x = Err e) →
  (∃ x, x ∈ l ∧ f x = Err e) →
  map_result f l = Err e.
Proof.
  induction l as [|a l IH]; intros Hall (x & Hx & Hfx); [by inversion Hx|].
  cbn. destruct (Hall a) as [[y Hy]| ->]; [set_solver| |done].
  rewrite Hy. cbn. rewrite IH; [done|intros; apply Hall; set_solver|].
  apply elem_of_cons in Hx as [->|Hx]; [congruence|eauto].
Qed.

(** X16.  Step 4 of [main] converts the temperatures outside any
    [try]: one station whose temperature is a string that passes the
    filter and that [float] rejects makes it raise [ValueError] after the
    two title lines, and no aggregate is printed.  On the same data
    [print_temperature_summary] collects its readings without raising
    and leaves that station out. *)
Theorem main_summary_raises_on_unreadable (data : list pyval) d s :
  Forall reading_typed data →
  d ∈ data →
  has_reading d = true →
  temperature_of d = Some (PStr s) →
  float_of_str s = None →
  Main.main_summary data = ([Main.L_step_title; Main.L_rule], Err ValueError)
  ∧ ∃ vts, valid_temps_loop data [] = Ok vts ∧ Forall (fun p => p.2 ≠ d) vts.
Proof.
  intros Hty Hd Hread Htemp Hfloat. split.
  - unfold Main.main_summary, print, lift. cbn [mbind io_bind].
    rewrite (valid_stations_typed _ Hty).
    set (valid := filter _ data).
    assert (d ∈ valid) as Hdv by (apply list_elem_of_filter; by rewrite Hread).
    assert (truthy (PList valid) = true) as ->.
    { destruct valid; [by inversion Hdv|done]. }
    cbn [mbind io_bind].
    rewrite (map_result_Err_uniform _ valid ValueError); [done| |].
    + intros x [Hx Hin]%list_elem_of_filter.
      rewrite Forall_forall in Hty.
      destruct (station_temperature_typed x (Hty _ Hin)) as (s' & _ & ->).
      { by destruct (has_reading x). }
      destruct (float_of_str s'); eauto.
    + exists d. split; [done|].
      rewrite Forall_forall in Hty.
      destruct (station_temperature_typed d (Hty _ Hd) Hread) as (s' & Hs' & ->).
      assert (s' = s) as -> by congruence. by rewrite Hfloat.
  - eexists. split; [by apply valid_temps_loop_typed|]. cbn.
    apply Forall_forall. intros [x d'] (d'' & Hd'' & Hin)%list_elem_of_omap. cbn.
    intros ->.
    destruct (reading_of d'') as [x'|] eqn:Hx; simplify_eq/=.
    unfold reading_of in Hx. by rewrite Htemp, Hread, Hfloat in Hx.
Qed.

(** X17.  When no station holds a reading, step 4 of [main] prints its
    two title lines and nothing else, without dividing by zero, and
    [print_temperature_summary] prints neither a highest nor a lowest
    temperature. *)
Theorem no_reading_no_aggregate (data : list pyval) :
  Forall reading_typed data →
  (∀ d, d ∈ data → has_reading d = false) →
  Main.main_summary data = ([Main.L_step_title; Main.L_rule], Ok tt)
  ∧ valid_temps_loop data [] = Ok []
  ∧ (∀ t r x name county town,
       print_temperature_summary data = (t, r) →
       L_max x name county town ∉ t ∧ L_min x name county town ∉ t).
Proof.
  intros Hty Hnone.
  assert (valid_temps_loop data [] = Ok []) as Hvts.
  { rewrite valid_temps_loop_typed by done. cbn. f_equal.
    clear Hty. induction data as [|d data IH]; [done|]. cbn.
    unfold reading_of at 1. rewrite (Hnone d) by set_solver.
    rewrite IH by (intros; apply Hnone; set_solver).
    by destruct (temperature_of d) as [[]|]. }
  split; [|split; [done|]].
  - unfold Main.main_summary, print, lift. cbn [mbind io_bind].
    rewrite (valid_stations_typed _ Hty).
    assert (filter (fun d => Is_true (has_reading d)) data = []) as ->; [|done].
    clear Hty Hvts. induction data as [|d data IH]; [done|].
    rewrite filter_cons, (Hnone d) by set_solver. cbn.
    apply IH. intros; apply Hnone; set_solver.
  - intros t r x name county town Hrun.
    split; intros Hin.
    + destruct (temperature_summary_extremes _ _ _ _ _ _ _ Hrun (or_introl Hin))
        as (vts & d & Hvts' & Hd & _).
      rewrite Hvts in Hvts'. injection Hvts' as <-. by inversion Hd.
    + destruct (temperature_summary_extremes _ _ _ _ _ _ _ Hrun (or_intror Hin))
        as (vts & d & Hvts' & Hd & _).
      rewrite Hvts in Hvts'. injection Hvts' as <-. by inversion Hd.
Qed.

(** A line with a [None] element cannot be rendered; the listing stops
    at the first line that cannot. *)
Lemma station_line_needs_strings k (rec we : gmap string pyval) :
  rec !! "weather_elements" = Some (PDict we) →
  we !! "temperature" = Some PNone ∨ we !! "humidity" = Some PNone
  ∨ we !! "weather" = Some PNone →
  ∃ e, station_line k (PDict rec) = Err e.
Proof.
  intros Hwe Hnone. unfold station_line. cbn. rewrite Hwe. cbn.
  repeat match goal with
  | |- context [mbind _ (py_getitem ?v ?key)] =>
      destruct (py_getitem v key); cbn [mbind result_bind]; [|by eauto]
  | |- context [mbind _ (match ?o with Some _ => _ | None => _ end)] =>
      destruct o; cbn [mbind result_bind]; [|by eauto]
  end.
  assert (∀ (v : pyval) (f : string → result line),
            (∀ x, ∃ e, f x = Err e) → ∃ e, format_s v ≫= f = Err e) as Hbind.
  { intros v f Hf. destruct (format_s v); cbn; [apply Hf|by eauto]. }
  apply Hbind. intros name.
  destruct Hnone as [Ht|[Hh|Hw]].
  - rewrite Ht. cbn. by eauto.
  - apply Hbind. intros temp. rewrite Hh. cbn. by eauto.
  - apply Hbind. intros temp. apply Hbind. intros humidity. rewrite Hw. cbn. by eauto.
Qed.

Lemma print_stations_Err k l s :
  s ∈ l → (∀ k', ∃ e, station_line k' s = Err e) →
  ∃ t e, print_stations k l = (t, Err e).
Proof.
  intros Hs Hfail. revert k. induction l as [|a l IH]; intros k; [by inversion Hs|].
  cbn. destruct (station_line k a) as [ln|e] eqn:Hln; cbn; [|by eauto].
  apply elem_of_cons in Hs as [->|Hs].
  { destruct (Hfail k) as [e He]. congruence. }
  destruct (IH Hs (S k)) as (t & e & ->). eauto.
Qed.

(** X18.  [print_temperature_summary] cannot complete when one of the
    first 15 records has [None] for its temperature, its humidity or its
    weather, which is what the normaliser stores for an element the raw
    station lacks: the call ends in an exception. *)
Theorem temperature_summary_needs_every_element (data : list pyval)
    (rec we : gmap string pyval) :
  PDict rec ∈ take 15 data →
  rec !! "weather_elements" = Some (PDict we) →
  we !! "temperature" = Some PNone ∨ we !! "humidity" = Some PNone
  ∨ we !! "weather" = Some PNone →
  ∃ t e, print_temperature_summary data = (t, Err e).
Proof.
  intros Hin Hwe Hnone.
  destruct (print_stations_Err 1 _ _ Hin) as (t3 & e3 & Hst).
  { intros k. by eapply station_line_needs_strings. }
  unfold print_temperature_summary.
  assert (truthy (PList data) = true) as ->.
  { destruct data; [by inversion Hin|done]. }
  cbn [negb]. unfold print, lift. cbn [mbind io_bind].
  destruct (valid_temps_loop data []) as [vts|]; [|by eauto].
  rewrite Hst.
  destruct (negb _); cbn [mbind io_bind]; [|by eauto].
  destruct (py_index _ _) as [hi|]; cbn; [|by eauto].
  destruct (station_place _) as [[[??]?]|]; cbn; [|by eauto].
  destruct (py_index _ _) as [lo|]; cbn; [|by eauto].
  destruct (station_place _) as [[[??]?]|]; cbn; by eauto.
Qed.

End summaries.

Section summaries_examples.
Import WeatherApi Outcome.

(** The sample stations belong to the data model. *)
Lemma station_reading_typed name lat lon temp :
  DistanceCalculator.optional_string (Some temp) →
  reading_typed (PDict (Fixtures.weather_station name lat lon temp)).
Proof. intros Htemp. eexists _, _. split; [done|]. split; [reflexivity|]. exact Htemp. Qed.

Lemma three_stations_typed : Forall reading_typed Fixtures.three_stations.
Proof. repeat constructor; by apply station_reading_typed. Qed.

Lemma valid_temps_collects_readings_witness :
  valid_temps_loop (H := Decimal.decimal_float) Fixtures.three_stations []
  = Ok (omap (fun d => (fun x => (x, d)) <$> reading_of (H := Decimal.decimal_float) d)
          Fixtures.three_stations).
Proof.
  apply (valid_temps_collects_readings (H := Decimal.decimal_float)
           Fixtures.three_stations).
  exact three_stations_typed.
Defined.

Lemma temperature_extremes_bound_witness :
  (L_max 25 (PStr "A") (PStr "Taipei") (PStr "Daan")
   ∈ [L_title; L_total 3; L_time; L_rule;
      L_max 25 (PStr "A") (PStr "Taipei") (PStr "Daan");
      L_min 18 (PStr "C") (PStr "Taipei") (PStr "Daan");
      L_list_title;
      L_station 1 "A" (PStr "Taipei") (PStr "Daan") "25" "70" "clear";
      L_station 2 "B" (PStr "Taipei") (PStr "Daan") "-99" "70" "clear";
      L_station 3 "C" (PStr "Taipei") (PStr "Daan") "18" "70" "clear"] →
   ∀ p, p ∈ [(25%R, Fixtures.station_a); (18%R, Fixtures.station_c)] → (p.1 <= 25)%R)
  ∧ (L_min 18 (PStr "C") (PStr "Taipei") (PStr "Daan")
     ∈ [L_title; L_total 3; L_time; L_rule;
        L_max 25 (PStr "A") (PStr "Taipei") (PStr "Daan");
        L_min 18 (PStr "C") (PStr "Taipei") (PStr "Daan");
        L_list_title;
        L_station 1 "A" (PStr "Taipei") (PStr "Daan") "25" "70" "clear";
        L_station 2 "B" (PStr "Taipei") (PStr "Daan") "-99" "70" "clear";
        L_station 3 "C" (PStr "Taipei") (PStr "Daan") "18" "70" "clear"] →
     ∀ p, p ∈ [(25%R, Fixtures.station_a); (18%R, Fixtures.station_c)] → (18 <= p.1)%R).
Proof.
  apply (temperature_extremes_bound (H := Decimal.decimal_float)
           Fixtures.three_stations _ _ _ (-90)%R 60%R
           25%R (PStr "A") (PStr "Taipei") (PStr "Daan")
           18%R (PStr "C") (PStr "Taipei") (PStr "Daan")
           three_stations_typed three_summary three_valid_temps).
  repeat constructor; cbn; lra.
Defined.

Lemma summaries_agree_on_extremes_witness :
  (L_max 25 (PStr "A") (PStr "Taipei") (PStr "Daan")
   ∈ [L_title; L_total 3; L_time; L_rule;
      L_max 25 (PStr "A") (PStr "Taipei") (PStr "Daan");
      L_min 18 (PStr "C") (PStr "Taipei") (PStr "Daan");
      L_list_title;
      L_station 1 "A" (PStr "Taipei") (PStr "Daan") "25" "70" "clear";
      L_station 2 "B" (PStr "Taipei") (PStr "Daan") "-99" "70" "clear";
      L_station 3 "C" (PStr "Taipei") (PStr "Daan") "18" "70" "clear"] →
   Main.L_max 25
   ∈ [Main.L_step_title; Main.L_rule; Main.L_count 2;
      Main.L_mean (43 / 2); Main.L_max 25; Main.L_min 18] →
   25%R = 25%R)
  ∧ (L_min 18 (PStr "C") (PStr "Taipei") (PStr "Daan")
     ∈ [L_title; L_total 3; L_time; L_rule;
        L_max 25 (PStr "A") (PStr "Taipei") (PStr "Daan");
        L_min 18 (PStr "C") (PStr "Taipei") (PStr "Daan");
        L_list_title;
        L_station 1 "A" (PStr "Taipei") (PStr "Daan") "25" "70" "clear";
        L_station 2 "B" (PStr "Taipei") (PStr "Daan") "-99" "70" "clear";
        L_station 3 "C" (PStr "Taipei") (PStr "Daan") "18" "70" "clear"] →
     Main.L_min 18
     ∈ [Main.L_step_title; Main.L_rule; Main.L_count 2;
        Main.L_mean (43 / 2); Main.L_max 25; Main.L_min 18] →
     18%R = 18%R).
Proof.
  apply (summaries_agree_on_extremes (H := Decimal.decimal_float)
           Fixtures.three_stations _ _ _ _ _ (-90)%R 60%R
           25%R (PStr "A") (PStr "Taipei") (PStr "Daan") 25%R
           18%R (PStr "C") (PStr "Taipei") (PStr "Daan") 18%R
           three_stations_typed three_summary three_main_summary
           three_valid_temps).
  repeat constructor; cbn; lra.
Defined.

Lemma main_summary_raises_on_unreadable_witness :
  Main.main_summary (H := Decimal.decimal_float)
    [Fixtures.station_a; Samples.unreadable_station]
  = ([Main.L_step_title; Main.L_rule], Err ValueError)
  ∧ ∃ vts,
      valid_temps_loop (H := Decimal.decimal_float)
        [Fixtures.station_a; Samples.unreadable_station] [] = Ok vts
      ∧ Forall (fun p => p.2 ≠ Samples.unreadable_station) vts.
Proof.
  apply (main_summary_raises_on_unreadable (H := Decimal.decimal_float)
           [Fixtures.station_a; Samples.unreadable_station]
           Samples.unreadable_station "N/A").
  - repeat constructor; by apply station_reading_typed.
  - apply list_elem_of_further, list_elem_of_here.
  - reflexivity.
  - reflexivity.
  - reflexivity.
Defined.

Lemma no_reading_no_aggregate_witness :
  Main.main_summary (H := Decimal.decimal_float) [Samples.sentinel_station]
  = ([Main.L_step_title; Main.L_rule], Ok tt)
  ∧ valid_temps_loop (H := Decimal.decimal_float) [Samples.sentinel_station] [] = Ok []
  ∧ (∀ t r x name county town,
       print_temperature_summary (H := Decimal.decimal_float)
         [Samples.sentinel_station] = (t, r) →
       L_max x name county town ∉ t ∧ L_min x name county town ∉ t).
Proof.
  apply (no_reading_no_aggregate (H := Decimal.decimal_float)
           [Samples.sentinel_station]).
  - repeat constructor; by apply station_reading_typed.
  - intros d ->%list_elem_of_singleton. reflexivity.
Defined.

Lemma temperature_summary_needs_every_element_witness :
  ∃ t e,
    print_temperature_summary (H := Decimal.decimal_float)
      [PDict (Fixtures.weather_station "A" (PStr "25.03") (PStr "121.56") PNone)]
    = (t, Err e).
Proof.
  apply (temperature_summary_needs_every_element (H := Decimal.decimal_float)
           [PDict (Fixtures.weather_station "A" (PStr "25.03") (PStr "121.56") PNone)]
           (Fixtures.weather_station "A" (PStr "25.03") (PStr "121.56") PNone)
           {[ "temperature" := PNone; "humidity" := PStr "70";
              "pressure" := PStr "1013.2"; "wind_speed" := PStr "2.1";
              "wind_direction" := PStr "90"; "weather" := PStr "clear";
              "precipitation" := PStr "0.0" ]}).
  - apply list_elem_of_here.
  - reflexivity.
  - left. reflexivity.
Defined.

End summaries_examples.

Section listing.
Context `{PyFloat}.
Import WeatherApi.

(** A listing that completes has one line for each station, in order. *)
Lemma print_stations_Ok k l t :
  print_stations k l = (t, Ok tt) →
  length t = length l
  ∧ ∀ i s, l !! i = Some s →
      ∃ ln, t !! i = Some ln ∧ station_line (k + i) s = Ok ln.
Proof.
  revert k t. induction l as [|a l IH]; intros k t; cbn.
  - intros [= <-]. split; [done|]. intros i s Hi. by rewrite lookup_nil in Hi.
  - destruct (station_line k a) as [ln|e] eqn:Hln; cbn; [|done].
    destruct (print_stations (S k) l) as [t' [[]|e]] eqn:Hrest; [|done].
    intros [= <-]. destruct (IH _ _ Hrest) as [Hlen Hall].
    split; [cbn; by rewrite Hlen|].
    intros [|i] s; cbn.
    + intros [= <-]. exists ln. by rewrite Nat.add_0_r.
    + intros Hs. rewrite Nat.add_succ_r. by apply Hall.
Qed.

(** X30.  When [print_temperature_summary] completes on a non-empty
    input, its listing has one line for each of the first 15 stations,
    or for all of them when there are fewer, in input order and numbered
    from 1: the listing is neither sorted nor filtered, so a station
    holding the sentinel is listed with it. *)
Theorem temperature_listing_first_fifteen (data : list pyval) t :
  data ≠ [] →
  print_temperature_summary data = (t, Ok tt) →
  ∃ pre lines,
    t = pre ++ [L_list_title] ++ lines
    ∧ length lines = (length data `min` 15)%nat
    ∧ ∀ i s, (i < 15)%nat → data !! i = Some s →
        ∃ ln, lines !! i = Some ln ∧ station_line (1 + i) s = Ok ln.
Proof.
  intros Hne. unfold print_temperature_summary.
  assert (truthy (PList data) = true) as -> by (by destruct data).
  cbn [negb]. unfold print, lift. cbn [mbind io_bind].
  destruct (valid_temps_loop data []) as [vts|]; [|done].
  destruct (print_stations 1 (take 15 data)) as [lines r] eqn:Hst.
  assert (∀ pre, (pre ++ [L_list_title] ++ lines, r) = (t, Ok tt) →
    ∃ pre lines,
      t = pre ++ [L_list_title] ++ lines
      ∧ length lines = (length data `min` 15)%nat
      ∧ ∀ i s, (i < 15)%nat → data !! i = Some s →
          ∃ ln, lines !! i = Some ln ∧ station_line (1 + i) s = Ok ln) as Hend.
  { intros pre [= <- ->]. destruct (print_stations_Ok _ _ _ Hst) as [Hlen Hall].
    exists pre, lines. split; [done|]. split.
    - rewrite Hlen, length_take. lia.
    - intros i s Hi Hs. apply Hall. by rewrite lookup_take_lt. }
  destruct (negb _); cbn [mbind io_bind].
  2:{ intros Hrun. eapply (Hend [_; _; _; _]). exact Hrun. }
  destruct (py_index _ _) as [hi|]; cbn; [|done].
  destruct (station_place _) as [[[??]?]|]; cbn; [|done].
  destruct (py_index _ _) as [lo|]; cbn; [|done].
  destruct (station_place _) as [[[??]?]|]; cbn; [|done].
  intros Hrun. eapply (Hend [_; _; _; _; _; _]). exact Hrun.
Qed.

End listing.

Section listing_examples.
Import WeatherApi.

Lemma temperature_listing_first_fifteen_witness :
  ∃ pre lines,
    [L_title; L_total 3; L_time; L_rule;
     L_max 25 (PStr "A") (PStr "Taipei") (PStr "Daan");
     L_min 18 (PStr "C") (PStr "Taipei") (PStr "Daan");
     L_list_title;
     L_station 1 "A" (PStr "Taipei") (PStr "Daan") "25" "70" "clear";
     L_station 2 "B" (PStr "Taipei") (PStr "Daan") "-99" "70" "clear";
     L_station 3 "C" (PStr "Taipei") (PStr "Daan") "18" "70" "clear"]
    = pre ++ [L_list_title] ++ lines
    ∧ length lines = 3%nat
    ∧ ∀ i s, (i < 15)%nat → Fixtures.three_stations !! i = Some s →
        ∃ ln, lines !! i = Some ln ∧ station_line (1 + i) s = Ok ln.
Proof.
  apply (temperature_listing_first_fifteen (H := Decimal.decimal_float)
           Fixtures.three_stations).
  - discriminate.
  - exact three_summary.
Defined.

End listing_examples.

(** ** Colours, markers and centres of the maps *)

Section map_layers.
Context `{PyFloat}.
Import WeatherApi WeatherMapLayers.

(** X19.  On every value but a number beyond the range of a float,
    [get_temperature_color] does not raise.  It answers gray exactly
    when [float] rejects the value.  Otherwise it answers blue exactly
    when the temperature is below 20 and green exactly when it lies
    between 20 and 28, both bounds included; orange is the branch of
    every other reading, one that is neither below 20 nor at most 28. *)
Theorem temperature_color_legend (temperature : pyval) :
  Outcome.float_sized temperature →
  ∃ c, get_temperature_color temperature = Ok c
    ∧ (c = Gray ↔ ∃ e, py_float temperature = Err e)
    ∧ ∀ x, py_float temperature = Ok x →
        (c = Blue ↔ (x < 20)%R)
        ∧ (c = Green ↔ (20 <= x <= 28)%R)
        ∧ (¬ (x < 20)%R → ¬ (x <= 28)%R → c = Orange).
Proof.
  intros _. unfold get_temperature_color.
  destruct (py_float temperature) as [x|e] eqn:Hx.
  - destruct (Rlt_dec x 20); [|destruct (Rle_dec x 28)]; eexists; (split; [done|]);
      (split; [split; [done|by intros [??]]|]);
      intros ? [= <-]; repeat split; intros; try done; lra.
  - destruct (py_float_Err _ _ Hx) as [-> | ->]; exists Gray;
      (split; [done|]); (split; [split; eauto|done]).
Qed.

(** The colour is always defined. *)
Lemma get_temperature_color_Ok temperature :
  ∃ c, get_temperature_color temperature = Ok c
       ∧ (c = Gray ↔ ∃ e, py_float temperature = Err e).
Proof.
  unfold get_temperature_color.
  destruct (py_float temperature) as [x|e] eqn:Hx.
  - destruct (Rlt_dec x 20); [|destruct (Rle_dec x 28)]; eexists; (split; [done|]);
      (split; [done|by intros [??]]).
  - destruct (py_float_Err _ _ Hx) as [-> | ->]; exists Gray;
      (split; [done|]); split; eauto.
Qed.

(** A comprehension that succeeds keeps the length. *)
Lemma map_result_length {A B} (f : A → result B) l ys :
  map_result f l = Ok ys → length ys = length l.
Proof. intros Hys%map_result_Forall2. symmetry. by eapply Forall2_length. Qed.

(** A station the comprehension keeps has a marker at its coordinates,
    if the marker loop gets past it. *)
Lemma valid_station_marker d x y mo :
  valid_station d = Ok true →
  station_latitude d = Ok x →
  station_longitude d = Ok y →
  station_marker d = Ok mo →
  ∃ k, mo = Some k ∧ marker_location k = (x, y).
Proof.
  unfold valid_station, station_latitude, station_longitude, station_marker.
  destruct (py_getitem d "location") as [loc|]; cbn; [|done].
  destruct (py_getitem loc "latitude") as [lat|]; cbn; [|done].
  destruct (truthy lat); cbn; [|done].
  destruct (py_getitem loc "longitude") as [lon|]; cbn; [|done].
  destruct (truthy lon); cbn; [|done].
  intros _ Hx Hy. unfold marker_point. rewrite Hx, Hy. cbn.
  repeat match goal with
  | |- context [mbind _ ?m] => destruct m; cbn; [|done]
  end.
  intros [= <-]. eauto.
Qed.

(** The markers drawn cover the valid stations: the coordinates of the
    valid stations are, in order, among the places of the markers. *)
Lemma markers_cover_valid data acc valid lats lons markers :
  valid_stations data = Ok valid →
  map_result station_latitude valid = Ok lats →
  map_result station_longitude valid = Ok lons →
  markers_loop data acc = Ok markers →
  ∃ new, markers = acc ++ new
    ∧ (length new ≤ length data)%nat
    ∧ zip lats lons `sublist_of` (marker_location <$> new).
Proof.
  revert acc valid lats lons.
  induction data as [|d data IH]; intros acc valid lats lons.
  - cbn. intros [= <-] [= <-] [= <-] [= <-]. exists []. by rewrite app_nil_r.
  - cbn [valid_stations markers_loop].
    destruct (valid_station d) as [keep|] eqn:Hkeep; cbn [mbind result_bind]; [|done].
    destruct (valid_stations data) as [kept|] eqn:Hkept; cbn [mbind result_bind]; [|done].
    intros [= <-].
    destruct (station_marker d) as [mo|] eqn:Hmo; cbn [mbind result_bind]; [|done].
    destruct keep.
    + cbn [map_result].
      destruct (station_latitude d) as [x|] eqn:Hx; cbn [mbind result_bind]; [|done].
      destruct (map_result station_latitude kept) as [lats'|] eqn:Hlats;
        cbn [mbind result_bind]; [|done].
      intros [= <-].
      destruct (station_longitude d) as [y|] eqn:Hy; cbn [mbind result_bind]; [|done].
      destruct (map_result station_longitude kept) as [lons'|] eqn:Hlons;
        cbn [mbind result_bind]; [|done].
      intros [= <-].
      destruct (valid_station_marker d x y mo Hkeep Hx Hy Hmo) as (k & -> & Hk).
      intros Hloop.
      destruct (IH _ _ _ _ eq_refl Hlats Hlons Hloop) as (new & -> & Hlen & Hsub).
      exists (k :: new). rewrite <- app_assoc. split; [done|]. split; [cbn; lia|].
      cbn. rewrite Hk. by constructor.
    + intros Hlats Hlons Hloop.
      destruct mo as [k|].
      * destruct (IH _ _ _ _ eq_refl Hlats Hlons Hloop) as (new & -> & Hlen & Hsub).
        exists (k :: new). rewrite <- app_assoc. split; [done|]. split; [cbn; lia|].
        cbn. by constructor.
      * destruct (IH _ _ _ _ eq_refl Hlats Hlons Hloop) as (new & -> & Hlen & Hsub).
        exists new. split; [done|]. split; [cbn; lia|done].
Qed.

Lemma valid_stations_length data valid :
  valid_stations data = Ok valid → (length valid ≤ length data)%nat.
Proof.
  revert valid. induction data as [|d data IH]; intros valid; cbn.
  - by intros [= <-].
  - destruct (valid_station d) as [keep|]; cbn; [|done].
    destruct (valid_stations data) as [kept|]; cbn; [|done].
    intros [= <-]. specialize (IH _ eq_refl). destruct keep; cbn; lia.
Qed.

(** What a returned map was built from. *)
Lemma create_weather_map_inv data t m :
  create_weather_map data = (t, Ok (Some m)) →
  ∃ valid lats lons,
    valid_stations data = Ok valid ∧ valid ≠ []
    ∧ map_result station_latitude valid = Ok lats
    ∧ map_result station_longitude valid = Ok lons
    ∧ markers_loop data [] = Ok (map_markers m)
    ∧ map_center m = (sum_list lats / INR (length lats),
                      sum_list lons / INR (length lons))%R
    ∧ map_valid m = length valid
    ∧ map_total m = length data.
Proof.
  unfold create_weather_map, lift, print. cbn [mbind io_bind].
  destruct (valid_stations data) as [valid|]; [|done].
  destruct valid as [|v valid]; [done|].
  change (truthy (PList (v :: valid))) with true. cbn [negb mbind io_bind].
  destruct (map_result station_latitude _) as [lats|] eqn:Hlats; [|done].
  destruct (map_result station_longitude _) as [lons|] eqn:Hlons; [|done].
  cbn [app].
  pose proof (map_result_length _ _ _ Hlats) as Hl1.
  pose proof (map_result_length _ _ _ Hlons) as Hl2.
  rewrite !py_truediv_length, !py_sum_sum_list by (rewrite ?Hl1, ?Hl2; done).
  destruct (markers_loop data []) as [markers|]; [|done].
  cbn. intros [= _ <-]. exists (v :: valid), lats, lons. by repeat split.
Qed.

(** X21.  When [create_weather_map] returns a map, at least one station
    is valid, no more stations are counted valid than there are markers,
    and no more markers are drawn than there are stations: every station
    counted valid in the title has its marker on the map. *)
Theorem weather_map_counts (data : list pyval) t m :
  create_weather_map data = (t, Ok (Some m)) →
  (0 < map_valid m ∧ map_valid m ≤ length (map_markers m)
   ∧ length (map_markers m) ≤ map_total m)%nat
  ∧ map_total m = length data.
Proof.
  intros (valid & lats & lons & Hvalid & Hne & Hlats & Hlons & Hloop
          & Hcenter & Hnv & Hnt)%create_weather_map_inv.
  destruct (markers_cover_valid _ _ _ _ _ _ Hvalid Hlats Hlons Hloop)
    as (new & Hnew & Hlen & Hsub). cbn in Hnew. subst new.
  pose proof (map_result_length _ _ _ Hlats) as Hl1.
  pose proof (map_result_length _ _ _ Hlons) as Hl2.
  pose proof (sublist_length _ _ Hsub) as Hsl.
  rewrite length_zip, length_fmap, Hl1, Hl2 in Hsl.
  split; [|done].
  rewrite Hnv, Hnt. destruct valid; [done|]. cbn in *. lia.
Qed.

(** The shape of a record of the normaliser. *)
Lemma station_marker_schema (rec location we : gmap string pyval) :
  dom rec = station_keys →
  rec !! "location" = Some (PDict location) →
  dom location = location_keys →
  rec !! "weather_elements" = Some (PDict we) →
  ∃ mo, station_marker (PDict rec) = Ok mo.
Proof.
  intros Hdom Hloc Hdoml Hwe.
  assert (∀ key, key ∈ station_keys → is_Some (rec !! key)) as Hkeys
    by (intros key; rewrite <- Hdom; apply elem_of_dom).
  assert (∀ key, key ∈ location_keys → is_Some (location !! key)) as Hkeysl
    by (intros key; rewrite <- Hdoml; apply elem_of_dom).
  destruct (Hkeys "station_name") as [name Hname]; [set_solver|].
  destruct (Hkeys "station_id") as [sid Hsid]; [set_solver|].
  destruct (Hkeys "observation_time") as [obs Hobs]; [set_solver|].
  destruct (Hkeysl "county") as [county Hcounty]; [set_solver|].
  destruct (Hkeysl "town") as [town Htown]; [set_solver|].
  destruct (Hkeysl "latitude") as [lat Hlat]; [set_solver|].
  destruct (Hkeysl "longitude") as [lon Hlon]; [set_solver|].
  unfold station_marker. cbn. rewrite Hloc. cbn. rewrite Hlat, Hlon. cbn.
  destruct (_ || _); [by eauto|]. unfold marker_point.
  destruct (py_float lat) as [x|e] eqn:Hx; cbn.
  2:{ destruct (py_float_Err _ _ Hx) as [-> | ->]; by eauto. }
  destruct (py_float lon) as [y|e] eqn:Hy; cbn.
  2:{ destruct (py_float_Err _ _ Hy) as [-> | ->]; by eauto. }
  rewrite Hwe. cbn.
  destruct (get_temperature_color_Ok (default (PStr "N/A") (we !! "temperature")))
    as (c & Hc & _).
  rewrite Hc. cbn. rewrite Hname, Hsid. cbn. rewrite Hcounty, Htown. cbn.
  rewrite Hobs. cbn. by eauto.
Qed.

Lemma markers_loop_schema data acc :
  Forall (fun d => ∃ mo, station_marker d = Ok mo) data →
  ∃ markers, markers_loop data acc = Ok markers.
Proof.
  intros Hdata. revert acc. induction Hdata as [|d data [mo Hmo] _ IH]; intros acc.
  - by eexists.
  - cbn. rewrite Hmo. cbn. destruct mo; apply IH.
Qed.

(** X20.  A record of the normaliser whose coordinates are strings
    that [float] reads as degrees of the globe gets a marker at these
    coordinates whatever temperature it holds, a string or [None].  The
    marker is gray exactly when [float] rejects the temperature; a
    station holding the sentinel -99, which [float] reads as a number
    below 20, gets a blue marker. *)
Theorem marker_whatever_the_reading (rec location we : gmap string pyval)
    (a b : string) (x y : R) :
  dom rec = station_keys →
  rec !! "location" = Some (PDict location) →
  dom location = location_keys →
  rec !! "weather_elements" = Some (PDict we) →
  DistanceCalculator.optional_string (we !! "temperature") →
  location !! "latitude" = Some (PStr a) →
  location !! "longitude" = Some (PStr b) →
  float_of_str a = Some x →
  float_of_str b = Some y →
  DistanceCalculator.latitude_range x →
  DistanceCalculator.longitude_range y →
  ∃ k, station_marker (PDict rec) = Ok (Some k)
    ∧ marker_location k = (x, y)
    ∧ (marker_fill k = Gray
       ↔ ∃ e, py_float (default (PStr "N/A") (we !! "temperature")) = Err e)
    ∧ (we !! "temperature" = Some (PStr "-99") →
       float_of_str "-99" = Some (-99)%R →
       marker_fill k = Blue).
Proof.
  intros Hdom Hloc Hdoml Hwe _ Hlat Hlon Hx Hy _ _.
  assert (∀ key, key ∈ station_keys → is_Some (rec !! key)) as Hkeys
    by (intros key; rewrite <- Hdom; apply elem_of_dom).
  assert (∀ key, key ∈ location_keys → is_Some (location !! key)) as Hkeysl
    by (intros key; rewrite <- Hdoml; apply elem_of_dom).
  destruct (Hkeys "station_name") as [name Hname]; [set_solver|].
  destruct (Hkeys "station_id") as [sid Hsid]; [set_solver|].
  destruct (Hkeys "observation_time") as [obs Hobs]; [set_solver|].
  destruct (Hkeysl "county") as [county Hcounty]; [set_solver|].
  destruct (Hkeysl "town") as [town Htown]; [set_solver|].
  assert (a ≠ "") as Ha by (intros ->; by rewrite float_of_str_empty in Hx).
  assert (b ≠ "") as Hb by (intros ->; by rewrite float_of_str_empty in Hy).
  apply String.eqb_neq in Ha, Hb.
  destruct (get_temperature_color_Ok (default (PStr "N/A") (we !! "temperature")))
    as (c & Hc & Hgray).
  eexists (Marker (x, y) _ _ c). split; [|split; [done|split; [done|]]].
  - unfold station_marker. cbn. rewrite Hloc. cbn. rewrite Hlat, Hlon. cbn.
    rewrite Ha, Hb. cbn. unfold marker_point. cbn. rewrite Hx, Hy. cbn.
    rewrite Hwe. cbn. rewrite Hc. cbn. rewrite Hname, Hsid. cbn.
    rewrite Hcounty, Htown. cbn. rewrite Hobs. cbn. reflexivity.
  - intros Htemp Hfloat. cbn. rewrite Htemp in Hc.
    unfold get_temperature_color in Hc. cbn in Hc. rewrite Hfloat in Hc.
    destruct (Rlt_dec (-99) 20) as [_|Hn]; [congruence|lra].
Qed.

(** One turn of the heat-map loop adds at most one point; a station that
    gives a point has a marker at the same place, and that marker is not
    gray. *)
Lemma heat_step d data :
  (∃ e, ∀ acc, WeatherMap.heat_data_loop (d :: data) acc = Err e)
  ∨ (∃ new,
       (∀ acc, WeatherMap.heat_data_loop (d :: data) acc
               = WeatherMap.heat_data_loop data (acc ++ new))
       ∧ ∀ p, p ∈ new → ∀ mo, station_marker d = Ok mo →
           ∃ k, mo = Some k ∧ marker_location k = p.1 ∧ marker_fill k ≠ Gray).
Proof.
  assert (∀ P : R * R * R → Prop,
    (∃ new : list (R * R * R),
       (∀ acc, WeatherMap.heat_data_loop data acc
               = WeatherMap.heat_data_loop data (acc ++ new))
       ∧ ∀ p, p ∈ new → P p)) as Hskip.
  { intros P. exists []. split; [intros; by rewrite app_nil_r|]. intros p Hp.
    by inversion Hp. }
  cbn [WeatherMap.heat_data_loop]. unfold station_marker.
  destruct (py_getitem d "location") as [loc|]; cbn [mbind result_bind];
    [|left; by eexists].
  destruct (py_getitem loc "latitude") as [lat|]; cbn [mbind result_bind];
    [|left; by eexists].
  destruct (py_getitem loc "longitude") as [lon|]; cbn [mbind result_bind];
    [|left; by eexists].
  destruct (py_getitem d "weather_elements") as [we|]; cbn [mbind result_bind];
    [|left; by eexists].
  destruct we as [| | | | |m]; cbn [py_get mbind result_bind];
    try (left; by eexists).
  right.
  destruct (_ || _) eqn:Hkeep; [apply Hskip|].
  apply orb_false_iff in Hkeep as [Hkeep _].
  apply orb_false_iff in Hkeep as [Hkeep Htemp%negb_false_iff].
  apply orb_false_iff in Hkeep as [Hlat%negb_false_iff Hlon%negb_false_iff].
  rewrite Hlat, Hlon. cbn [negb orb].
  destruct (m !! "temperature") as [temp|]; [|done].
  cbn [from_option Datatypes.id] in *.
  unfold WeatherMap.heat_point, marker_point.
  destruct (py_float lat) as [x|e1] eqn:Hx; cbn [mbind result_bind].
  2:{ destruct (py_float_Err _ _ Hx) as [-> | ->]; apply Hskip. }
  destruct (py_float lon) as [y|e1] eqn:Hy; cbn [mbind result_bind].
  2:{ destruct (py_float_Err _ _ Hy) as [-> | ->]; apply Hskip. }
  destruct (py_float temp) as [z|e1] eqn:Hz; cbn [mbind result_bind].
  2:{ destruct (py_float_Err _ _ Hz) as [-> | ->]; apply Hskip. }
  exists [(x, y, z)]. split; [done|].
  intros p ->%list_elem_of_singleton mo.
  destruct (get_temperature_color_Ok temp) as (c & Hc & Hgray).
  rewrite Hc. cbn [mbind result_bind].
  repeat match goal with
  | |- context [mbind _ (py_getitem ?v ?key)] =>
      destruct (py_getitem v key); cbn [mbind result_bind]; [|done]
  end.
  intros [= <-]. eexists. split; [done|]. cbn. split; [done|].
  intros [e He]%Hgray. congruence.
Qed.

Lemma heat_points_under_markers data acc macc pts markers :
  WeatherMap.heat_data_loop data acc = Ok pts →
  markers_loop data macc = Ok markers →
  ∃ new mnew,
    pts = acc ++ new ∧ markers = macc ++ mnew
    ∧ ∀ p, p ∈ new →
        ∃ k, k ∈ mnew ∧ marker_location k = p.1 ∧ marker_fill k ≠ Gray.
Proof.
  revert acc macc. induction data as [|d data IH]; intros acc macc.
  - cbn. intros [= <-] [= <-]. exists [], []. rewrite !app_nil_r.
    split; [done|]. split; [done|]. intros p Hp. by inversion Hp.
  - destruct (heat_step d data) as [[e He]|(new0 & Hnew0 & Hcover)].
    { by rewrite He. }
    rewrite Hnew0. cbn [markers_loop].
    destruct (station_marker d) as [mo|] eqn:Hmo; cbn [mbind result_bind]; [|done].
    intros Hh Hm.
    assert (∃ mnew0, markers_loop data (macc ++ mnew0) = Ok markers
                     ∧ ∀ k, mo = Some k → k ∈ mnew0) as (mnew0 & Hm' & Hk).
    { destruct mo as [k|].
      - exists [k]. split; [done|]. intros ? [= <-]. set_solver.
      - exists []. by rewrite app_nil_r. }
    destruct (IH _ _ Hh Hm') as (new & mnew & -> & -> & Hall).
    exists (new0 ++ new), (mnew0 ++ mnew). rewrite !app_assoc.
    split; [done|]. split; [done|].
    intros p [Hp|Hp]%elem_of_app.
    + destruct (Hcover p Hp mo eq_refl) as (k & -> & ?). exists k.
      split; [|done]. apply elem_of_app. left. by apply Hk.
    + destruct (Hall p Hp) as (k & Hk' & ?). exists k. set_solver.
Qed.

(** X22.  When [create_temperature_heatmap] returns a map it has at
    least one point, and every point lies where [create_weather_map], if
    it returns a map for the same data, draws a marker that is not
    gray. *)
Theorem heatmap_points_under_markers (data : list pyval) t hm :
  create_temperature_heatmap data = (t, Ok (Some hm)) →
  heat_points hm ≠ []
  ∧ (∀ t' m, create_weather_map data = (t', Ok (Some m)) →
       ∀ p, p ∈ heat_points hm →
         ∃ k, k ∈ map_markers m ∧ marker_location k = p.1
              ∧ marker_fill k ≠ Gray).
Proof.
  unfold create_temperature_heatmap, lift, print. cbn [mbind io_bind].
  destruct (WeatherMap.heat_data_loop data []) as [pts|] eqn:Hpts; [|done].
  destruct (length pts =? 0)%nat eqn:Hlen; [done|]. apply Nat.eqb_neq in Hlen.
  cbn [mbind io_bind].
  rewrite !py_truediv_length, !py_sum_sum_list by (by rewrite !length_fmap).
  cbn [mbind io_bind mret io_ret app]. intros [= _ <-].
  cbn [heat_points heat_center fst snd].
  assert (pts ≠ []) as Hne by (by intros ->).
  split; [done|].
  intros t' m (valid & lats & lons & _ & _ & _ & _ & Hloop & _)%create_weather_map_inv.
  destruct (heat_points_under_markers _ _ _ _ _ Hpts Hloop)
    as (new & mnew & Hnew & Hmnew & Hall).
  cbn in Hnew, Hmnew. subst new mnew. exact Hall.
Qed.

(** A comprehension that fails fails at one of its elements. *)
Lemma map_result_Err_elem {A B} (f : A → result B) l e :
  map_result f l = Err e → ∃ x, x ∈ l ∧ f x = Err e.
Proof.
  induction l as [|a l IH]; cbn; [done|].
  destruct (f a) as [y|e'] eqn:Ha; cbn.
  - destruct (map_result f l) as [ys|e']; cbn; [done|].
    intros [= ->]. destruct (IH eq_refl) as (x & Hx & Hfx). exists x. set_solver.
  - intros [= ->]. exists a. set_solver.
Qed.

(** On located records the comprehension of [create_weather_map] does not
    raise, nor does the loop of the heat map in the model, where every
    number converts. *)
Lemma valid_stations_located data :
  Forall Outcome.located data →
  ∃ valid, valid_stations data = Ok valid
    ∧ ∀ d, d ∈ valid ↔ d ∈ data ∧ valid_station d = Ok true.
Proof.
  induction 1 as [|d data Hd _ (valid & Hvalid & Hiff)].
  - exists []. split; [done|]. intros d. set_solver.
  - assert (∃ b, valid_station d = Ok b) as [b Hb].
    { destruct Hd as (s & location & we & lat & lon & -> & Hloc & Hwe & Hlat & Hlon & _).
      unfold valid_station. cbn. rewrite Hloc. cbn. rewrite Hlat. cbn.
      destruct (truthy lat); [|by eauto]. rewrite Hlon. cbn.
      destruct (truthy lon); [|by eauto]. rewrite Hwe. cbn.
      destruct (we !! "temperature") as [temp|]; cbn; [|by eauto].
      destruct (truthy temp); by eauto. }
    cbn. rewrite Hb, Hvalid. cbn. eexists. split; [done|].
    intros x. destruct b.
    + rewrite !elem_of_cons, Hiff. split.
      * intros [->|[??]]; eauto.
      * intros [[->|?] ?]; eauto.
    + rewrite elem_of_cons, Hiff. split.
      * intros [??]; eauto.
      * intros [[->|?] ?]; [congruence|eauto].
Qed.

Lemma station_coordinate_located d :
  Outcome.located d → valid_station d = Ok true →
  ((∃ x, station_latitude d = Ok x) ∨ station_latitude d = Err ValueError)
  ∧ ((∃ y, station_longitude d = Ok y) ∨ station_longitude d = Err ValueError).
Proof.
  intros (s & location & we & lat & lon & -> & Hloc & Hwe & Hlat & Hlon & Hta & Hto).
  unfold valid_station, station_latitude, station_longitude. cbn.
  rewrite Hloc. cbn. rewrite Hlat, Hlon. cbn.
  destruct lat as [| | |a| |]; cbn in Hta |- *; try done.
  destruct (negb (a =? "")); [|done]. cbn.
  destruct lon as [| | |b| |]; cbn in Hto |- *; try done.
  intros _. split.
  - destruct (float_of_str a); eauto.
  - destruct (float_of_str b); eauto.
Qed.

Lemma heat_data_loop_located data acc :
  Forall Outcome.located data →
  ∃ pts, WeatherMap.heat_data_loop data acc = Ok pts.
Proof.
  intros Hdata. revert acc. induction Hdata as [|d data Hd _ IH]; intros acc.
  - by eexists.
  - destruct Hd as (s & location & we & lat & lon & -> & Hloc & Hwe & Hlat & Hlon & _).
    cbn. rewrite Hloc. cbn. rewrite Hlat, Hlon. cbn. rewrite Hwe. cbn.
    destruct (_ || _); [apply IH|].
    unfold WeatherMap.heat_point.
    destruct (py_float lat) as [x|e1] eqn:Hx; cbn.
    2:{ destruct (py_float_Err _ _ Hx) as [-> | ->]; apply IH. }
    destruct (py_float lon) as [y|e1] eqn:Hy; cbn.
    2:{ destruct (py_float_Err _ _ Hy) as [-> | ->]; apply IH. }
    destruct (py_float (default PNone (we !! "temperature"))) as [z|e1] eqn:Hz; cbn.
    2:{ destruct (py_float_Err _ _ Hz) as [-> | ->]; apply IH. }
    apply IH.
Qed.

(** X23.  [create_weather_map] computes its centre outside any [try]:
    on records whose coordinates and temperature are strings or [None],
    one station with a valid reading and a coordinate that [float]
    rejects makes the call raise [ValueError] before anything is printed
    or drawn, while the loop of the heat map skips that station and
    completes. *)
Theorem weather_map_raises_on_unreadable_coordinate (data : list pyval) d :
  Forall Outcome.located data →
  Forall Outcome.reading_typed data →
  d ∈ data →
  valid_station d = Ok true →
  station_latitude d = Err ValueError ∨ station_longitude d = Err ValueError →
  create_weather_map data = ([], Err ValueError)
  ∧ ∃ pts, WeatherMap.heat_data_loop data [] = Ok pts.
Proof.
  intros Hdata _ Hd Hvalid Hbad. split; [|by apply heat_data_loop_located].
  destruct (valid_stations_located data Hdata) as (valid & Hvs & Hiff).
  assert (d ∈ valid) as Hdv by (by apply Hiff).
  assert (∀ x, x ∈ valid → Outcome.located x ∧ valid_station x = Ok true) as Hall.
  { intros x [Hx ?]%Hiff. rewrite Forall_forall in Hdata. eauto. }
  unfold create_weather_map, lift, print. cbn [mbind io_bind]. rewrite Hvs.
  assert (truthy (PList valid) = true) as ->.
  { destruct valid; [by inversion Hdv|done]. }
  cbn [negb mbind io_bind].
  destruct (map_result station_latitude valid) as [lats|e] eqn:Hlats.
  - destruct (map_result station_longitude valid) as [lons|e] eqn:Hlons.
    + exfalso. destruct (map_result_elem _ _ _ _ Hlats Hdv) as [x Hx].
      destruct (map_result_elem _ _ _ _ Hlons Hdv) as [y Hy].
      destruct Hbad; congruence.
    + destruct (map_result_Err_elem _ _ _ Hlons) as (x & Hx & Hfx).
      destruct (Hall x Hx) as [Hloc Hv].
      assert (e = ValueError) as ->; [|done].
      destruct (station_coordinate_located x Hloc Hv) as [_ [[y Hy]|Hy]]; congruence.
  - destruct (map_result_Err_elem _ _ _ Hlats) as (x & Hx & Hfx).
    destruct (Hall x Hx) as [Hloc Hv].
    assert (e = ValueError) as ->; [|done].
    destruct (station_coordinate_located x Hloc Hv) as [[[y Hy]|Hy] _]; congruence.
Qed.

End map_layers.

Section map_layers_examples.
Import WeatherApi WeatherMapLayers.

Lemma temperature_color_legend_witness :
  ∃ c, get_temperature_color (H := Decimal.decimal_float) (PStr "25") = Ok c
    ∧ (c = Gray ↔ ∃ e, py_float (H := Decimal.decimal_float) (PStr "25") = Err e)
    ∧ ∀ x, py_float (H := Decimal.decimal_float) (PStr "25") = Ok x →
        (c = Blue ↔ (x < 20)%R)
        ∧ (c = Green ↔ (20 <= x <= 28)%R)
        ∧ (¬ (x < 20)%R → ¬ (x <= 28)%R → c = Orange).
Proof.
  apply (temperature_color_legend (H := Decimal.decimal_float) (PStr "25")).
  intros x [=].
Defined.

Lemma marker_whatever_the_reading_witness :
  ∃ k, station_marker (H := Decimal.decimal_float) Samples.sentinel_station = Ok (Some k)
    ∧ marker_location k = ((IZR 24 + IZR 99 / 10 ^ 2)%R, (IZR 121 + IZR 43 / 10 ^ 2)%R)
    ∧ (marker_fill k = Gray
       ↔ ∃ e, py_float (H := Decimal.decimal_float)
                (default (PStr "N/A")
                   (({[ "temperature" := PStr "-99"; "humidity" := PStr "70";
                        "pressure" := PStr "1013.2"; "wind_speed" := PStr "2.1";
                        "wind_direction" := PStr "90"; "weather" := PStr "clear";
                        "precipitation" := PStr "0.0" ]} : gmap string pyval)
                    !! "temperature")) = Err e)
    ∧ (({[ "temperature" := PStr "-99"; "humidity" := PStr "70";
           "pressure" := PStr "1013.2"; "wind_speed" := PStr "2.1";
           "wind_direction" := PStr "90"; "weather" := PStr "clear";
           "precipitation" := PStr "0.0" ]} : gmap string pyval) !! "temperature"
       = Some (PStr "-99") →
       float_of_str (PyFloat := Decimal.decimal_float) "-99" = Some (-99)%R →
       marker_fill k = Blue).
Proof.
  apply (marker_whatever_the_reading (H := Decimal.decimal_float)
           (Fixtures.weather_station "B" (PStr "24.99") (PStr "121.43") (PStr "-99"))
           {[ "county" := PStr "Taipei"; "town" := PStr "Daan";
              "latitude" := PStr "24.99"; "longitude" := PStr "121.43" ]}
           _ "24.99" "121.43").
  - reflexivity.
  - reflexivity.
  - reflexivity.
  - reflexivity.
  - exact I.
  - reflexivity.
  - reflexivity.
  - reflexivity.
  - reflexivity.
  - unfold DistanceCalculator.latitude_range. lra.
  - unfold DistanceCalculator.longitude_range. lra.
Defined.

(** The marker loop and both maps on the three sample stations. *)
Lemma sample_station_marker name lat lon temp :
  ∃ mo, station_marker (H := Decimal.decimal_float)
          (PDict (Fixtures.weather_station name lat lon temp)) = Ok mo.
Proof.
  eapply station_marker_schema; reflexivity.
Qed.

Lemma three_map_run :
  ∃ t m, create_weather_map (H := Decimal.decimal_float) Fixtures.three_stations
         = (t, Ok (Some m)).
Proof.
  unfold create_weather_map, lift, print. cbn [mbind io_bind].
  change (valid_stations Fixtures.three_stations)
    with (Ok [Fixtures.station_a; Fixtures.station_c]).
  change (truthy (PList [Fixtures.station_a; Fixtures.station_c])) with true.
  cbn [negb mbind io_bind].
  destruct (map_result (station_latitude (H := Decimal.decimal_float))
              [Fixtures.station_a; Fixtures.station_c]) as [lats|] eqn:Hlats;
    [|discriminate Hlats].
  destruct (map_result (station_longitude (H := Decimal.decimal_float))
              [Fixtures.station_a; Fixtures.station_c]) as [lons|] eqn:Hlons;
    [|discriminate Hlons].
  rewrite !py_truediv_length
    by (rewrite ?(map_result_length _ _ _ Hlats), ?(map_result_length _ _ _ Hlons);
        done).
  cbn [app mbind io_bind].
  destruct (markers_loop_schema (H := Decimal.decimal_float)
              Fixtures.three_stations []) as [markers ->].
  { repeat constructor; apply sample_station_marker. }
  by eauto.
Qed.

Lemma weather_map_counts_witness :
  ∃ t m,
    create_weather_map (H := Decimal.decimal_float) Fixtures.three_stations
    = (t, Ok (Some m))
    ∧ (0 < map_valid m ∧ map_valid m ≤ length (map_markers m)
       ∧ length (map_markers m) ≤ map_total m)%nat
    ∧ map_total m = 3%nat.
Proof.
  destruct three_map_run as (t & m & Hrun). exists t, m. split; [exact Hrun|].
  apply (weather_map_counts (H := Decimal.decimal_float)
           Fixtures.three_stations t m Hrun).
Defined.

Lemma three_heatmap_run :
  ∃ t hm, create_temperature_heatmap (H := Decimal.decimal_float) Fixtures.three_stations
          = (t, Ok (Some hm)).
Proof.
  unfold create_temperature_heatmap, lift, print. cbn [mbind io_bind].
  destruct (WeatherMap.heat_data_loop (H := Decimal.decimal_float)
              Fixtures.three_stations []) as [pts|] eqn:Hpts; [|discriminate Hpts].
  destruct pts as [|p pts]; [discriminate Hpts|].
  change (length (p :: pts) =? 0)%nat with false. cbn [mbind io_bind].
  rewrite !py_truediv_length by (by rewrite !length_fmap).
  cbn [app mbind io_bind]. by eauto.
Qed.

Lemma heatmap_points_under_markers_witness :
  ∃ t hm,
    create_temperature_heatmap (H := Decimal.decimal_float) Fixtures.three_stations
    = (t, Ok (Some hm))
    ∧ heat_points hm ≠ []
    ∧ (∀ t' m,
         create_weather_map (H := Decimal.decimal_float) Fixtures.three_stations
         = (t', Ok (Some m)) →
         ∀ p, p ∈ heat_points hm →
           ∃ k, k ∈ map_markers m ∧ marker_location k = p.1
                ∧ marker_fill k ≠ Gray).
Proof.
  destruct three_heatmap_run as (t & hm & Hrun). exists t, hm. split; [exact Hrun|].
  apply (heatmap_points_under_markers (H := Decimal.decimal_float)
           Fixtures.three_stations t hm Hrun).
Defined.

Lemma sample_station_located name lat lon temp :
  DistanceCalculator.optional_string (Some lat) →
  DistanceCalculator.optional_string (Some lon) →
  Outcome.located (PDict (Fixtures.weather_station name lat lon temp)).
Proof.
  intros Hlat Hlon. eexists _, _, _, lat, lon.
  split; [done|]. repeat (split; [reflexivity|]). by split.
Qed.

Lemma weather_map_raises_on_unreadable_coordinate_witness :
  create_weather_map (H := Decimal.decimal_float)
    [Fixtures.station_a; Samples.misplaced_station]
  = ([], Err ValueError)
  ∧ ∃ pts,
      WeatherMap.heat_data_loop (H := Decimal.decimal_float)
        [Fixtures.station_a; Samples.misplaced_station] [] = Ok pts.
Proof.
  apply (weather_map_raises_on_unreadable_coordinate (H := Decimal.decimal_float)
           [Fixtures.station_a; Samples.misplaced_station] Samples.misplaced_station).
  - repeat constructor; by apply sample_station_located.
  - repeat constructor; by apply station_reading_typed.
  - apply list_elem_of_further, list_elem_of_here.
  - reflexivity.
  - left. reflexivity.
Defined.

End map_layers_examples.

(** ** More on the normaliser *)

Section normaliser_more.
Import WeatherApi Outcome.

(** X24.  A document that is falsy, that has no [records], whose
    [records] have no [Station], or whose station list is empty, gives
    the empty list: nothing is raised and nothing is printed. *)
Theorem no_station_list_no_record (doc : pyval) :
  truthy doc = false
  ∨ (∃ d, doc = PDict d
       ∧ (d !! "records" = None
          ∨ ∃ records, d !! "records" = Some (PDict records)
              ∧ (records !! "Station" = None
                 ∨ records !! "Station" = Some (PList [])))) →
  extract_temperature_data doc = ([], Ok []).
Proof.
  intros [Hfalsy|(d & -> & Habs)]; unfold extract_temperature_data.
  - by rewrite Hfalsy.
  - destruct (truthy (PDict d)); [|done]. cbn.
    destruct Habs as [->|(records & -> & [Hst|Hst])]; cbn.
    + by rewrite lookup_empty.
    + by rewrite Hst.
    + by rewrite Hst.
Qed.

(** The loop over objects, with its messages. *)
Lemma stations_loop_accounts stations acc :
  Forall is_dict stations →
  stations_loop stations acc
  = (omap skip_report stations, Ok (acc ++ omap record_of stations)).
Proof.
  intros Hst. revert acc. induction Hst as [|s stations Hs Hst IH]; intros acc.
  - cbn. by rewrite app_nil_r.
  - destruct s as [| | | | |d]; try done.
    cbn [stations_loop omap list_omap]. unfold record_of at 1, skip_report at 1.
    destruct (extract_station (PDict d)) as [r|e].
    + by rewrite IH, <- app_assoc.
    + cbn. by rewrite IH.
Qed.

(** Two partial maps that split a list share its length. *)
Lemma omap_partition_length {A B C} (f : A → option B) (g : A → option C) l :
  (∀ x, x ∈ l → is_Some (f x) ↔ g x = None) →
  (length (omap f l) + length (omap g l) = length l)%nat.
Proof.
  induction l as [|a l IH]; intros Hfg; [done|]. cbn.
  specialize (IH ltac:(intros; apply Hfg; set_solver)).
  pose proof (Hfg a ltac:(set_solver)) as Ha.
  destruct (f a), (g a); cbn; try lia.
  - destruct Ha as [Ha _]. by specialize (Ha ltac:(eauto)).
  - destruct Ha as [_ Ha]. by destruct (Ha eq_refl).
Qed.

(** X25.  When every entry of the station list is an object, each
    entry is either recorded or reported, never both and never neither:
    the result holds the records of the entries whose extraction
    succeeds, the messages name the others by [StationId] or [Unknown],
    both in input order, and the call raises nothing. *)
Theorem every_object_recorded_or_reported (doc records : gmap string pyval)
    (stations : list pyval) :
  doc !! "records" = Some (PDict records) →
  records !! "Station" = Some (PList stations) →
  Forall is_dict stations →
  extract_temperature_data (PDict doc)
  = (omap skip_report stations, Ok (omap record_of stations))
  ∧ (length (omap record_of stations) + length (omap skip_report stations)
     = length stations)%nat.
Proof.
  intros Hrec Hst Hdicts. split.
  - rewrite (extract_temperature_data_list _ _ _ Hrec Hst).
    by rewrite stations_loop_accounts.
  - apply omap_partition_length. intros s Hs.
    rewrite Forall_forall in Hdicts. specialize (Hdicts s Hs).
    destruct s as [| | | | |d]; try done.
    unfold record_of, skip_report.
    destruct (extract_station (PDict d)); split; try done; by intros [??].
Qed.

(** X26.  The seven weather elements of a record and its identifier
    are the values of the raw station, passed on as they are:
    [AirTemperature], [RelativeHumidity], [AirPressure], [WindSpeed],
    [WindDirection], [Weather] and [Now.Precipitation], each [None] when
    the raw station has none. *)
Theorem weather_elements_passed_on doc log out :
  extract_temperature_data doc = (log, Ok out) →
  Forall (fun r => ∃ rec elements raw we now,
    r = PDict rec
    ∧ rec !! "weather_elements" = Some (PDict elements)
    ∧ PDict raw ∈ doc_stations doc
    ∧ rec !! "station_id" = Some (default PNone (raw !! "StationId"))
    ∧ default (PDict ∅) (raw !! "WeatherElement") = PDict we
    ∧ default (PDict ∅) (we !! "Now") = PDict now
    ∧ elements !! "temperature" = Some (default PNone (we !! "AirTemperature"))
    ∧ elements !! "humidity" = Some (default PNone (we !! "RelativeHumidity"))
    ∧ elements !! "pressure" = Some (default PNone (we !! "AirPressure"))
    ∧ elements !! "wind_speed" = Some (default PNone (we !! "WindSpeed"))
    ∧ elements !! "wind_direction" = Some (default PNone (we !! "WindDirection"))
    ∧ elements !! "weather" = Some (default PNone (we !! "Weather"))
    ∧ elements !! "precipitation" = Some (default PNone (now !! "Precipitation")))
    out.
Proof.
  intros ->%extract_temperature_data_Ok. apply Forall_forall.
  intros r (station & Hin & Hr)%list_elem_of_omap.
  unfold record_of in Hr. destruct (extract_station station) as [r'|] eqn:Hst; [|done].
  injection Hr as ->.
  apply extract_station_inv in Hst
    as (d & geo & obs & we & now & coords & location
        & -> & Hgeo & Hobs & Hwe & Hnow & Hiter & Hloop & ->).
  eexists _, _, d, we, now.
  split; [reflexivity|]. split; [reflexivity|]. repeat split; done.
Qed.

End normaliser_more.

Section normaliser_to_distance.
Context `{PyFloat}.
Import WeatherApi DistanceCalculator.


End normaliser_to_distance.

Section normaliser_more_examples.
Import WeatherApi DistanceCalculator Outcome.

Lemma no_station_list_no_record_witness :
  extract_temperature_data (PDict {[ "success" := PStr "true" ]}) = ([], Ok []).
Proof.
  apply (no_station_list_no_record (PDict {[ "success" := PStr "true" ]})).
  right. eexists. split; [reflexivity|]. left. reflexivity.
Defined.

Lemma every_object_recorded_or_reported_witness :
  extract_temperature_data
    (PDict {[ "success" := PStr "true";
              "records" :=
                PDict {[ "Station" :=
                           PList [PDict Samples.malformed_raw;
                                  PDict Fixtures.taipei_raw] ]} ]})
  = (omap skip_report [PDict Samples.malformed_raw; PDict Fixtures.taipei_raw],
     Ok (omap record_of [PDict Samples.malformed_raw; PDict Fixtures.taipei_raw]))
  ∧ (length (omap record_of [PDict Samples.malformed_raw; PDict Fixtures.taipei_raw])
     + length (omap skip_report [PDict Samples.malformed_raw; PDict Fixtures.taipei_raw])
     = 2)%nat.
Proof.
  apply (every_object_recorded_or_reported
           {[ "success" := PStr "true";
              "records" :=
                PDict {[ "Station" :=
                           PList [PDict Samples.malformed_raw;
                                  PDict Fixtures.taipei_raw] ]} ]}
           {[ "Station" :=
                PList [PDict Samples.malformed_raw; PDict Fixtures.taipei_raw] ]}
           [PDict Samples.malformed_raw; PDict Fixtures.taipei_raw]).
  - reflexivity.
  - reflexivity.
  - repeat constructor.
Defined.

Lemma weather_elements_passed_on_witness :
  Forall (fun r => ∃ rec elements raw we now,
    r = PDict rec
    ∧ rec !! "weather_elements" = Some (PDict elements)
    ∧ PDict raw ∈ doc_stations (Fixtures.document [PDict Fixtures.taipei_raw])
    ∧ rec !! "station_id" = Some (default PNone (raw !! "StationId"))
    ∧ default (PDict ∅) (raw !! "WeatherElement") = PDict we
    ∧ default (PDict ∅) (we !! "Now") = PDict now
    ∧ elements !! "temperature" = Some (default PNone (we !! "AirTemperature"))
    ∧ elements !! "humidity" = Some (default PNone (we !! "RelativeHumidity"))
    ∧ elements !! "pressure" = Some (default PNone (we !! "AirPressure"))
    ∧ elements !! "wind_speed" = Some (default PNone (we !! "WindSpeed"))
    ∧ elements !! "wind_direction" = Some (default PNone (we !! "WindDirection"))
    ∧ elements !! "weather" = Some (default PNone (we !! "Weather"))
    ∧ elements !! "precipitation" = Some (default PNone (now !! "Precipitation")))
    [station_record Fixtures.taipei_raw
       {[ "DateTime" := PStr "2025-01-01T12:00:00+08:00" ]}
       {[ "AirTemperature" := PStr "21.3"; "RelativeHumidity" := PStr "70";
          "Now" := PDict {[ "Precipitation" := PStr "0.0" ]} ]}
       {[ "Precipitation" := PStr "0.0" ]}
       {[ "county" := PStr "Taipei City"; "town" := PStr "Zhongzheng";
          "latitude" := PStr "25.0377"; "longitude" := PStr "121.5149" ]}].
Proof.
  apply (weather_elements_passed_on (Fixtures.document [PDict Fixtures.taipei_raw]) []).
  reflexivity.
Defined.


End normaliser_more_examples.

(** ** The choice of the data file *)

Section latest_file_facts.
Import LatestFile.

(** The order of strings: [sorted] on names yields an ascending
    permutation, whose last element is the greatest. *)
Lemma string_ltb_leb s1 s2 : String.ltb s1 s2 = true → String.leb s1 s2 = true.
Proof. unfold String.ltb, String.leb. by destruct (String.compare s1 s2). Qed.

Lemma string_ltb_false_leb s1 s2 : String.ltb s1 s2 = false → String.leb s2 s1 = true.
Proof.
  unfold String.ltb, String.leb. rewrite (String.compare_antisym s1 s2).
  by destruct (String.compare s2 s1).
Qed.

Lemma string_leb_trans s1 s2 s3 :
  String.leb s1 s2 = true → String.leb s2 s3 = true → String.leb s1 s3 = true.
Proof.
  intros H12%Is_true_true H23%Is_true_true. apply Is_true_true.
  change (String.le s1 s3). by trans s2.
Qed.

Lemma insert_sorted_names_perm x (l : list string) :
  insert_sorted (fun f : string => f) String.ltb x l ≡ₚ x :: l.
Proof.
  induction l as [|y l IH]; cbn; [done|].
  destruct (String.ltb y x); [|done]. rewrite IH. apply Permutation_swap.
Qed.

Lemma py_sorted_names_perm (l : list string) :
  py_sorted (fun f : string => f) String.ltb l ≡ₚ l.
Proof.
  induction l as [|x l IH]; cbn; [done|].
  fold (py_sorted (fun f : string => f) String.ltb l).
  by rewrite insert_sorted_names_perm, IH.
Qed.

Lemma insert_sorted_names_sorted x (l : list string) :
  StronglySorted (fun a b => String.leb a b = true) l →
  StronglySorted (fun a b => String.leb a b = true)
    (insert_sorted (fun f : string => f) String.ltb x l).
Proof.
  induction 1 as [|y l Hl IH Hy]; cbn.
  - by repeat constructor.
  - destruct (String.ltb y x) eqn:Hlt.
    + constructor; [done|].
      rewrite insert_sorted_names_perm. constructor; [by apply string_ltb_leb|done].
    + apply string_ltb_false_leb in Hlt.
      constructor; [by constructor|].
      constructor; [done|]. eapply Forall_impl; [done|]. cbn. intros z Hz.
      by eapply string_leb_trans.
Qed.

Lemma py_sorted_names_sorted (l : list string) :
  StronglySorted (fun a b => String.leb a b = true)
    (py_sorted (fun f : string => f) String.ltb l).
Proof.
  induction l as [|x l IH]; cbn; [constructor|].
  by apply insert_sorted_names_sorted.
Qed.

Lemma string_leb_refl s : String.leb s s = true.
Proof. by destruct (String.leb_total s s). Qed.

Lemma sorted_names_last (l : list string) f g :
  StronglySorted (fun a b => String.leb a b = true) l →
  l !! (length l - 1)%nat = Some f → g ∈ l → String.leb g f = true.
Proof.
  induction 1 as [|x l Hl IH Hx]; [done|].
  destruct l as [|y l].
  - cbn. intros [= <-] ->%list_elem_of_singleton. apply string_leb_refl.
  - intros Hf [->|Hg]%elem_of_cons.
    + rewrite Forall_forall in Hx. apply Hx.
      eapply list_elem_of_lookup_2.
      replace (length (x :: y :: l) - 1)%nat with (S (length (y :: l) - 1)) in Hf
        by (cbn; lia).
      exact Hf.
    + apply IH; [|done].
      replace (length (x :: y :: l) - 1)%nat with (S (length (y :: l) - 1)) in Hf
        by (cbn; lia).
      exact Hf.
Qed.

(** The file chosen among the candidates of a listing. *)
Lemma latest_file_spec (listing : list string) :
  let candidates := filter (fun f => Is_true (json_file f)) listing in
  match candidates with
  | [] => latest_file listing = Ok None
  | _ =>
      ∃ f, latest_file listing = Ok (Some f)
           ∧ f ∈ candidates
           ∧ ∀ g, g ∈ candidates → String.leb g f = true
  end.
Proof.
  cbn zeta. unfold latest_file. cbn zeta.
  generalize (filter (fun f => Is_true (json_file f)) listing). intros candidates.
  destruct candidates as [|c cs]; [done|].
  change (length (c :: cs) =? 0)%nat with false. cbv iota.
  pose proof (py_sorted_names_perm (c :: cs)) as Hperm.
  pose proof (py_sorted_names_sorted (c :: cs)) as Hsorted.
  set (sorted := py_sorted (fun f : string => f) String.ltb (c :: cs)) in *.
  clearbody sorted.
  assert (is_Some (sorted !! (length sorted - 1)%nat)) as [f Hf].
  { apply lookup_lt_is_Some. pose proof (Permutation_length Hperm) as Hlen.
    cbn [length] in Hlen. lia. }
  exists f. unfold py_index. rewrite Hf. split; [done|]. split.
  - rewrite <- Hperm. by eapply list_elem_of_lookup_2.
  - intros g Hg. eapply sorted_names_last; [done..|]. by rewrite Hperm.
Qed.

(** X28.  The choice of the data file.  No file is chosen exactly when
    no name of the listing starts with [temperature_data_] and ends with
    [.json]; otherwise the chosen name is one of the listing that does,
    and it is the greatest of them in the order of strings.  The choice
    never raises and does not depend on the order of the listing. *)
Theorem latest_file_is_greatest (listing : list string) :
  (latest_file listing = Ok None
   ↔ ∀ g, g ∈ listing → json_file g = false)
  ∧ (∀ f, latest_file listing = Ok (Some f) →
       f ∈ listing ∧ json_file f = true
       ∧ ∀ g, g ∈ listing → json_file g = true → String.leb g f = true)
  ∧ (∃ r, latest_file listing = Ok r)
  ∧ ∀ listing', listing' ≡ₚ listing → latest_file listing' = latest_file listing.
Proof.
  assert (∀ (l : list string) g,
            g ∈ filter (fun f => Is_true (json_file f)) l
            ↔ g ∈ l ∧ json_file g = true) as Hcand.
  { intros l g. rewrite list_elem_of_filter, Is_true_true. tauto. }
  assert (∀ (l : list string) f, latest_file l = Ok (Some f) →
            f ∈ l ∧ json_file f = true
            ∧ ∀ g, g ∈ l → json_file g = true → String.leb g f = true) as Hsome.
  { intros l f Hf. pose proof (latest_file_spec l) as Hspec. cbn zeta in Hspec.
    destruct (filter _ l) as [|c cs] eqn:Hc; [congruence|].
    destruct Hspec as (f' & Hf' & Hin & Hmax).
    assert (f' = f) as -> by congruence. rewrite <- Hc in Hin, Hmax.
    apply Hcand in Hin as [??]. repeat split; try done.
    intros g Hg Hjson. apply Hmax, Hcand. done. }
  assert (∀ l : list string,
            latest_file l = Ok None ↔ ∀ g, g ∈ l → json_file g = false) as Hnone.
  { intros l. pose proof (latest_file_spec l) as Hspec. cbn zeta in Hspec.
    destruct (filter _ l) as [|c cs] eqn:Hc.
    - split; [|done]. intros _ g Hg.
      destruct (json_file g) eqn:Hj; [|done].
      assert (g ∈ filter (fun f => Is_true (json_file f)) l) as Hin by (by apply Hcand).
      rewrite Hc in Hin. by inversion Hin.
    - destruct Hspec as (f & Hf & Hin & _). split; [congruence|].
      intros Hall. rewrite <- Hc in Hin. apply Hcand in Hin as [Hin Hj].
      by rewrite (Hall f Hin) in Hj. }
  assert (∀ l, ∃ r, latest_file l = Ok r) as Htotal.
  { intros l. pose proof (latest_file_spec l) as Hspec. cbn zeta in Hspec.
    destruct (filter _ l); [eauto|]. destruct Hspec as (f & -> & _). eauto. }
  split; [apply Hnone|]. split; [apply Hsome|]. split; [apply Htotal|].
  intros listing' Hperm.
  destruct (Htotal listing) as [[f|] Hr], (Htotal listing') as [[f'|] Hr'];
    rewrite Hr, Hr'; try done.
  - f_equal. f_equal.
    destruct (Hsome _ _ Hr) as (Hin & Hj & Hmax).
    destruct (Hsome _ _ Hr') as (Hin' & Hj' & Hmax').
    apply String.leb_antisym.
    + apply Hmax; [by rewrite <- Hperm|done].
    + apply Hmax'; [by rewrite Hperm|done].
  - destruct (Hsome _ _ Hr) as (Hin & Hj & _).
    pose proof (proj1 (Hnone _) Hr') as Hall.
    rewrite (Hall f) in Hj; [done|by rewrite Hperm].
  - destruct (Hsome _ _ Hr') as (Hin & Hj & _).
    pose proof (proj1 (Hnone _) Hr) as Hall.
    rewrite (Hall f') in Hj; [done|by rewrite <- Hperm].
Qed.

Ltac string_app :=
  repeat match goal with
  | |- context [String.append (String ?c ?p) ?s] =>
      change (String.append (String c p) s) with (String c (String.append p s))
  | |- context [String.append EmptyString ?s] =>
      change (String.append EmptyString s) with s
  end.

(** Prefixes, suffixes and comparison of concatenated strings. *)
Lemma string_prefix_app (p s : string) : String.prefix p (p ++ s) = true.
Proof.
  induction p as [|c p IH]; string_app; [by destruct s|].
  cbn [String.prefix]. destruct (ascii_dec c c); [done|congruence].
Qed.

Lemma string_length_app (a b : string) :
  String.length (a ++ b) = (String.length a + String.length b)%nat.
Proof. induction a as [|c a IH]; string_app; cbn; [done|]. by rewrite IH. Qed.

Lemma string_substring_whole (s : string) : String.substring 0 (String.length s) s = s.
Proof. induction s as [|c s IH]; cbn; [done|]. by rewrite IH. Qed.

Lemma string_substring_suffix (a b : string) :
  String.substring (String.length a) (String.length b) (a ++ b) = b.
Proof.
  induction a as [|c a IH]; string_app; [apply string_substring_whole|]. cbn. exact IH.
Qed.

Lemma endswith_app (a suffix : string) : endswith (a ++ suffix) suffix = true.
Proof.
  unfold endswith. rewrite string_length_app.
  replace (String.length a + String.length suffix - String.length suffix)%nat
    with (String.length a) by lia.
  rewrite string_substring_suffix. apply String.eqb_refl.
Qed.

Lemma ascii_compare_refl c : Ascii.compare c c = Eq.
Proof. unfold Ascii.compare. apply N.compare_refl. Qed.

Lemma string_compare_refl s : String.compare s s = Eq.
Proof. induction s as [|c s IH]; cbn; [done|]. by rewrite ascii_compare_refl. Qed.

Lemma string_compare_app_prefix (p a b : string) :
  String.compare (p ++ a) (p ++ b) = String.compare a b.
Proof.
  induction p as [|c p IH]; string_app; [done|]. cbn.
  by rewrite ascii_compare_refl.
Qed.

Lemma string_compare_app_suffix (a b s : string) :
  String.length a = String.length b →
  String.compare (a ++ s) (b ++ s) = String.compare a b.
Proof.
  revert b. induction a as [|c a IH]; intros [|d b]; string_app; try done.
  - intros _. apply string_compare_refl.
  - intros [= Hlen]. cbn. destruct (Ascii.compare c d); [by apply IH|done..].
Qed.

Lemma string_app_assoc (a b c : string) :
  (a ++ (b ++ c))%string = ((a ++ b) ++ c)%string.
Proof. induction a as [|x a IH]; string_app; [done|]. by rewrite IH. Qed.

(** X29.  The name [save_temperature_data] gives a file by default is
    one the choice accepts, so a directory that holds such a file always
    yields a choice; and when the chosen file bears such a name, its
    timestamp is the greatest among the files so named whose timestamps
    have the same length. *)
Theorem latest_file_follows_timestamps (listing : list string) (t : string) :
  json_file (temperature_file_name t) = true
  ∧ (temperature_file_name t ∈ listing → latest_file listing ≠ Ok None)
  ∧ (latest_file listing = Ok (Some (temperature_file_name t)) →
     ∀ u, temperature_file_name u ∈ listing →
          String.length u = String.length t →
          String.leb u t = true).
Proof.
  assert (∀ u, json_file (temperature_file_name u) = true) as Hjson.
  { intros u. unfold json_file, temperature_file_name, startswith.
    rewrite string_prefix_app. cbn [andb].
    rewrite string_app_assoc. apply endswith_app. }
  pose proof (latest_file_spec listing) as Hspec. cbn zeta in Hspec.
  split; [apply Hjson|]. split.
  - intros Hin Hnone.
    assert (temperature_file_name t
            ∈ filter (fun f => Is_true (json_file f)) listing) as Hc.
    { apply list_elem_of_filter. by rewrite Hjson. }
    destruct (filter _ listing) as [|c cs]; [by inversion Hc|].
    destruct Hspec as (f & Hf & _). congruence.
  - intros Hlatest u Hu Hlen.
    assert (temperature_file_name u
            ∈ filter (fun f => Is_true (json_file f)) listing) as Hc.
    { apply list_elem_of_filter. by rewrite Hjson. }
    destruct (filter _ listing) as [|c cs] eqn:Hcs; [by inversion Hc|].
    destruct Hspec as (f & Hf & _ & Hmax).
    assert (f = temperature_file_name t) as -> by congruence.
    specialize (Hmax _ Hc). revert Hmax.
    unfold String.leb, temperature_file_name.
    by rewrite string_compare_app_prefix, string_compare_app_suffix.
Qed.

(** The sample listing: three candidates, the newest of which is chosen;
    the two other files are not data files. *)
Lemma latest_of_listing :
  latest_file Samples.listing = Ok (Some "temperature_data_20250103_070000.json").
Proof. reflexivity. Qed.

End latest_file_facts.
